(** * The agent runtime state layer of sarathy, embedded in Rocq

    The development follows three source files:
    - [sarathi/session/manager.py]: [Session] and [SessionManager], the
      cache-backed, disk-backed conversation store;
    - [sarathy/agent/skills.py]: [SkillsLoader] (static discovery, requirement
      gating, capability manifest) and [SkillManager] (the registry that is
      filled at start-up and kept current by the file watcher);
    - [sarathy/core/commands.py]: [CommandManager], the slash commands that
      are synchronised from the commands of the skills.

    Python values are dynamically typed; the embedding keeps that where the
    code relies on it (a record read from a session file, the result of a
    YAML or JSON parse) and uses Rocq types where the code fixes one (the
    fields of the dataclasses).  An operation that raises in Python returns
    [None] here. *)

From Stdlib Require Import ZArith String Ascii List Bool Lia DecimalString.
From stdpp Require Import base option list gmap strings fin_maps.

Set Warnings "-register-all".

(** ** Python values and the operations the sources use on them *)

Module Py.

(** What [json.loads] and [yaml.safe_load] can return, as far as the sources
    look at it.  Floating point numbers, dates and mappings with keys other
    than strings are not represented. *)
Inductive value : Type :=
| VNone
| VBool (b : bool)
| VInt (z : Z)
| VStr (s : string)
| VList (l : list value)
| VDict (d : list (string * value)).

(** A [dict] with string keys, in insertion order. *)
Definition dict (A : Type) : Type := list (string * A).

(** [d.get(k)] *)
Fixpoint dict_get {A} (k : string) (d : dict A) : option A :=
  match d with
  | [] => None
  | (k', v) :: d' => if String.eqb k k' then Some v else dict_get k d'
  end.

(** [d[k] = v]: an existing key keeps its place, a new one goes last.  The
    same holds for [OrderedDict]. *)
Fixpoint dict_set {A} (k : string) (v : A) (d : dict A) : dict A :=
  match d with
  | [] => [(k, v)]
  | (k', v') :: d' =>
      if String.eqb k k' then (k, v) :: d' else (k', v') :: dict_set k v d'
  end.

(** [del d[k]] / [d.pop(k, None)] *)
Fixpoint dict_del {A} (k : string) (d : dict A) : dict A :=
  match d with
  | [] => []
  | (k', v') :: d' =>
      if String.eqb k k' then d' else (k', v') :: dict_del k d'
  end.

(** [k in d] *)
Definition dict_mem {A} (k : string) (d : dict A) : bool :=
  match dict_get k d with Some _ => true | None => false end.

(** [bool(v)] *)
Definition truthy (v : value) : bool :=
  match v with
  | VNone => false
  | VBool b => b
  | VInt z => negb (Z.eqb z 0)
  | VStr s => negb (String.eqb s "")
  | VList l => match l with [] => false | _ => true end
  | VDict d => match d with [] => false | _ => true end
  end.

(** [v == s] for a string literal [s] *)
Definition eq_str (v : value) (s : string) : bool :=
  match v with VStr s' => String.eqb s' s | _ => false end.

(** [l[start:]] for any integer [start]: a negative one counts from the end,
    and both ends are clamped. *)
Definition slice_from {A} (start : Z) (l : list A) : list A :=
  let n := Z.of_nat (length l) in
  let i := if (start <? 0)%Z then Z.max (n + start) 0 else Z.min start n in
  drop (Z.to_nat i) l.

(** [l[start:]] for a value found where an integer is expected: [None]
    stands for the start, a [bool] is an [int], anything else is a
    [TypeError]. *)
Definition slice_from_value {A} (start : value) (l : list A)
  : option (list A) :=
  match start with
  | VNone => Some l
  | VInt z => Some (slice_from z l)
  | VBool b => Some (slice_from (Z.b2z b) l)
  | _ => None
  end.

(** The last [n] elements of [l] (all of it when [l] is shorter). *)
Definition last_n {A} (n : nat) (l : list A) : list A :=
  drop (length l - n) l.

Lemma slice_from_nonneg {A} (start : Z) (l : list A) :
  (0 <= start)%Z -> slice_from start l = drop (Z.to_nat start) l.
Proof.
  intros H. unfold slice_from.
  destruct (Z.ltb_spec start 0) as [Hlt|_]; [lia|].
  destruct (Z.le_gt_cases start (Z.of_nat (length l))) as [Hle|Hgt].
  - by rewrite Z.min_l.
  - rewrite Z.min_r by lia. rewrite Nat2Z.id.
    rewrite !drop_ge; [done | lia | lia].
Qed.

Lemma slice_from_neg {A} (n : Z) (l : list A) :
  (0 < n)%Z -> slice_from (- n) l = last_n (Z.to_nat n) l.
Proof.
  intros H. unfold slice_from, last_n.
  destruct (Z.ltb_spec (- n) 0) as [_|Hge]; [|lia].
  f_equal. lia.
Qed.

Lemma slice_from_zero {A} (l : list A) : slice_from 0 l = l.
Proof. by rewrite slice_from_nonneg. Qed.

Lemma length_last_n {A} (n : nat) (l : list A) :
  length (last_n n l) = Nat.min n (length l).
Proof. unfold last_n. rewrite length_drop. lia. Qed.

End Py.

(** ** Strings

    A character is a code point below 256, so a [string] stands for a Python
    [str] over Latin-1.  The functions are the [str] methods the sources
    call. *)

Module Str.

Definition LF : ascii := "010"%char.
Definition CR : ascii := "013"%char.

(** [c.isspace()] *)
Definition is_space (c : ascii) : bool :=
  match c with
  | "009" | "010" | "011" | "012" | "013"
  | "028" | "029" | "030" | "031" | " " | "133" | "160" => true
  | _ => false
  end%char.

Definition is_char (a : ascii) (c : ascii) : bool := Ascii.eqb c a.

(** A line of a text file ends at a line feed or a carriage return. *)
Definition is_line_end (c : ascii) : bool := is_char LF c || is_char CR c.

Fixpoint lstrip_by (p : ascii -> bool) (s : string) : string :=
  match s with
  | "" => ""
  | String c s' => if p c then lstrip_by p s' else s
  end.

Fixpoint rstrip_by (p : ascii -> bool) (s : string) : string :=
  match s with
  | "" => ""
  | String c s' =>
      match rstrip_by p s' with
      | "" => if p c then "" else String c ""
      | r => String c r
      end
  end.

(** [s.strip(chars)], the characters given by a predicate *)
Definition strip_by (p : ascii -> bool) (s : string) : string :=
  rstrip_by p (lstrip_by p s).

(** [s.strip()] *)
Definition strip (s : string) : string := strip_by is_space s.

(** [s.split(sep)] for a separator of one character: one field more than
    there are separators. *)
Fixpoint split_by (p : ascii -> bool) (s : string) : list string :=
  match s with
  | "" => [""]
  | String c s' =>
      if p c then "" :: split_by p s'
      else match split_by p s' with
           | [] => [String c ""]
           | field :: fields => String c field :: fields
           end
  end.

(** [sep.join(l)] *)
Fixpoint join (sep : string) (l : list string) : string :=
  match l with
  | [] => ""
  | [s] => s
  | s :: l' => s +:+ sep +:+ join sep l'
  end.

(** [s.startswith(p)] *)
Definition startswith (p s : string) : bool := String.prefix p s.

(** The text before the first occurrence of [pat] in [s]; [None] when [pat]
    does not occur. *)
Fixpoint before_first (pat : string) (s : string) : option string :=
  if String.prefix pat s then Some ""
  else match s with
       | "" => None
       | String c s' => String c <$> before_first pat s'
       end.

(** [s.split(c, 1)] when [c in s]: the text before the first [c] and the text
    after it. *)
Fixpoint split_once (c : ascii) (s : string) : option (string * string) :=
  match s with
  | "" => None
  | String c' s' =>
      if Ascii.eqb c' c then Some ("", s')
      else prod_map (String c') id <$> split_once c s'
  end.

(** [s.replace(c, rep)] for a pattern of one character *)
Fixpoint replace_char (c : ascii) (rep : string) (s : string) : string :=
  match s with
  | "" => ""
  | String c' s' =>
      if Ascii.eqb c' c then rep +:+ replace_char c rep s'
      else String c' (replace_char c rep s')
  end.

(** The characters of [s], each as a string: what iterating over a [str]
    yields. *)
Fixpoint chars (s : string) : list string :=
  match s with
  | "" => []
  | String c s' => String c "" :: chars s'
  end.


(** [p] holds of every character of [s]. *)
Fixpoint forall_chars (p : ascii -> bool) (s : string) : bool :=
  match s with
  | "" => true
  | String c s' => p c && forall_chars p s'
  end.

(** No character of [s] ends a line. *)
Definition one_line (s : string) : bool :=
  forall_chars (fun c => negb (is_line_end c)) s.

Lemma append_nil_l (s : string) : "" +:+ s = s.
Proof. reflexivity. Qed.

Lemma append_cons (c : ascii) (s t : string) :
  String c s +:+ t = String c (s +:+ t).
Proof. reflexivity. Qed.

Lemma split_by_nonempty (p : ascii -> bool) (s : string) :
  split_by p s <> [].
Proof.
  destruct s as [|c s]; simpl; [done|].
  destruct (p c); [done|]. by destruct (split_by p s).
Qed.

(** Cutting a text whose first separator follows [s]. *)
Lemma split_by_first_field (p : ascii -> bool) (s rest : string) (c : ascii) :
  forall_chars (fun x => negb (p x)) s = true ->
  p c = true ->
  split_by p (s +:+ String c rest) = s :: split_by p rest.
Proof.
  intros Hs Hc. induction s as [|x s IH].
  - rewrite append_nil_l. simpl. by rewrite Hc.
  - simpl in Hs. apply andb_true_iff in Hs as [Hx Hs].
    rewrite append_cons. simpl.
    apply negb_true_iff in Hx. rewrite Hx.
    by rewrite (IH Hs).
Qed.

Lemma is_line_end_LF : is_line_end LF = true.
Proof. reflexivity. Qed.

End Str.

(** ** [Session] (sarathi/session/manager.py) *)

Module SessionModel.
Import Py.

(** One entry of [Session.messages]: a [dict[str, Any]]. *)
Definition message : Type := dict value.

(** A [datetime], as an instant on the clock. *)
Definition datetime : Type := Z.

(** The dataclass.  Its annotations are not enforced: [_load] stores in
    [metadata] and [last_consolidated] whatever the metadata record of the
    file holds, so the two fields are values. *)
Record Session : Type := mkSession {
  key : string;
  messages : list message;
  created_at : datetime;
  updated_at : datetime;
  metadata : value;
  last_consolidated : value
}.

(** [Session(key=key)] with the dataclass defaults; [now] is what
    [datetime.now()] returns. *)
Definition new_session (k : string) (now : datetime) : Session :=
  mkSession k [] now now (VDict []) (VInt 0).

(** [Session.add_message].  [role] and [content] are named parameters, so a
    keyword argument of the same name is a [TypeError] at the call; any other
    keyword lands in the record, after the three fixed keys. *)
Definition add_message (s : Session) (role content : value)
    (kwargs : dict value) (now : datetime) (now_iso : string)
  : option Session :=
  if dict_mem "role" kwargs || dict_mem "content" kwargs then None
  else
    let msg :=
      foldl (fun m kv => dict_set kv.1 kv.2 m)
            [("role", role); ("content", content); ("timestamp", VStr now_iso)]
            kwargs in
    Some (mkSession (key s) (messages s ++ [msg]) (created_at s) now
                    (metadata s) (last_consolidated s)).

(** [m.get("role") == "user"] *)
Definition is_user (m : message) : bool :=
  match dict_get "role" m with
  | Some v => eq_str v "user"
  | None => false
  end.

(** The loop of [get_history]: the slice from the first user message on when
    the loop reaches its [break], [None] when it runs to the end. *)
Fixpoint from_first_user (sliced : list message) : option (list message) :=
  match sliced with
  | [] => None
  | m :: rest => if is_user m then Some sliced else from_first_user rest
  end.

(** The body of the second loop: [m["role"]] is a [KeyError] when the key is
    missing. *)
Definition history_entry (m : message) : option message :=
  role ← dict_get "role" m;
  let entry := [("role", role);
                ("content", default (VStr "") (dict_get "content" m))] in
  Some (foldl (fun e k => match dict_get k m with
                          | Some v => dict_set k v e
                          | None => e
                          end)
              entry ["tool_calls"; "tool_call_id"; "name"]).

(** [Session.get_history] *)
Definition get_history (s : Session) (max_messages : Z)
  : option (list message) :=
  unconsolidated ← slice_from_value (last_consolidated s) (messages s);
  let sliced := slice_from (- max_messages) unconsolidated in
  let sliced := default sliced (from_first_user sliced) in
  mapM history_entry sliced.

(** [Session.clear] *)
Definition clear (s : Session) (now : datetime) : Session :=
  mkSession (key s) [] (created_at s) now (metadata s) (VInt 0).

(** The invariant of the data model. *)
Definition offset_in_range (s : Session) : Prop :=
  exists n : Z, last_consolidated s = VInt n /\
                (0 <= n <= Z.of_nat (length (messages s)))%Z.


(** *** What [get_history] returns *)

Lemma from_first_user_none (sliced : list message) :
  from_first_user sliced = None <-> Forall (fun m => is_user m = false) sliced.
Proof.
  induction sliced as [|m rest IH]; simpl.
  - split; [constructor | done].
  - destruct (is_user m) eqn:Hm.
    + split; [done|]. intros H. inversion H; congruence.
    + rewrite IH. split; [by constructor | by inversion 1].
Qed.

(** When the loop breaks, what is kept starts with a user message and what
    was dropped before it holds none. *)
Lemma from_first_user_some (sliced kept : list message) :
  from_first_user sliced = Some kept ->
  exists dropped m rest,
    sliced = dropped ++ kept /\ kept = m :: rest /\ is_user m = true /\
    Forall (fun m' => is_user m' = false) dropped.
Proof.
  revert kept. induction sliced as [|m rest IH]; intros kept; simpl; [done|].
  destruct (is_user m) eqn:Hm.
  - intros [= <-]. by exists [], m, rest.
  - intros H. destruct (IH _ H) as (dropped & m' & rest' & -> & -> & Hu & Hd).
    exists (m :: dropped), m', rest'. repeat split; [done|]. by constructor.
Qed.

(** With an integer offset in range and a positive limit, the two slices
    are the unconsolidated tail and its last [max_messages] entries. *)
Lemma get_history_slices (s : Session) (n max_messages : Z) :
  last_consolidated s = VInt n ->
  (0 <= n)%Z -> (0 < max_messages)%Z ->
  get_history s max_messages =
    let sliced := last_n (Z.to_nat max_messages)
                         (drop (Z.to_nat n) (messages s)) in
    mapM history_entry (default sliced (from_first_user sliced)).
Proof.
  intros Hn H0 Hmax. unfold get_history. rewrite Hn.
  unfold slice_from_value. cbn [mbind option_bind].
  rewrite (slice_from_nonneg n) by done.
  by rewrite (slice_from_neg max_messages) by done.
Qed.

(** A limit of zero is no limit: [l[-0:]] is all of [l]. *)
Lemma get_history_zero_limit (s : Session) (n : Z) :
  last_consolidated s = VInt n ->
  get_history s 0 =
    let sliced := slice_from n (messages s) in
    mapM history_entry (default sliced (from_first_user sliced)).
Proof.
  intros Hn. unfold get_history. rewrite Hn.
  unfold slice_from_value. cbn [mbind option_bind].
  change (- 0)%Z with 0%Z. by rewrite slice_from_zero.
Qed.

(** A retained slice without a user message is returned whole: the loop
    ends without its [break] and leaves [sliced] as it was. *)
Lemma get_history_no_user (s : Session) (n max_messages : Z) :
  last_consolidated s = VInt n ->
  Forall (fun m => is_user m = false)
         (slice_from (- max_messages) (slice_from n (messages s))) ->
  get_history s max_messages =
    mapM history_entry
         (slice_from (- max_messages) (slice_from n (messages s))).
Proof.
  intros Hn Hno. unfold get_history. rewrite Hn.
  unfold slice_from_value. cbn [mbind option_bind].
  apply from_first_user_none in Hno. by rewrite Hno.
Qed.

(** The projection keeps [role] and [content] and, of the three optional
    keys, those the message has. *)
Lemma history_entry_keys (m entry : message) (k : string) :
  history_entry m = Some entry ->
  dict_get k entry =
    if String.eqb k "role" then dict_get "role" m
    else if String.eqb k "content"
         then Some (default (VStr "") (dict_get "content" m))
    else if String.eqb k "tool_calls" || String.eqb k "tool_call_id"
            || String.eqb k "name"
         then dict_get k m
    else None.
Proof.
  unfold history_entry. destruct (dict_get "role" m) as [role|]; [|done].
  simpl. intros [= <-].
  destruct (dict_get "tool_calls" m) as [v1|] eqn:H1;
    destruct (dict_get "tool_call_id" m) as [v2|] eqn:H2;
    destruct (dict_get "name" m) as [v3|] eqn:H3; simpl;
    repeat (match goal with
            | |- context [String.eqb ?a ?b] =>
                destruct (String.eqb_spec a b); try discriminate; subst
            end; simpl); congruence.
Qed.

(** A retained message without the key [role] makes the projection, and
    with it [get_history], raise. *)
Lemma history_entry_needs_role (m : message) :
  dict_get "role" m = None -> history_entry m = None.
Proof. intros H. unfold history_entry. by rewrite H. Qed.

(** A session whose only message is the assistant's. *)
Definition assistant_only : Session :=
  mkSession "cli:direct"
    [[("role", VStr "assistant"); ("content", VStr "hi");
      ("timestamp", VStr "2026-01-01T00:00:00")]]
    0%Z 0%Z (VDict []) (VInt 0).

(** C1: [get_history] on a session whose unconsolidated tail holds no user
    message.  The specification has it return the empty list; the code
    returns the tail, projected: here the one assistant message. *)
Theorem get_history_without_user_returns_tail :
  from_first_user (messages assistant_only) = None /\
  get_history assistant_only 500 =
    Some [[("role", VStr "assistant"); ("content", VStr "hi")]].
Proof. split; reflexivity. Qed.

(** *** The offset invariant under the methods of [Session] *)

Lemma new_session_in_range (k : string) (now : datetime) :
  offset_in_range (new_session k now).
Proof. exists 0%Z. simpl. split; [done | lia]. Qed.

Lemma add_message_in_range (s s' : Session) (role content : value)
    (kwargs : dict value) (now : datetime) (now_iso : string) :
  offset_in_range s ->
  add_message s role content kwargs now now_iso = Some s' ->
  offset_in_range s' /\
  length (messages s') = S (length (messages s)) /\
  last_consolidated s' = last_consolidated s.
Proof.
  intros (n & Hn & Hr) H. unfold add_message in H.
  destruct (dict_mem "role" kwargs || dict_mem "content" kwargs); [done|].
  injection H as <-. simpl. rewrite length_app. simpl.
  split; [|split; [lia | done]].
  exists n. simpl. rewrite length_app. simpl. split; [done | lia].
Qed.

Lemma clear_in_range (s : Session) (now : datetime) :
  offset_in_range (clear s now).
Proof. exists 0%Z. simpl. split; [done | lia]. Qed.

End SessionModel.

(** ** [SessionManager] (sarathi/session/manager.py)

    The manager is modelled together with the two stores it works on: the
    [Session] objects that exist in the program, addressed by reference, and
    the session files.  The cache holds references, as the [OrderedDict] of
    the source does, so a session handed out twice is the same object.

    What the module imports is a parameter of the section: the JSON codec,
    the ISO format of [datetime], [safe_filename] (sarathi/utils/helpers.py
    is not among the sources) and what [shutil.move] does. *)

Module ManagerModel.
Import Py SessionModel.

(** A reference to a [Session] object. *)
Abbreviation loc := nat (only parsing).

(** A file is addressed by its directory and its name in it:
    [safe_filename] is taken to return one path component. *)
Abbreviation path := (string * string)%type (only parsing).

(** The fields of [SessionManager]. *)
Record SessionManager : Type := mkManager {
  sessions_dir : string;
  legacy_sessions_dir : string;
  _max_cache_size : Z;
  _max_session_messages : Z;
  _cache : dict loc
}.

Record World : Type := mkWorld {
  mgr : SessionManager;
  objects : gmap loc Session;
  files : gmap path string
}.

Definition set_cache (c : dict loc) (m : SessionManager) : SessionManager :=
  mkManager (sessions_dir m) (legacy_sessions_dir m) (_max_cache_size m)
            (_max_session_messages m) c.

(** [OrderedDict.move_to_end(k)] for a key that is present. *)
Definition move_to_end {A} (k : string) (d : dict A) : dict A :=
  match dict_get k d with
  | Some v => dict_del k d ++ [(k, v)]
  | None => d
  end.

(** The line separator that [save] writes. *)
Definition NL : string := String Str.LF "".

(** The ways a [shutil.move(src, dst)] of a file to a path that is free
    ends.  It renames the file; when the rename is refused (the two
    directories are on different file systems) it copies the file and then
    removes the source.  So it returns with the file moved; or it raises
    with nothing written; or it raises after the copy (the file times
    cannot be set, or the source cannot be removed), and then the
    destination holds the text and the source is still there.  A copy that
    stops half-way is a failure of the disk, which the model does not
    have. *)
Inductive move_outcome : Type :=
| Moved
| Raises
| RaisesAfterCopy.

Section Manager.

(** [json.dumps(v, ensure_ascii=False)] and [json.loads(s)], which raises on
    text that is not JSON. *)
Variable dumps : value -> string.
Variable loads : string -> option value.
(** [datetime.isoformat] and [datetime.fromisoformat] *)
Variable isoformat : datetime -> string.
Variable fromisoformat : string -> option datetime.
Variable safe_filename : string -> string.
(** What [shutil.move(src, dst)] does for these [src] and [dst]. *)
Variable shutil_move : path -> path -> move_outcome.

Definition session_file_name (k : string) : string :=
  safe_filename (Str.replace_char ":" "_" k) +:+ ".jsonl".

Definition _get_session_path (self : SessionManager) (k : string) : path :=
  (sessions_dir self, session_file_name k).

Definition _get_legacy_session_path (self : SessionManager) (k : string)
  : path :=
  (legacy_sessions_dir self, session_file_name k).

(** The first part of [_load]: a legacy file moves to the workspace when the
    workspace has none. *)
Definition migrate (self : SessionManager) (k : string)
    (fs : gmap path string) : gmap path string :=
  let p := _get_session_path self k in
  match fs !! p with
  | Some _ => fs
  | None =>
      let legacy := _get_legacy_session_path self k in
      match fs !! legacy with
      | Some text =>
          match shutil_move legacy p with
          | Moved => <[p := text]> (delete legacy fs)
          | Raises => fs
          | RaisesAfterCopy => <[p := text]> fs
          end
      | None => fs
      end
  end.

(** The local variables of [_load] while it reads the file. *)
Record loading : Type := mkLoading {
  ld_messages : list message;
  ld_metadata : value;
  ld_created_at : option datetime;
  ld_last_consolidated : value
}.

Definition loading_start : loading := mkLoading [] (VDict []) None (VInt 0).

(** [data.get("_type") == "metadata"] *)
Definition is_metadata_record (d : dict value) : bool :=
  match dict_get "_type" d with
  | Some v => eq_str v "metadata"
  | None => false
  end.

(** One turn of the loop over the lines of the file; [None] when the body
    raises ([json.loads] on bad text, [.get] on a value that is no [dict],
    [fromisoformat] on a bad date). *)
Definition load_line (acc : loading) (line : string) : option loading :=
  let line := Str.strip line in
  if String.eqb line "" then Some acc
  else
    data ← loads line;
    match data with
    | VDict d =>
        if is_metadata_record d then
          created ← match dict_get "created_at" d with
                    | Some v =>
                        if truthy v then
                          match v with
                          | VStr iso => Some <$> fromisoformat iso
                          | _ => None
                          end
                        else Some None
                    | None => Some None
                    end;
          Some (mkLoading (ld_messages acc)
                  (default (VDict []) (dict_get "metadata" d))
                  created
                  (default (VInt 0) (dict_get "last_consolidated" d)))
        else
          Some (mkLoading (ld_messages acc ++ [d]) (ld_metadata acc)
                  (ld_created_at acc) (ld_last_consolidated acc))
    | _ => None
    end.

Fixpoint load_lines (acc : loading) (lines : list string) : option loading :=
  match lines with
  | [] => Some acc
  | line :: rest => acc' ← load_line acc line; load_lines acc' rest
  end.

(** The lines of a text file.  Python ends a line at a line feed, a carriage
    return or the two in a row; every line is stripped and a blank one is
    skipped before it is looked at, so cutting at each of the two characters
    gives the loop the same records. *)
Definition file_lines (text : string) : list string :=
  Str.split_by Str.is_line_end text.

(** The second part of [_load]: the [try] block, on the text of the file. *)
Definition parse_session (k : string) (text : string) (now : datetime)
  : option Session :=
  acc ← load_lines loading_start (file_lines text);
  Some (mkSession k (ld_messages acc) (default now (ld_created_at acc)) now
          (ld_metadata acc) (ld_last_consolidated acc)).

(** [SessionManager._load]: the session, if one was read, and the files
    after the migration. *)
Definition _load (self : SessionManager) (fs : gmap path string)
    (k : string) (now : datetime) : option Session * gmap path string :=
  let fs' := migrate self k fs in
  match fs' !! _get_session_path self k with
  | None => (None, fs')
  | Some text => (parse_session k text now, fs')
  end.

(** [OrderedDict.popitem(last=False)] *)
Definition pop_first {A} (d : dict A) : dict A := tail d.

(** [SessionManager.get_or_create]: the reference it returns and the world
    after the call. *)
Definition get_or_create (w : World) (k : string) (now : datetime)
  : loc * World :=
  let self := mgr w in
  match dict_get k (_cache self) with
  | Some l =>
      (l, mkWorld (set_cache (move_to_end k (_cache self)) self)
                  (objects w) (files w))
  | None =>
      let '(loaded, fs) := _load self (files w) k now in
      let session := default (new_session k now) loaded in
      let l := fresh (dom (objects w)) in
      let cache := dict_set k l (_cache self) in
      let cache :=
        if (Z.of_nat (length cache) >? _max_cache_size self)%Z
        then pop_first cache else cache in
      (l, mkWorld (set_cache cache self) (<[l := session]> (objects w)) fs)
  end.

(** The record [save] writes on the first line. *)
Definition metadata_line (s : Session) : value :=
  VDict [("_type", VStr "metadata");
         ("key", VStr (key s));
         ("created_at", VStr (isoformat (created_at s)));
         ("updated_at", VStr (isoformat (updated_at s)));
         ("metadata", metadata s);
         ("last_consolidated", last_consolidated s)].

(** [f.write(json.dumps(r, ensure_ascii=False) + "\n")] for each record *)
Definition write_lines (records : list value) : string :=
  foldr (fun r text => dumps r +:+ NL +:+ text) "" records.

(** The text of the file of a session: the metadata record, then the
    messages. *)
Definition session_text (s : Session) : string :=
  write_lines (metadata_line s :: map VDict (messages s)).

(** The first part of [save]: a session with more messages than the limit
    keeps [messages[-limit:]] and its offset goes back to 0.  The source
    assigns the offset before it writes and the messages after; by the end
    of [save] the object holds both. *)
Definition truncate (self : SessionManager) (s : Session) : Session :=
  if (Z.of_nat (length (messages s)) >? _max_session_messages self)%Z
  then mkSession (key s)
         (slice_from (- _max_session_messages self) (messages s))
         (created_at s) (updated_at s) (metadata s) (VInt 0)
  else s.

(** [SessionManager.save], for the session object at [l].  The write is
    taken to succeed; a reference to no object does not arise. *)
Definition save (w : World) (l : loc) : World :=
  match objects w !! l with
  | None => w
  | Some s =>
      let self := mgr w in
      let s' := truncate self s in
      mkWorld (set_cache (dict_set (key s) l (_cache self)) self)
              (<[l := s']> (objects w))
              (<[_get_session_path self (key s) := session_text s']>
                 (files w))
  end.

(** [SessionManager.invalidate] *)
Definition invalidate (w : World) (k : string) : World :=
  mkWorld (set_cache (dict_del k (_cache (mgr w))) (mgr w))
          (objects w) (files w).


(** *** Reading back what [save] wrote *)

(** The codec reads [r] back from the line it writes for it. *)
Definition codec_ok (r : value) : Prop :=
  Str.one_line (dumps r) = true /\
  Str.strip (dumps r) <> "" /\
  loads (Str.strip (dumps r)) = Some r.

(** The records [save] writes for [s]. *)
Definition records_of (s : Session) : list value :=
  metadata_line s :: map VDict (messages s).

Lemma write_lines_cons (r : value) (records : list value) :
  write_lines (r :: records) =
    dumps r +:+ String Str.LF (write_lines records).
Proof. reflexivity. Qed.

Lemma file_lines_write_lines (records : list value) :
  Forall (fun r => Str.one_line (dumps r) = true) records ->
  file_lines (write_lines records) = map dumps records ++ [""].
Proof.
  induction 1 as [|r rs Hr _ IH]; [done|].
  rewrite write_lines_cons. unfold file_lines in *.
  rewrite Str.split_by_first_field; [|exact Hr|reflexivity].
  cbn [map app]. by rewrite IH.
Qed.

Lemma load_lines_app (acc : loading) (l1 l2 : list string) :
  load_lines acc (l1 ++ l2) = acc' ← load_lines acc l1; load_lines acc' l2.
Proof.
  revert acc. induction l1 as [|x l1 IH]; intros acc; simpl; [done|].
  destruct (load_line acc x); simpl; [apply IH | done].
Qed.

Lemma load_line_message (acc : loading) (m : message) :
  codec_ok (VDict m) ->
  is_metadata_record m = false ->
  load_line acc (dumps (VDict m)) =
    Some (mkLoading (ld_messages acc ++ [m]) (ld_metadata acc)
            (ld_created_at acc) (ld_last_consolidated acc)).
Proof.
  intros (_ & Hne & Hload) Hm. unfold load_line.
  apply String.eqb_neq in Hne. rewrite Hne, Hload. simpl. by rewrite Hm.
Qed.

Lemma load_lines_messages (acc : loading) (msgs : list message) :
  Forall codec_ok (map VDict msgs) ->
  Forall (fun m => is_metadata_record m = false) msgs ->
  load_lines acc (map dumps (map VDict msgs)) =
    Some (mkLoading (ld_messages acc ++ msgs) (ld_metadata acc)
            (ld_created_at acc) (ld_last_consolidated acc)).
Proof.
  revert acc. induction msgs as [|m msgs IH]; intros acc Hc Hm.
  - simpl. rewrite app_nil_r. by destruct acc.
  - inversion Hc as [|? ? Hc1 Hc2]; inversion Hm as [|? ? Hm1 Hm2]; subst.
    cbn [map load_lines]. rewrite (load_line_message _ _ Hc1 Hm1).
    cbn [mbind option_bind]. rewrite (IH _ Hc2 Hm2). simpl.
    by rewrite <- app_assoc.
Qed.

(** The ISO text of [t] is read back, as far as [_load] looks at it. *)
Definition created_at_read (t : datetime) : option datetime :=
  if truthy (VStr (isoformat t)) then Some t else None.

Lemma load_line_metadata (acc : loading) (s : Session) :
  codec_ok (metadata_line s) ->
  fromisoformat (isoformat (created_at s)) = Some (created_at s) ->
  load_line acc (dumps (metadata_line s)) =
    Some (mkLoading (ld_messages acc) (metadata s)
            (created_at_read (created_at s)) (last_consolidated s)).
Proof.
  intros (_ & Hne & Hload) Hiso. unfold load_line.
  apply String.eqb_neq in Hne. rewrite Hne, Hload.
  unfold metadata_line, created_at_read.
  cbn [mbind option_bind is_metadata_record dict_get String.eqb Ascii.eqb
       Bool.eqb eq_str default].
  destruct (truthy (VStr (isoformat (created_at s)))); [|done].
  by rewrite Hiso.
Qed.

(** When the date is not read back the line fails; it never yields other
    metadata. *)
Lemma load_line_metadata_inv (acc acc' : loading) (s : Session) :
  codec_ok (metadata_line s) ->
  load_line acc (dumps (metadata_line s)) = Some acc' ->
  ld_messages acc' = ld_messages acc /\
  ld_metadata acc' = metadata s /\
  ld_last_consolidated acc' = last_consolidated s.
Proof.
  intros (_ & Hne & Hload). unfold load_line.
  apply String.eqb_neq in Hne. rewrite Hne, Hload.
  unfold metadata_line.
  cbn [mbind option_bind is_metadata_record dict_get String.eqb Ascii.eqb
       Bool.eqb eq_str default].
  destruct (truthy (VStr (isoformat (created_at s)))).
  - destruct (fromisoformat _); simpl; [|done]. by intros [= <-].
  - simpl. by intros [= <-].
Qed.

(** The session [_load] builds from the text [save] wrote for [s], under
    the key [k]. *)
Definition reloaded_as (k : string) (s : Session) (now : datetime) : Session :=
  mkSession k (messages s)
    (default now (created_at_read (created_at s))) now
    (metadata s) (last_consolidated s).

Definition reloaded (s : Session) (now : datetime) : Session :=
  reloaded_as (key s) s now.

Lemma parse_session_text (k : string) (s : Session) (now : datetime) :
  Forall codec_ok (records_of s) ->
  Forall (fun m => is_metadata_record m = false) (messages s) ->
  fromisoformat (isoformat (created_at s)) = Some (created_at s) ->
  parse_session k (session_text s) now = Some (reloaded_as k s now).
Proof.
  intros Hc Hm Hiso. unfold parse_session, session_text.
  rewrite file_lines_write_lines.
  2:{ eapply Forall_impl; [exact Hc|]. by intros r (? & _). }
  inversion Hc as [|? ? Hc1 Hc2]; subst.
  cbn [map app load_lines].
  rewrite (load_line_metadata _ _ Hc1 Hiso). cbn [mbind option_bind].
  rewrite load_lines_app, (load_lines_messages _ _ Hc2 Hm).
  reflexivity.
Qed.

(** Whatever the dates, a session read from the text of [s] has the
    messages, the metadata and the offset of [s]. *)
Lemma parse_session_text_inv (k : string) (s s' : Session) (now : datetime) :
  Forall codec_ok (records_of s) ->
  Forall (fun m => is_metadata_record m = false) (messages s) ->
  parse_session k (session_text s) now = Some s' ->
  messages s' = messages s /\
  metadata s' = metadata s /\
  last_consolidated s' = last_consolidated s.
Proof.
  intros Hc Hm. unfold parse_session, session_text.
  rewrite file_lines_write_lines.
  2:{ eapply Forall_impl; [exact Hc|]. by intros r (? & _). }
  inversion Hc as [|? ? Hc1 Hc2]; subst.
  cbn [map app load_lines].
  destruct (load_line loading_start (dumps (metadata_line s)))
    as [acc|] eqn:Hline; [|done].
  destruct (load_line_metadata_inv _ _ _ Hc1 Hline) as (Ha1 & Ha2 & Ha3).
  cbn [mbind option_bind].
  rewrite load_lines_app, (load_lines_messages _ _ Hc2 Hm).
  cbn [mbind option_bind load_lines load_line]. simpl.
  intros [= <-]. simpl. by rewrite Ha1, Ha2, Ha3.
Qed.

(** *** [save] *)

Lemma dict_get_set_eq {A} (k : string) (v : A) (d : dict A) :
  dict_get k (dict_set k v d) = Some v.
Proof.
  induction d as [|[k' v'] d IH]; simpl.
  - by rewrite String.eqb_refl.
  - destruct (String.eqb k k') eqn:E; simpl.
    + by rewrite String.eqb_refl.
    + by rewrite E.
Qed.

Lemma dict_get_set_ne {A} (k k0 : string) (v : A) (d : dict A) :
  k0 <> k -> dict_get k0 (dict_set k v d) = dict_get k0 d.
Proof.
  intros Hne. induction d as [|[k' v'] d IH]; simpl.
  - apply String.eqb_neq in Hne. by rewrite Hne.
  - destruct (String.eqb_spec k k') as [->|Hk]; simpl.
    + apply String.eqb_neq in Hne. by rewrite Hne.
    + by rewrite IH.
Qed.

(** A key that is present keeps its place. *)
Lemma dict_set_present {A} (k : string) (v v0 : A) (d : dict A) :
  dict_get k d = Some v0 ->
  d.*1 = (dict_set k v d).*1 /\ length (dict_set k v d) = length d.
Proof.
  induction d as [|[k' v'] d IH]; simpl; [done|].
  destruct (String.eqb_spec k k') as [->|Hk]; [done|].
  intros H. destruct (IH H) as [IH1 IH2].
  split; [rewrite !fmap_cons; by f_equal | simpl; lia].
Qed.

(** A key that is absent goes last. *)
Lemma dict_set_absent {A} (k : string) (v : A) (d : dict A) :
  dict_get k d = None -> dict_set k v d = d ++ [(k, v)].
Proof.
  induction d as [|[k' v'] d IH]; simpl; [done|].
  destruct (String.eqb k k'); [done|]. intros H. by rewrite (IH H).
Qed.

Lemma length_dict_set {A} (k : string) (v : A) (d : dict A) :
  length d <= length (dict_set k v d).
Proof.
  induction d as [|[k' v'] d IH]; simpl; [lia|].
  destruct (String.eqb k k'); simpl; lia.
Qed.

Lemma save_unfold (w : World) (l : loc) (s : Session) :
  objects w !! l = Some s ->
  save w l =
    mkWorld (set_cache (dict_set (key s) l (_cache (mgr w))) (mgr w))
      (<[l := truncate (mgr w) s]> (objects w))
      (<[_get_session_path (mgr w) (key s) :=
           session_text (truncate (mgr w) s)]> (files w)).
Proof. intros H. unfold save. by rewrite H. Qed.

(** With a positive limit, truncation keeps the most recent messages. *)
Lemma truncate_over_limit (self : SessionManager) (s : Session) :
  (0 < _max_session_messages self)%Z ->
  (Z.of_nat (length (messages s)) > _max_session_messages self)%Z ->
  truncate self s =
    mkSession (key s)
      (last_n (Z.to_nat (_max_session_messages self)) (messages s))
      (created_at s) (updated_at s) (metadata s) (VInt 0) /\
  length (messages (truncate self s)) =
    Z.to_nat (_max_session_messages self).
Proof.
  intros Hpos Hlen. unfold truncate.
  destruct (Z.gtb_spec (Z.of_nat (length (messages s)))
                       (_max_session_messages self)) as [_|Hle]; [|lia].
  rewrite slice_from_neg by done. split; [done|].
  simpl. rewrite length_last_n. lia.
Qed.

Lemma truncate_within_limit (self : SessionManager) (s : Session) :
  (Z.of_nat (length (messages s)) <= _max_session_messages self)%Z ->
  truncate self s = s.
Proof.
  intros Hlen. unfold truncate.
  destruct (Z.gtb_spec (Z.of_nat (length (messages s)))
                       (_max_session_messages self)) as [Hgt|_]; [lia|done].
Qed.

(** A limit of zero truncates nothing, although every non-empty session is
    over it: [messages[-0:]] is all of [messages]. *)
Lemma truncate_zero_limit (self : SessionManager) (s : Session) :
  _max_session_messages self = 0%Z ->
  messages (truncate self s) = messages s.
Proof.
  intros H0. unfold truncate. rewrite H0.
  destruct (Z.of_nat (length (messages s)) >? 0)%Z; [|done].
  simpl. apply slice_from_zero.
Qed.

Lemma truncate_key (self : SessionManager) (s : Session) :
  key (truncate self s) = key s.
Proof. unfold truncate. by destruct (_ >? _)%Z. Qed.

Lemma truncate_metadata (self : SessionManager) (s : Session) :
  metadata (truncate self s) = metadata s.
Proof. unfold truncate. by destruct (_ >? _)%Z. Qed.

Lemma truncate_created_at (self : SessionManager) (s : Session) :
  created_at (truncate self s) = created_at s.
Proof. unfold truncate. by destruct (_ >? _)%Z. Qed.

Lemma truncate_in_range (self : SessionManager) (s : Session) :
  offset_in_range s -> offset_in_range (truncate self s).
Proof.
  intros H. unfold truncate. destruct (_ >? _)%Z; [|done].
  exists 0%Z. simpl. split; [done | lia].
Qed.

(** The lines of the file [save] writes: the metadata record, then one line
    for each message kept. *)
Lemma saved_file_lines (w : World) (l : loc) (s : Session) :
  objects w !! l = Some s ->
  Forall (fun r => Str.one_line (dumps r) = true)
         (records_of (truncate (mgr w) s)) ->
  exists text,
    files (save w l) !! _get_session_path (mgr w) (key s) = Some text /\
    file_lines text =
      dumps (metadata_line (truncate (mgr w) s))
        :: map (fun m => dumps (VDict m)) (messages (truncate (mgr w) s))
        ++ [""].
Proof.
  intros Hl Hone. rewrite (save_unfold _ _ _ Hl). simpl.
  eexists. split; [apply lookup_insert_eq|].
  unfold session_text. rewrite file_lines_write_lines by exact Hone.
  simpl. by rewrite map_map.
Qed.

(** With a positive limit [save] does what its docstring says: a session
    over the limit keeps its most recent messages, its offset is 0, the file
    has one line for the metadata record and one for each message kept, and
    the cache holds the session at its key. *)
Lemma save_truncates (w : World) (l : loc) (s : Session) :
  objects w !! l = Some s ->
  (0 < _max_session_messages (mgr w))%Z ->
  (Z.of_nat (length (messages s)) > _max_session_messages (mgr w))%Z ->
  let kept := last_n (Z.to_nat (_max_session_messages (mgr w))) (messages s) in
  Forall (fun r => Str.one_line (dumps r) = true)
         (records_of (truncate (mgr w) s)) ->
  exists s' text,
    objects (save w l) !! l = Some s' /\
    messages s' = kept /\
    length kept = Z.to_nat (_max_session_messages (mgr w)) /\
    last_consolidated s' = VInt 0 /\
    dict_get (key s) (_cache (mgr (save w l))) = Some l /\
    files (save w l) !! _get_session_path (mgr w) (key s) = Some text /\
    file_lines text =
      dumps (metadata_line s') :: map (fun m => dumps (VDict m)) kept ++ [""].
Proof.
  intros Hl Hpos Hlen kept Hone.
  destruct (truncate_over_limit _ _ Hpos Hlen) as [Ht Hk].
  destruct (saved_file_lines _ _ _ Hl Hone) as (text & Hf & Hlines).
  exists (truncate (mgr w) s), text.
  rewrite (save_unfold _ _ _ Hl) in *. simpl.
  rewrite lookup_insert_eq, dict_get_set_eq.
  repeat split; try done.
  - by rewrite Ht.
  - rewrite Ht in Hk. exact Hk.
  - by rewrite Ht.
  - rewrite Hlines. by rewrite Ht at 2.
Qed.

(** C10: [save] puts the session, truncated or not, into the cache at its
    key and evicts nothing.  The entries of the other keys and the other
    session objects stay as they are; a key that was cached keeps its
    place, a new key goes last, and then the cache has one entry more:
    saving into a full cache leaves it over [max_cache_size]. *)
Theorem save_caches_without_eviction (w : World) (l : loc) (s : Session) :
  objects w !! l = Some s ->
  let cache := _cache (mgr w) in
  let cache' := _cache (mgr (save w l)) in
  dict_get (key s) cache' = Some l /\
  objects (save w l) !! l = Some (truncate (mgr w) s) /\
  (forall k, k <> key s -> dict_get k cache' = dict_get k cache) /\
  (forall l', l' <> l -> objects (save w l) !! l' = objects w !! l') /\
  length cache <= length cache' /\
  (is_Some (dict_get (key s) cache) -> cache'.*1 = cache.*1) /\
  (dict_get (key s) cache = None ->
     cache' = cache ++ [(key s, l)] /\
     ((Z.of_nat (length cache) >= _max_cache_size (mgr w))%Z ->
      (Z.of_nat (length cache') > _max_cache_size (mgr (save w l)))%Z)).
Proof.
  intros Hl cache cache'. subst cache cache'.
  rewrite (save_unfold _ _ _ Hl). simpl.
  split; [apply dict_get_set_eq|].
  split; [apply lookup_insert_eq|].
  split; [intros k Hk; by apply dict_get_set_ne|].
  split; [intros l' Hl'; by apply lookup_insert_ne|].
  split; [apply length_dict_set|].
  split.
  - intros [l0 H0]. symmetry. by eapply dict_set_present.
  - intros Hnone. rewrite (dict_set_absent _ _ _ Hnone).
    split; [done|]. rewrite length_app. simpl. lia.
Qed.

(** *** [_load] *)

(** A session file that is in the workspace stays where it is. *)
Lemma migrate_present (self : SessionManager) (k : string)
    (fs : gmap path string) :
  is_Some (fs !! _get_session_path self k) -> migrate self k fs = fs.
Proof. intros [text H]. unfold migrate. by rewrite H. Qed.

(** The migration of one key leaves the workspace files of all keys as they
    are, once they exist. *)
Lemma migrate_keeps_session_files (self : SessionManager) (k : string)
    (fs : gmap path string) (name text : string) :
  fs !! (sessions_dir self, name) = Some text ->
  migrate self k fs !! (sessions_dir self, name) = Some text.
Proof.
  intros H. unfold migrate.
  destruct (fs !! _get_session_path self k) eqn:Hp; [done|].
  destruct (fs !! _get_legacy_session_path self k) eqn:Hleg; [|done].
  unfold _get_session_path, _get_legacy_session_path in *.
  assert (name <> session_file_name k) as Hname by congruence.
  destruct (shutil_move _ _); [|done|].
  - rewrite lookup_insert_ne by congruence.
    rewrite lookup_delete_ne by congruence. done.
  - rewrite lookup_insert_ne by congruence. done.
Qed.

Lemma _load_present (self : SessionManager) (fs : gmap path string)
    (k text : string) (now : datetime) :
  fs !! _get_session_path self k = Some text ->
  _load self fs k now = (parse_session k text now, fs).
Proof.
  intros H. unfold _load. rewrite migrate_present by eauto. by rewrite H.
Qed.

(** What [_load] reads does not depend on the clock, apart from the two
    dates. *)
Lemma parse_session_clock (k text : string) (t t' : datetime) (s : Session) :
  parse_session k text t = Some s ->
  exists s', parse_session k text t' = Some s' /\
             key s' = key s /\ messages s' = messages s /\
             metadata s' = metadata s /\
             last_consolidated s' = last_consolidated s.
Proof.
  unfold parse_session. destruct (load_lines _ _) as [acc|]; [|done].
  simpl. intros [= <-]. eexists. split; [done|]. by simpl.
Qed.

(** [_load] on the file [save] has just written. *)
Lemma load_saved (w : World) (l : loc) (s : Session) (now : datetime) :
  objects w !! l = Some s ->
  let s' := truncate (mgr w) s in
  Forall codec_ok (records_of s') ->
  Forall (fun m => is_metadata_record m = false) (messages s') ->
  fromisoformat (isoformat (created_at s)) = Some (created_at s) ->
  _load (mgr (save w l)) (files (save w l)) (key s) now =
    (Some (reloaded s' now), files (save w l)).
Proof.
  intros Hl s' Hc Hm Hiso. rewrite (save_unfold _ _ _ Hl). simpl.
  erewrite _load_present; [|apply lookup_insert_eq].
  rewrite <- (truncate_key (mgr w) s).
  rewrite (parse_session_text (key (truncate (mgr w) s))); [done..|].
  by rewrite truncate_created_at.
Qed.

(** C6, amended: a session within the truncation limit, none of whose
    messages carries the tag of the metadata record, is read back from the
    file [save] wrote with the same messages, in the same order, and the
    same metadata; so is it by a manager that starts on the same files with
    an empty cache.  The JSON codec and the ISO dates are taken to read back
    what they wrote for the records of this session. *)
Theorem save_then_load_round_trip (w : World) (l : loc) (s : Session)
    (now : datetime) :
  objects w !! l = Some s ->
  (Z.of_nat (length (messages s)) <= _max_session_messages (mgr w))%Z ->
  Forall (fun m => is_metadata_record m = false) (messages s) ->
  Forall codec_ok (records_of s) ->
  fromisoformat (isoformat (created_at s)) = Some (created_at s) ->
  let w' := save w l in
  let restarted := mkWorld (set_cache [] (mgr w')) (objects w') (files w') in
  exists s',
    _load (mgr w') (files w') (key s) now = (Some s', files w') /\
    objects (get_or_create restarted (key s) now).2
      !! (get_or_create restarted (key s) now).1 = Some s' /\
    key s' = key s /\
    messages s' = messages s /\
    metadata s' = metadata s /\
    last_consolidated s' = last_consolidated s.
Proof.
  intros Hl Hlen Hm Hc Hiso w' restarted.
  pose proof (load_saved w l s now Hl) as Hload. simpl in Hload.
  rewrite (truncate_within_limit _ _ Hlen) in Hload.
  specialize (Hload Hc Hm Hiso).
  exists (reloaded s now). split; [exact Hload|].
  split; [|done].
  unfold get_or_create, restarted. simpl.
  change (mgr (save w l)) with (mgr w') in *.
  replace (_load (set_cache [] (mgr w')) (files w') (key s) now)
    with (_load (mgr w') (files w') (key s) now) by done.
  subst w'. rewrite Hload. simpl. apply lookup_insert_eq.
Qed.

(** *** [get_or_create] and the cache *)

(** What a call of [get_or_create] for [k] makes of the cache, [l] being
    the reference it returns. *)
Definition lru_touch (capacity : Z) (k : string) (l : loc) (cache : dict loc)
  : dict loc :=
  match dict_get k cache with
  | Some _ => move_to_end k cache
  | None =>
      let cache' := dict_set k l cache in
      if (Z.of_nat (length cache') >? capacity)%Z then pop_first cache'
      else cache'
  end.

Lemma get_or_create_hit (w : World) (k : string) (now : datetime) (l : loc) :
  dict_get k (_cache (mgr w)) = Some l ->
  get_or_create w k now =
    (l, mkWorld (set_cache (move_to_end k (_cache (mgr w))) (mgr w))
          (objects w) (files w)).
Proof. intros H. unfold get_or_create. by rewrite H. Qed.

Lemma get_or_create_miss (w : World) (k : string) (now : datetime) :
  dict_get k (_cache (mgr w)) = None ->
  let l := fresh (dom (objects w)) in
  let loaded := _load (mgr w) (files w) k now in
  get_or_create w k now =
    (l, mkWorld
          (set_cache (lru_touch (_max_cache_size (mgr w)) k l
                        (_cache (mgr w))) (mgr w))
          (<[l := default (new_session k now) loaded.1]> (objects w))
          loaded.2).
Proof.
  intros H. unfold get_or_create, lru_touch. rewrite H. simpl.
  by destruct (_load _ _ _ _).
Qed.

Lemma get_or_create_cache (w : World) (k : string) (now : datetime) :
  _cache (mgr (get_or_create w k now).2) =
    lru_touch (_max_cache_size (mgr w)) k (get_or_create w k now).1
              (_cache (mgr w)).
Proof.
  destruct (dict_get k (_cache (mgr w))) as [l|] eqn:H.
  - rewrite (get_or_create_hit _ _ _ _ H). unfold lru_touch. by rewrite H.
  - by rewrite (get_or_create_miss _ _ _ H).
Qed.

(** A hit returns the reference the cache holds. *)
Lemma get_or_create_ref (w : World) (k : string) (now : datetime) :
  default (get_or_create w k now).1 (dict_get k (_cache (mgr w))) =
    (get_or_create w k now).1.
Proof.
  destruct (dict_get k (_cache (mgr w))) as [l|] eqn:H; [|done].
  by rewrite (get_or_create_hit _ _ _ _ H).
Qed.

(** The configuration of the manager never changes. *)
Lemma get_or_create_config (w : World) (k : string) (now : datetime) :
  let w' := (get_or_create w k now).2 in
  sessions_dir (mgr w') = sessions_dir (mgr w) /\
  legacy_sessions_dir (mgr w') = legacy_sessions_dir (mgr w) /\
  _max_cache_size (mgr w') = _max_cache_size (mgr w) /\
  _max_session_messages (mgr w') = _max_session_messages (mgr w).
Proof.
  destruct (dict_get k (_cache (mgr w))) as [l|] eqn:H.
  - by rewrite (get_or_create_hit _ _ _ _ H).
  - by rewrite (get_or_create_miss _ _ _ H).
Qed.

(** A call touches no session file that is in the workspace. *)
Lemma get_or_create_keeps_session_files (w : World) (k : string)
    (now : datetime) (name text : string) :
  files w !! (sessions_dir (mgr w), name) = Some text ->
  files (get_or_create w k now).2 !! (sessions_dir (mgr w), name) = Some text.
Proof.
  intros Hf. destruct (dict_get k (_cache (mgr w))) as [l|] eqn:H.
  - by rewrite (get_or_create_hit _ _ _ _ H).
  - rewrite (get_or_create_miss _ _ _ H). simpl. unfold _load.
    pose proof (migrate_keeps_session_files (mgr w) k _ _ _ Hf) as Hm.
    by destruct (migrate _ _ _ !! _get_session_path _ _).
Qed.

(** A miss on a key whose file is in the workspace loads that file into a
    new object. *)
Lemma get_or_create_loads (w : World) (k : string) (now : datetime)
    (text : string) :
  dict_get k (_cache (mgr w)) = None ->
  files w !! _get_session_path (mgr w) k = Some text ->
  let l := (get_or_create w k now).1 in
  let w' := (get_or_create w k now).2 in
  (l ∉ dom (objects w)) /\
  objects w' !! l =
    Some (default (new_session k now) (parse_session k text now)) /\
  files w' = files w.
Proof.
  intros H Hf. rewrite (get_or_create_miss _ _ _ H). simpl.
  rewrite (_load_present _ _ _ _ _ Hf). simpl.
  split; [apply is_fresh|]. split; [apply lookup_insert_eq | done].
Qed.

(** Case analysis on the comparisons of keys that a goal contains. *)
Ltac key_cases :=
  repeat (simpl;
          match goal with
          | |- context [String.eqb ?a ?b] =>
              destruct (String.eqb_spec a b); try congruence; subst
          end);
  simpl.

Ltac split_last :=
  match goal with
  | |- exists pre, ?lhs = _ /\ _ =>
      match lhs with
      | [_] => exists []
      | [?a; _] => exists [a]
      end
  end.

(** After a call for [A] on a cache within a capacity of two, [A] is the
    most recently used entry. *)
Lemma lru_touch_first (cache : dict loc) (A : string) (l : loc) :
  NoDup cache.*1 -> length cache <= 2 ->
  exists pre,
    lru_touch 2 A l cache = pre ++ [(A, default l (dict_get A cache))] /\
    length pre <= 1 /\ dict_get A pre = None.
Proof.
  intros Hnd Hlen.
  destruct cache as [|[x lx] [|[y ly] [|? ?]]]; simpl in Hlen; [| | |lia].
  - exists []. split; [reflexivity|]. split; [simpl; lia | reflexivity].
  - unfold lru_touch, move_to_end. key_cases; split_last;
      (split; [reflexivity|]); (split; [simpl; lia|]); key_cases; done.
  - assert (x <> y) as Hxy.
    { apply NoDup_cons in Hnd as [Hnd _]. simpl in Hnd. set_solver. }
    unfold lru_touch, move_to_end. key_cases; split_last;
      (split; [reflexivity|]); (split; [simpl; lia|]); key_cases; done.
Qed.

(** A call for another key [B] then leaves exactly the two. *)
Lemma lru_touch_second (pre : dict loc) (A B : string) (la l : loc) :
  length pre <= 1 -> dict_get A pre = None -> A <> B ->
  lru_touch 2 B l (pre ++ [(A, la)]) =
    [(A, la); (B, default l (dict_get B (pre ++ [(A, la)])))].
Proof.
  intros Hlen Hpre Hne.
  destruct pre as [|[x lx] [|? ?]]; simpl in Hlen; [| |lia];
    unfold lru_touch, move_to_end; simpl in Hpre |- *.
  - key_cases. done.
  - destruct (String.eqb_spec A x) as [|Hx]; [done|].
    key_cases; done.
Qed.

(** A call for a third key evicts the least recently used of the two. *)
Lemma lru_touch_third (A B C : string) (la lb l : loc) :
  A <> C -> B <> C ->
  lru_touch 2 C l [(A, la); (B, lb)] = [(B, lb); (C, l)].
Proof.
  intros Hac Hbc. unfold lru_touch. simpl.
  destruct (String.eqb_spec C A); [congruence|].
  destruct (String.eqb_spec C B); [congruence|]. done.
Qed.

(** C7: with a cache capacity of two, on a cache within its capacity,
    [get_or_create] for distinct keys [A], [B], [C] in this order leaves
    [B] and [C] in the cache and evicts [A], the least recently used.  The
    session file of [A] is untouched, and the next [get_or_create] for [A]
    reads it into a new session object whose messages, metadata and offset
    are those the file gave before (those of the object the first call
    returned, when that call read the file). *)
Theorem lru_eviction_then_reload (w0 : World) (A B C text : string)
    (t1 t2 t3 t4 : datetime) (sA : Session) :
  _max_cache_size (mgr w0) = 2%Z ->
  NoDup (_cache (mgr w0)).*1 ->
  length (_cache (mgr w0)) <= 2 ->
  A <> B -> A <> C -> B <> C ->
  files w0 !! _get_session_path (mgr w0) A = Some text ->
  parse_session A text t1 = Some sA ->
  let '(lA, w1) := get_or_create w0 A t1 in
  let '(lB, w2) := get_or_create w1 B t2 in
  let '(lC, w3) := get_or_create w2 C t3 in
  let '(lA', w4) := get_or_create w3 A t4 in
  _cache (mgr w3) = [(B, lB); (C, lC)] /\
  dict_get A (_cache (mgr w3)) = None /\
  files w3 !! _get_session_path (mgr w0) A = Some text /\
  (dict_get A (_cache (mgr w0)) = None -> objects w1 !! lA = Some sA) /\
  (lA' ∉ dom (objects w3)) /\
  files w4 = files w3 /\
  exists sA',
    objects w4 !! lA' = Some sA' /\
    parse_session A text t4 = Some sA' /\
    key sA' = key sA /\
    messages sA' = messages sA /\
    metadata sA' = metadata sA /\
    last_consolidated sA' = last_consolidated sA.
Proof.
  intros Hcap Hnd Hlen Hab Hac Hbc Hfile Hparse.
  (* the first call *)
  pose proof (get_or_create_cache w0 A t1) as Hc1.
  pose proof (get_or_create_ref w0 A t1) as Hr1.
  pose proof (get_or_create_config w0 A t1) as (Hd1 & _ & Hm1 & _).
  pose proof (get_or_create_keeps_session_files w0 A t1 _ _ Hfile) as Hf1.
  assert (dict_get A (_cache (mgr w0)) = None ->
          objects (get_or_create w0 A t1).2 !! (get_or_create w0 A t1).1
          = Some sA) as Ho1.
  { intros Hmiss.
    destruct (get_or_create_loads w0 A t1 text Hmiss Hfile) as (_ & Ho & _).
    simpl in Ho. by rewrite Hparse in Ho. }
  destruct (get_or_create w0 A t1) as [lA w1]. simpl in *.
  rewrite Hcap in Hc1.
  destruct (lru_touch_first _ A lA Hnd Hlen) as (pre & Hpre & Hlpre & HApre).
  rewrite Hpre, Hr1 in Hc1.
  (* the second call *)
  pose proof (get_or_create_cache w1 B t2) as Hc2.
  pose proof (get_or_create_ref w1 B t2) as Hr2.
  pose proof (get_or_create_config w1 B t2) as (Hd2 & _ & Hm2 & _).
  rewrite <- Hd1 in Hf1.
  pose proof (get_or_create_keeps_session_files w1 B t2 _ _ Hf1) as Hf2.
  destruct (get_or_create w1 B t2) as [lB w2]. simpl in *.
  rewrite Hm1, Hcap, Hc1 in Hc2.
  rewrite (lru_touch_second _ _ _ _ _ Hlpre HApre Hab) in Hc2.
  rewrite Hc1 in Hr2. rewrite Hr2 in Hc2.
  (* the third call *)
  pose proof (get_or_create_cache w2 C t3) as Hc3.
  pose proof (get_or_create_config w2 C t3) as (Hd3 & _ & Hm3 & _).
  rewrite <- Hd2 in Hf2.
  pose proof (get_or_create_keeps_session_files w2 C t3 _ _ Hf2) as Hf3.
  destruct (get_or_create w2 C t3) as [lC w3]. simpl in *.
  rewrite Hm2, Hm1, Hcap, Hc2 in Hc3.
  rewrite (lru_touch_third _ _ _ _ _ _ Hac Hbc) in Hc3.
  (* the fourth call misses and reads the file again *)
  assert (dict_get A (_cache (mgr w3)) = None) as Hmiss.
  { rewrite Hc3. simpl.
    destruct (String.eqb_spec A B); [congruence|].
    destruct (String.eqb_spec A C); [congruence|]. done. }
  rewrite <- Hd3 in Hf3.
  destruct (get_or_create_loads w3 A t4 text Hmiss Hf3) as (Hnew & Ho4 & Hf4).
  destruct (get_or_create w3 A t4) as [lA' w4]. simpl in *.
  destruct (parse_session_clock _ _ _ t4 _ Hparse)
    as (sA' & Hparse' & Hk & Hmsg & Hmeta & Hoff).
  rewrite Hparse' in Ho4. simpl in Ho4.
  rewrite Hd3, Hd2, Hd1 in Hf3.
  repeat split; try done.
  by exists sA'.
Qed.

(** *** The offset invariant across the operations *)

(** Every session object respects the invariant, and every file is one from
    which no session that violates it can be read. *)
Definition world_ok (w : World) : Prop :=
  (forall l s, objects w !! l = Some s -> offset_in_range s) /\
  (forall p text k now s,
     files w !! p = Some text -> parse_session k text now = Some s ->
     offset_in_range s).

(** What a program does with a manager: it asks for sessions, appends to
    them or clears them, saves them, drops them from the cache.  A session
    that is saved has no message tagged as the metadata record, and the
    codec reads its records back. *)
Inductive step : World -> World -> Prop :=
| step_get_or_create (w : World) (k : string) (now : datetime) :
    step w (get_or_create w k now).2
| step_add_message (w : World) (l : loc) (s s' : Session)
    (role content : value) (kwargs : dict value) (now : datetime)
    (now_iso : string) :
    objects w !! l = Some s ->
    add_message s role content kwargs now now_iso = Some s' ->
    step w (mkWorld (mgr w) (<[l := s']> (objects w)) (files w))
| step_clear (w : World) (l : loc) (s : Session) (now : datetime) :
    objects w !! l = Some s ->
    step w (mkWorld (mgr w) (<[l := clear s now]> (objects w)) (files w))
| step_save (w : World) (l : loc) (s : Session) :
    objects w !! l = Some s ->
    Forall codec_ok (records_of (truncate (mgr w) s)) ->
    Forall (fun m => is_metadata_record m = false)
           (messages (truncate (mgr w) s)) ->
    step w (save w l)
| step_invalidate (w : World) (k : string) :
    step w (invalidate w k).

Lemma migrate_texts (self : SessionManager) (k : string)
    (fs : gmap path string) (p : path) (text : string) :
  migrate self k fs !! p = Some text -> exists p', fs !! p' = Some text.
Proof.
  unfold migrate.
  destruct (fs !! _get_session_path self k) eqn:Hp; [eauto|].
  destruct (fs !! _get_legacy_session_path self k) as [moved|] eqn:Hleg;
    [|eauto].
  destruct (shutil_move _ _); [|eauto|];
    (destruct (decide (p = _get_session_path self k)) as [->|Hne];
     [rewrite lookup_insert_eq; intros [= <-]; eauto|];
     rewrite lookup_insert_ne by done).
  - intros H. apply lookup_delete_Some in H as [_ H]. eauto.
  - eauto.
Qed.

Lemma offset_in_range_insert (objs : gmap loc Session) (l : loc)
    (s : Session) :
  (forall l' s', objs !! l' = Some s' -> offset_in_range s') ->
  offset_in_range s ->
  forall l' s', <[l := s]> objs !! l' = Some s' -> offset_in_range s'.
Proof.
  intros Hobjs Hs l' s'. destruct (decide (l = l')) as [->|Hne].
  - rewrite lookup_insert_eq. by intros [= <-].
  - rewrite lookup_insert_ne by done. apply Hobjs.
Qed.

Lemma get_or_create_ok (w : World) (k : string) (now : datetime) :
  world_ok w -> world_ok (get_or_create w k now).2.
Proof.
  intros [Hobjs Hfiles].
  destruct (dict_get k (_cache (mgr w))) as [l|] eqn:H.
  - by rewrite (get_or_create_hit _ _ _ _ H).
  - rewrite (get_or_create_miss _ _ _ H). unfold _load.
    assert (forall p text k' now' s,
              migrate (mgr w) k (files w) !! p = Some text ->
              parse_session k' text now' = Some s -> offset_in_range s)
      as Hfiles'.
    { intros p text k' now' s Hp Hs.
      destruct (migrate_texts _ _ _ _ _ Hp) as [p' Hp']. eauto. }
    destruct (migrate (mgr w) k (files w) !! _get_session_path (mgr w) k)
      as [text|] eqn:Hp; simpl.
    + split; [|done]. apply offset_in_range_insert; [done|].
      destruct (parse_session k text now) as [s|] eqn:Hs; simpl.
      * eauto.
      * apply new_session_in_range.
    + split; [|done]. apply offset_in_range_insert; [done|].
      apply new_session_in_range.
Qed.

Lemma save_ok (w : World) (l : loc) (s : Session) :
  objects w !! l = Some s ->
  Forall codec_ok (records_of (truncate (mgr w) s)) ->
  Forall (fun m => is_metadata_record m = false)
         (messages (truncate (mgr w) s)) ->
  world_ok w -> world_ok (save w l).
Proof.
  intros Hl Hc Hm [Hobjs Hfiles].
  assert (offset_in_range (truncate (mgr w) s)) as Hs'.
  { apply truncate_in_range. eauto. }
  rewrite (save_unfold _ _ _ Hl). split; simpl.
  - by apply offset_in_range_insert.
  - intros p text k now s2.
    destruct (decide (_get_session_path (mgr w) (key s) = p)) as [->|Hne].
    + rewrite lookup_insert_eq. intros [= <-] Hparse.
      destruct (parse_session_text_inv _ _ _ _ Hc Hm Hparse)
        as (Hmsg & _ & Hoff).
      destruct Hs' as (n & Hn & Hr). exists n.
      by rewrite Hoff, Hmsg.
    + rewrite lookup_insert_ne by done. apply Hfiles.
Qed.

Lemma step_ok (w w' : World) : step w w' -> world_ok w -> world_ok w'.
Proof.
  intros Hstep Hok. destruct Hstep as [w k now | w l s s' role content kwargs
    now now_iso Hl Hadd | w l s now Hl | w l s Hl Hc Hm | w k].
  - by apply get_or_create_ok.
  - destruct Hok as [Hobjs Hfiles]. split; simpl; [|done].
    apply offset_in_range_insert; [done|].
    eapply add_message_in_range; [|exact Hadd]. eauto.
  - destruct Hok as [Hobjs Hfiles]. split; simpl; [|done].
    apply offset_in_range_insert; [done|]. apply clear_in_range.
  - by eapply save_ok.
  - done.
Qed.

(** C4, amended: in a world whose session objects and session files respect
    [0 <= last_consolidated <= len(messages)], every session the manager
    hands out, creates, loads or saves respects it, as does every session
    changed by [add_message] or [clear], as long as no saved message is
    tagged as the metadata record.  ([_load] takes the offset from the file
    as it stands, so the files have to respect the invariant to begin
    with.) *)
Theorem sessions_stay_in_range (w0 w : World) :
  world_ok w0 -> rtc step w0 w ->
  forall l s, objects w !! l = Some s -> offset_in_range s.
Proof.
  intros Hok Hsteps.
  assert (world_ok w) as [Hobjs _]; [|exact Hobjs].
  induction Hsteps as [|w1 w2 w3 Hstep _ IH]; [done|].
  apply IH. by eapply step_ok.
Qed.

(** *** More on the cache *)

Lemma dict_get_app {A} (k : string) (d1 d2 : dict A) :
  dict_get k (d1 ++ d2) =
    match dict_get k d1 with Some v => Some v | None => dict_get k d2 end.
Proof.
  induction d1 as [|[k' v] d1 IH]; simpl; [done|].
  by destruct (String.eqb k k').
Qed.

Lemma dict_get_none_keys {A} (k : string) (d : dict A) :
  dict_get k d = None <-> k ∉ d.*1.
Proof.
  induction d as [|[k' v] d IH].
  - split; [intros _; apply not_elem_of_nil | done].
  - rewrite fmap_cons, not_elem_of_cons. cbn [dict_get fst].
    destruct (String.eqb_spec k k') as [->|Hne].
    + split; [done | by intros [? _]].
    + rewrite IH. split; [done | by intros [_ ?]].
Qed.

Lemma dict_del_keys {A} (k x : string) (d : dict A) :
  x ∈ (dict_del k d).*1 -> x ∈ d.*1.
Proof.
  induction d as [|[k' v'] d IH]; [done|].
  cbn [dict_del]. rewrite fmap_cons. cbn [fst].
  destruct (String.eqb k k').
  - apply list_elem_of_further.
  - rewrite fmap_cons. cbn [fst]. rewrite !elem_of_cons.
    intros [->|Hin]; [by left | right; by apply IH].
Qed.

(** Deleting a key from a dictionary without repeated keys. *)
Lemma dict_del_present {A} (k : string) (v : A) (d : dict A) :
  NoDup d.*1 -> dict_get k d = Some v ->
  (k ∉ (dict_del k d).*1) /\ NoDup (dict_del k d).*1 /\
  S (length (dict_del k d)) = length d /\
  (forall k', k' <> k -> dict_get k' (dict_del k d) = dict_get k' d).
Proof.
  induction d as [|[k' v'] d IH]; [done|].
  rewrite fmap_cons, NoDup_cons. cbn [dict_get dict_del fst].
  intros [Hfresh Hnd]. destruct (String.eqb_spec k k') as [->|Hne].
  - intros _. repeat split; try done.
    intros k0 Hk0. apply String.eqb_neq in Hk0. by rewrite Hk0.
  - intros Hget. destruct (IH Hnd Hget) as (H1 & H2 & H3 & H4).
    rewrite fmap_cons, not_elem_of_cons, NoDup_cons. cbn [fst length].
    repeat split; try done.
    + intros Hin. apply Hfresh. by eapply dict_del_keys.
    + by rewrite H3.
    + intros k0 Hk0. cbn [dict_get]. destruct (String.eqb k0 k'); [done|].
      by apply H4.
Qed.

(** The cache after a call, for a cache without repeated keys. *)
Lemma lru_touch_spec (capacity : Z) (k : string) (l : loc)
    (cache : dict loc) :
  NoDup cache.*1 ->
  let cache' := lru_touch capacity k l cache in
  NoDup cache'.*1 /\
  ((Z.of_nat (length cache) <= capacity)%Z ->
   (Z.of_nat (length cache') <= capacity)%Z) /\
  ((1 <= capacity)%Z ->
   dict_get k cache' = Some (default l (dict_get k cache))).
Proof.
  intros Hnd. unfold lru_touch.
  destruct (dict_get k cache) as [l0|] eqn:Hget.
  - unfold move_to_end. rewrite Hget.
    destruct (dict_del_present _ _ _ Hnd Hget) as (Hk & Hnd' & Hlen & _).
    split; [|split].
    + rewrite fmap_app. apply NoDup_app. split; [done|].
      split; [|apply NoDup_singleton].
      intros x Hx Hx'. apply list_elem_of_singleton in Hx'. by subst.
    + rewrite length_app. simpl. lia.
    + intros _. rewrite dict_get_app.
      apply dict_get_none_keys in Hk. rewrite Hk. simpl.
      by rewrite String.eqb_refl.
  - rewrite (dict_set_absent _ _ _ Hget).
    assert (NoDup (cache ++ [(k, l)]).*1) as Hnd'.
    { rewrite fmap_app. apply NoDup_app. split; [done|].
      split; [|apply NoDup_singleton].
      intros x Hx Hx'. apply list_elem_of_singleton in Hx'. subst.
      by apply dict_get_none_keys in Hget. }
    rewrite length_app. simpl.
    destruct (Z.gtb_spec (Z.of_nat (length cache + 1)) capacity) as [Hgt|Hle].
    + unfold pop_first. destruct cache as [|[k0 l0] rest]; simpl in *.
      * split; [apply NoDup_nil_2|]. split; [lia|]. lia.
      * split; [by apply NoDup_cons in Hnd' as [_ ?]|].
        split; [rewrite length_app; simpl; lia|].
        intros _. rewrite dict_get_app.
        destruct (String.eqb k k0); [done|]. rewrite Hget. simpl.
        by rewrite String.eqb_refl.
    + split; [done|]. split; [rewrite length_app; simpl; lia|].
      intros _. rewrite dict_get_app, Hget. simpl.
      by rewrite String.eqb_refl.
Qed.

(** X6: [get_or_create] keeps the cache within its capacity, and its keys
    distinct, when they were so before the call. *)
Theorem get_or_create_keeps_capacity (w : World) (k : string)
    (now : datetime) :
  NoDup (_cache (mgr w)).*1 ->
  (Z.of_nat (length (_cache (mgr w))) <= _max_cache_size (mgr w))%Z ->
  let w' := (get_or_create w k now).2 in
  NoDup (_cache (mgr w')).*1 /\
  (Z.of_nat (length (_cache (mgr w'))) <= _max_cache_size (mgr w'))%Z.
Proof.
  intros Hnd Hlen w'. subst w'.
  destruct (get_or_create_config w k now) as (_ & _ & -> & _).
  rewrite get_or_create_cache.
  destruct (lru_touch_spec (_max_cache_size (mgr w)) k
              (get_or_create w k now).1 _ Hnd) as (H1 & H2 & _).
  split; [done | by apply H2].
Qed.

(** X7: two calls in a row for the same key return the same object, and the
    second reads no file and creates no object (the capacity being at least
    one). *)
Theorem get_or_create_twice (w : World) (k : string) (t1 t2 : datetime) :
  NoDup (_cache (mgr w)).*1 ->
  (1 <= _max_cache_size (mgr w))%Z ->
  let first := get_or_create w k t1 in
  let second := get_or_create first.2 k t2 in
  second.1 = first.1 /\
  objects second.2 = objects first.2 /\
  files second.2 = files first.2.
Proof.
  intros Hnd Hcap first second. subst first second.
  pose proof (get_or_create_cache w k t1) as Hcache.
  pose proof (get_or_create_ref w k t1) as Href.
  destruct (lru_touch_spec (_max_cache_size (mgr w)) k
              (get_or_create w k t1).1 _ Hnd) as (_ & _ & Hget).
  specialize (Hget Hcap). rewrite Href, <- Hcache in Hget.
  by rewrite (get_or_create_hit _ _ _ _ Hget).
Qed.

(** X15: a miss on a full cache drops the entry at the head, the least
    recently used, and nothing else; the session object that was cached
    there stays in the program, and so does every other object. *)
Theorem get_or_create_evicts_oldest (w : World) (k k0 : string)
    (l0 : loc) (rest : dict loc) (now : datetime) :
  _cache (mgr w) = (k0, l0) :: rest ->
  dict_get k (_cache (mgr w)) = None ->
  (Z.of_nat (length (_cache (mgr w))) >= _max_cache_size (mgr w))%Z ->
  let l := (get_or_create w k now).1 in
  let w' := (get_or_create w k now).2 in
  _cache (mgr w') = rest ++ [(k, l)] /\
  (forall l' s, objects w !! l' = Some s -> objects w' !! l' = Some s).
Proof.
  intros Hcache Hmiss Hfull l w'. subst l w'.
  rewrite (get_or_create_miss _ _ _ Hmiss). simpl. split.
  - unfold lru_touch. rewrite Hmiss, (dict_set_absent _ _ _ Hmiss).
    rewrite Hcache in *. rewrite length_app. simpl in *.
    destruct (Z.gtb_spec (Z.of_nat (S (length rest + 1)))
                         (_max_cache_size (mgr w))) as [_|Hle]; [done|lia].
  - intros l' s Hl'. rewrite lookup_insert_ne; [done|].
    intros <-. pose proof (is_fresh (dom (objects w))) as Hfresh.
    apply Hfresh, elem_of_dom. eauto.
Qed.

(** *** More on the files *)

(** What [_load] gives: the session that the file in the workspace holds
    after the migration. *)
Lemma _load_reads_workspace (self : SessionManager) (fs : gmap path string)
    (k : string) (now : datetime) :
  (_load self fs k now).2 = migrate self k fs /\
  (_load self fs k now).1 =
    match migrate self k fs !! _get_session_path self k with
    | Some read => parse_session k read now
    | None => None
    end.
Proof.
  unfold _load. by destruct (migrate self k fs !! _get_session_path self k).
Qed.

(** X8: the migration of a legacy file loses no conversation.  For a key
    that is not cached and has a file in the legacy directory only,
    whatever [shutil.move] does, [get_or_create] touches no file but the
    two of the key; the text is afterwards in the workspace, or the
    workspace has no file for the key and the legacy file is as it was;
    and the session handed out is the one the workspace file gives, a new
    and empty one when there is no such file or it cannot be read.  When
    the move returns, the text is in the workspace and the legacy
    directory has it no more. *)
Theorem legacy_file_migrates (w : World) (k text : string) (now : datetime) :
  dict_get k (_cache (mgr w)) = None ->
  files w !! _get_session_path (mgr w) k = None ->
  files w !! _get_legacy_session_path (mgr w) k = Some text ->
  let l := (get_or_create w k now).1 in
  let w' := (get_or_create w k now).2 in
  (forall p, p <> _get_session_path (mgr w) k ->
             p <> _get_legacy_session_path (mgr w) k ->
             files w' !! p = files w !! p) /\
  (files w' !! _get_session_path (mgr w) k = Some text \/
   files w' !! _get_session_path (mgr w) k = None /\
   files w' !! _get_legacy_session_path (mgr w) k = Some text) /\
  objects w' !! l =
    Some (match files w' !! _get_session_path (mgr w) k with
          | Some read => default (new_session k now)
                                 (parse_session k read now)
          | None => new_session k now
          end) /\
  (shutil_move (_get_legacy_session_path (mgr w) k)
               (_get_session_path (mgr w) k) = Moved ->
   files w' !! _get_session_path (mgr w) k = Some text /\
   files w' !! _get_legacy_session_path (mgr w) k = None).
Proof.
  intros Hmiss Hnone Hlegacy l w'. subst l w'.
  rewrite (get_or_create_miss _ _ _ Hmiss). cbn [fst snd objects files].
  destruct (_load_reads_workspace (mgr w) (files w) k now) as [-> ->].
  rewrite lookup_insert_eq.
  assert (_get_legacy_session_path (mgr w) k <>
          _get_session_path (mgr w) k) as Hne by congruence.
  unfold migrate. rewrite Hnone, Hlegacy.
  destruct (shutil_move _ _).
  - rewrite !lookup_insert_eq.
    split; [|split; [by left|split; [done|]]].
    + intros p Hp Hp'. rewrite lookup_insert_ne by done.
      by rewrite lookup_delete_ne.
    + intros _. split; [done|].
      rewrite lookup_insert_ne by done. apply lookup_delete_eq.
  - rewrite Hnone. split; [done|]. split; [by right|]. by split.
  - rewrite !lookup_insert_eq.
    split; [|split; [by left|by split]].
    intros p Hp Hp'. by rewrite lookup_insert_ne.
Qed.

(** A line that is not JSON makes the loop of [_load] raise, wherever it
    stands. *)
Lemma load_lines_bad_line (acc : loading) (before after : list string)
    (line : string) :
  Str.strip line <> "" -> loads (Str.strip line) = None ->
  load_lines acc (before ++ line :: after) = None.
Proof.
  intros Hne Hbad. rewrite load_lines_app.
  destruct (load_lines acc before) as [acc'|]; [|done].
  cbn [mbind option_bind load_lines]. unfold load_line.
  apply String.eqb_neq in Hne. by rewrite Hne, Hbad.
Qed.

Lemma new_session_saved (self : SessionManager) (k : string)
    (now : datetime) :
  truncate self (new_session k now) = new_session k now.
Proof.
  unfold truncate. destruct (_ >? _)%Z; [|done].
  unfold new_session, slice_from. simpl. by rewrite drop_nil.
Qed.

(** X9: one line that is not JSON costs the whole conversation.  For such a
    file [get_or_create] hands out a new, empty session and leaves the file
    as it is; a [save] of that session then writes over the file, which
    from then on holds the metadata record alone. *)
Theorem bad_line_gives_empty_session (w : World) (k text line : string)
    (now : datetime) :
  dict_get k (_cache (mgr w)) = None ->
  files w !! _get_session_path (mgr w) k = Some text ->
  line ∈ file_lines text ->
  Str.strip line <> "" -> loads (Str.strip line) = None ->
  let l := (get_or_create w k now).1 in
  let w' := (get_or_create w k now).2 in
  objects w' !! l = Some (new_session k now) /\
  files w' = files w /\
  files (save w' l) !! _get_session_path (mgr w) k =
    Some (write_lines [metadata_line (new_session k now)]).
Proof.
  intros Hmiss Hfile Hin Hne Hbad l w'. subst l w'.
  assert (parse_session k text now = None) as Hparse.
  { unfold parse_session.
    apply list_elem_of_split in Hin as (before & after & ->).
    by rewrite (load_lines_bad_line _ _ _ _ Hne Hbad). }
  destruct (get_or_create_loads w k now text Hmiss Hfile) as (_ & Ho & Hf).
  destruct (get_or_create_config w k now) as (Hdir & _).
  rewrite Hparse in Ho. simpl in Ho.
  split; [exact Ho|]. split; [exact Hf|].
  rewrite (save_unfold _ _ _ Ho). simpl.
  rewrite new_session_saved. unfold _get_session_path. rewrite Hdir.
  by rewrite lookup_insert_eq.
Qed.

(** *** More on [save] *)

Lemma dict_set_twice {A} (k : string) (v : A) (d : dict A) :
  dict_set k v (dict_set k v d) = dict_set k v d.
Proof.
  induction d as [|[k' v'] d IH]; simpl.
  - by rewrite String.eqb_refl.
  - destruct (String.eqb k k') eqn:E; simpl.
    + by rewrite String.eqb_refl.
    + by rewrite E, IH.
Qed.

Lemma truncate_twice (self : SessionManager) (s : Session) :
  (0 <= _max_session_messages self)%Z ->
  truncate self (truncate self s) = truncate self s.
Proof.
  intros Hlimit.
  destruct (Z.gtb_spec (Z.of_nat (length (messages s)))
                       (_max_session_messages self)) as [Hgt|Hle].
  - destruct (Z.eq_dec (_max_session_messages self) 0%Z) as [H0|Hpos].
    + unfold truncate. rewrite H0.
      destruct (Z.gtb_spec (Z.of_nat (length (messages s))) 0) as [_|?];
        [|lia].
      simpl. rewrite slice_from_zero.
      destruct (Z.gtb_spec (Z.of_nat (length (messages s))) 0) as [_|?];
        [|lia].
      by rewrite slice_from_zero.
    + destruct (truncate_over_limit self s) as [_ Hlen]; [lia..|].
      apply truncate_within_limit. lia.
  - by rewrite !(truncate_within_limit _ _ Hle).
Qed.

(** X10: with a limit that is not negative, saving a session twice in a
    row is saving it once: the second [save] changes neither the object nor
    the file nor the cache. *)
Theorem save_twice (w : World) (l : loc) (s : Session) :
  objects w !! l = Some s ->
  (0 <= _max_session_messages (mgr w))%Z ->
  save (save w l) l = save w l.
Proof.
  intros Hl Hlimit. rewrite (save_unfold w l s Hl).
  erewrite save_unfold; [|simpl; apply lookup_insert_eq]. simpl.
  rewrite truncate_key.
  change (truncate (set_cache _ (mgr w))) with (truncate (mgr w)).
  rewrite (truncate_twice _ _ Hlimit).
  unfold set_cache. simpl. rewrite dict_set_twice.
  unfold _get_session_path. simpl.
  by rewrite !insert_insert_eq.
Qed.

(** X11: [save] never reorders or rewrites messages: whatever the limit,
    the session keeps a suffix of its messages, its key, its dates and its
    metadata, and its offset either stays or goes back to 0. *)
Theorem save_keeps_suffix (w : World) (l : loc) (s : Session) :
  objects w !! l = Some s ->
  exists s',
    objects (save w l) !! l = Some s' /\
    messages s' `suffix_of` messages s /\
    key s' = key s /\
    created_at s' = created_at s /\
    updated_at s' = updated_at s /\
    metadata s' = metadata s /\
    (last_consolidated s' = last_consolidated s \/
     last_consolidated s' = VInt 0).
Proof.
  intros Hl. exists (truncate (mgr w) s).
  rewrite (save_unfold _ _ _ Hl). simpl.
  split; [apply lookup_insert_eq|].
  unfold truncate. destruct (_ >? _)%Z; simpl.
  - repeat split; try done; [|by right].
    unfold slice_from. apply suffix_drop.
  - repeat split; try done. by left.
Qed.

(** X12: a session over a positive limit is read back truncated: the file
    [save] wrote gives the most recent [max_session_messages] messages, in
    order, and an offset of 0. *)
Theorem save_then_load_truncated (w : World) (l : loc) (s : Session)
    (now : datetime) :
  objects w !! l = Some s ->
  (0 < _max_session_messages (mgr w))%Z ->
  (Z.of_nat (length (messages s)) > _max_session_messages (mgr w))%Z ->
  Forall (fun m => is_metadata_record m = false) (messages s) ->
  Forall codec_ok (records_of (truncate (mgr w) s)) ->
  fromisoformat (isoformat (created_at s)) = Some (created_at s) ->
  exists s',
    _load (mgr (save w l)) (files (save w l)) (key s) now =
      (Some s', files (save w l)) /\
    messages s' =
      last_n (Z.to_nat (_max_session_messages (mgr w))) (messages s) /\
    length (messages s') = Z.to_nat (_max_session_messages (mgr w)) /\
    last_consolidated s' = VInt 0 /\
    metadata s' = metadata s.
Proof.
  intros Hl Hpos Hlen Hm Hc Hiso.
  destruct (truncate_over_limit _ _ Hpos Hlen) as [Ht Hk].
  pose proof (load_saved w l s now Hl) as Hload. simpl in Hload.
  exists (reloaded (truncate (mgr w) s) now). split.
  - apply Hload; [done| |done].
    rewrite Ht. simpl. unfold last_n.
    by apply Forall_drop.
  - unfold reloaded, reloaded_as. simpl. rewrite Ht in *. by simpl in *.
Qed.

(** X13: [invalidate] drops the key from the cache and nothing else; the
    next [get_or_create] for it reads the session file into a new
    object. *)
Theorem invalidate_forces_reload (w : World) (k text : string)
    (now : datetime) :
  NoDup (_cache (mgr w)).*1 ->
  files w !! _get_session_path (mgr w) k = Some text ->
  let w1 := invalidate w k in
  let l := (get_or_create w1 k now).1 in
  let w2 := (get_or_create w1 k now).2 in
  objects w1 = objects w /\ files w1 = files w /\
  (forall k', k' <> k ->
     dict_get k' (_cache (mgr w1)) = dict_get k' (_cache (mgr w))) /\
  (l ∉ dom (objects w)) /\
  objects w2 !! l =
    Some (default (new_session k now) (parse_session k text now)) /\
  files w2 = files w.
Proof.
  intros Hnd Hfile w1 l w2. subst w1 l w2.
  assert (dict_get k (_cache (mgr (invalidate w k))) = None) as Hmiss.
  { simpl. destruct (dict_get k (_cache (mgr w))) as [l0|] eqn:Hget.
    - destruct (dict_del_present _ _ _ Hnd Hget) as (Hk & _).
      by apply dict_get_none_keys.
    - apply dict_get_none_keys. intros Hin.
      apply dict_del_keys in Hin. by apply dict_get_none_keys in Hget. }
  split; [done|]. split; [done|]. split.
  - intros k' Hk'. simpl.
    destruct (dict_get k (_cache (mgr w))) as [l0|] eqn:Hget.
    + destruct (dict_del_present _ _ _ Hnd Hget) as (_ & _ & _ & H).
      by apply H.
    + clear Hmiss Hnd. induction (_cache (mgr w)) as [|[k0 l0] c IH];
        [done|].
      simpl in *. destruct (String.eqb_spec k k0); [done|].
      simpl. destruct (String.eqb k' k0); [done|]. by apply IH.
  - apply (get_or_create_loads (invalidate w k) k now text Hmiss Hfile).
Qed.

(** X14: [save] writes the file of its session and no other, and caches the
    session: the next [get_or_create] for its key returns the very object
    that was saved, without reading a file. *)
Theorem save_then_get_or_create (w : World) (l : loc) (s : Session)
    (now : datetime) :
  objects w !! l = Some s ->
  let w1 := save w l in
  (forall p, p <> _get_session_path (mgr w) (key s) ->
     files w1 !! p = files w !! p) /\
  (get_or_create w1 (key s) now).1 = l /\
  objects (get_or_create w1 (key s) now).2 = objects w1 /\
  files (get_or_create w1 (key s) now).2 = files w1.
Proof.
  intros Hl w1. subst w1. split.
  - intros p Hp. rewrite (save_unfold _ _ _ Hl). simpl.
    by rewrite lookup_insert_ne.
  - assert (dict_get (key s) (_cache (mgr (save w l))) = Some l) as Hhit.
    { rewrite (save_unfold _ _ _ Hl). simpl. apply dict_get_set_eq. }
    by rewrite (get_or_create_hit _ _ _ _ Hhit).
Qed.

End Manager.
End ManagerModel.

(** ** A JSON writer and reader

    The theorems take the codec as a parameter.  To run the model on a
    concrete session the examples below instantiate it with this writer and
    this reader, which follow the separators of [json.dumps] and cover the
    values of [Py.value]. *)

Module Json.
Import Py.

Definition DQ : ascii := "034"%char.
Definition BSL : ascii := "092"%char.

Fixpoint escape (s : string) : string :=
  match s with
  | "" => ""
  | String c s' =>
      if Ascii.eqb c DQ then String BSL (String DQ (escape s'))
      else if Ascii.eqb c BSL then String BSL (String BSL (escape s'))
      else if Ascii.eqb c Str.LF then String BSL (String "n" (escape s'))
      else if Ascii.eqb c Str.CR then String BSL (String "r" (escape s'))
      else if Ascii.eqb c "009" then String BSL (String "t" (escape s'))
      else String c (escape s')
  end.

Definition quote (s : string) : string :=
  String DQ (escape s) +:+ String DQ "".

Fixpoint dumps (v : value) : string :=
  match v with
  | VNone => "null"
  | VBool true => "true"
  | VBool false => "false"
  | VInt z => NilZero.string_of_int (Z.to_int z)
  | VStr s => quote s
  | VList l => "[" +:+ Str.join ", " (map dumps l) +:+ "]"
  | VDict d =>
      "{" +:+ Str.join ", "
                (map (fun kv => match kv with
                                | (k, v') => quote k +:+ ": " +:+ dumps v'
                                end) d) +:+ "}"
  end.

Definition is_ws (c : ascii) : bool :=
  match c with
  | " " | "009" | "010" | "013" => true
  | _ => false
  end%char.

Definition skip_ws (s : string) : string := Str.lstrip_by is_ws s.

(** The text of a string literal after its opening quote, and what follows
    the closing one. *)
Fixpoint read_string (s : string) : option (string * string) :=
  match s with
  | "" => None
  | String c s' =>
      if Ascii.eqb c DQ then Some ("", s')
      else if Ascii.eqb c BSL then
        match s' with
        | String e s'' =>
            let c' := if Ascii.eqb e "n" then Some Str.LF
                      else if Ascii.eqb e "r" then Some Str.CR
                      else if Ascii.eqb e "t" then Some "009"%char
                      else if Ascii.eqb e DQ || Ascii.eqb e BSL then Some e
                      else None in
            match c', read_string s'' with
            | Some c', Some (body, rest) => Some (String c' body, rest)
            | _, _ => None
            end
        | "" => None
        end
      else prod_map (String c) id <$> read_string s'
  end.

Definition is_number_char (c : ascii) : bool :=
  match c with
  | "-" | "0" | "1" | "2" | "3" | "4" | "5" | "6" | "7" | "8" | "9" => true
  | _ => false
  end%char.

Fixpoint span (p : ascii -> bool) (s : string) : string * string :=
  match s with
  | "" => ("", "")
  | String c s' =>
      if p c then prod_map (String c) id (span p s') else ("", s)
  end.

Definition read_literal (lit : string) (v : value) (s : string)
  : option (value * string) :=
  if String.prefix lit s
  then Some (v, String.substring (String.length lit)
                  (String.length s - String.length lit) s)
  else None.

Fixpoint read_value (fuel : nat) (s : string) : option (value * string) :=
  match fuel with
  | O => None
  | S fuel =>
      match skip_ws s with
      | "" => None
      | String c s' as s0 =>
          if Ascii.eqb c DQ then prod_map VStr id <$> read_string s'
          else if Ascii.eqb c "[" then
            match skip_ws s' with
            | String "]" rest => Some (VList [], rest)
            | _ => prod_map VList id <$> read_items fuel s'
            end
          else if Ascii.eqb c "{" then
            match skip_ws s' with
            | String "}" rest => Some (VDict [], rest)
            | _ => prod_map VDict id <$> read_members fuel s'
            end
          else if Ascii.eqb c "n" then read_literal "null" VNone s0
          else if Ascii.eqb c "t" then read_literal "true" (VBool true) s0
          else if Ascii.eqb c "f" then read_literal "false" (VBool false) s0
          else
            let '(digits, rest) := span is_number_char s0 in
            z ← NilZero.int_of_string digits;
            Some (VInt (Z.of_int z), rest)
      end
  end
with read_items (fuel : nat) (s : string) : option (list value * string) :=
  match fuel with
  | O => None
  | S fuel =>
      '(v, rest) ← read_value fuel s;
      match skip_ws rest with
      | String "," rest' =>
          prod_map (cons v) id <$> read_items fuel rest'
      | String "]" rest' => Some ([v], rest')
      | _ => None
      end
  end
with read_members (fuel : nat) (s : string)
  : option (dict value * string) :=
  match fuel with
  | O => None
  | S fuel =>
      match skip_ws s with
      | String c s' =>
          if Ascii.eqb c DQ then
            '(k, rest) ← read_string s';
            match skip_ws rest with
            | String ":" rest' =>
                '(v, rest'') ← read_value fuel rest';
                match skip_ws rest'' with
                | String "," rest3 =>
                    '(d, rest4) ← read_members fuel rest3;
                    Some (match dict_get k d with
                          | Some v' => (k, v') :: dict_del k d
                          | None => (k, v) :: d
                          end, rest4)
                | String "}" rest3 => Some ([(k, v)], rest3)
                | _ => None
                end
            | _ => None
            end
          else None
      | "" => None
      end
  end.

Definition loads (s : string) : option value :=
  '(v, rest) ← read_value (2 * String.length s + 2) s;
  if String.eqb (skip_ws rest) "" then Some v else None.

End Json.

(** ** More on [Session]: what [get_history] hands to the model *)

Module SessionFacts.
Import Py SessionModel.

Lemma dict_get_none_fst {A} (k : string) (d : dict A) :
  dict_get k d = None <-> k ∉ d.*1.
Proof.
  induction d as [|[k' v] d IH].
  - split; [intros _; apply not_elem_of_nil | done].
  - rewrite fmap_cons, not_elem_of_cons. cbn [dict_get fst].
    destruct (String.eqb_spec k k') as [->|Hne].
    + split; [done | by intros [? _]].
    + rewrite IH. split; [done | by intros [_ ?]].
Qed.

(** Assigning the pairs of [kwargs] leaves every key they do not name. *)
Lemma foldl_dict_set_other {A} (k : string) (kwargs m : dict A) :
  k ∉ kwargs.*1 ->
  dict_get k (foldl (fun m kv => dict_set kv.1 kv.2 m) m kwargs) =
    dict_get k m.
Proof.
  revert m. induction kwargs as [|[k' v] kwargs IH]; intros m Hk; [done|].
  rewrite fmap_cons, not_elem_of_cons in Hk. destruct Hk as [Hne Hk].
  cbn [foldl]. rewrite (IH _ Hk). simpl.
  by apply ManagerModel.dict_get_set_ne.
Qed.

(** The projection keeps the role. *)
Lemma history_entry_role (m entry : message) :
  history_entry m = Some entry ->
  dict_get "role" entry = dict_get "role" m.
Proof.
  unfold history_entry. destruct (dict_get "role" m) as [role|]; [|done].
  simpl. intros [= <-].
  by destruct (dict_get "tool_calls" m), (dict_get "tool_call_id" m),
    (dict_get "name" m).
Qed.

Lemma history_entry_content (m entry : message) :
  history_entry m = Some entry ->
  dict_get "content" entry = Some (default (VStr "") (dict_get "content" m)).
Proof.
  unfold history_entry. destruct (dict_get "role" m) as [role|]; [|done].
  simpl. intros [= <-].
  by destruct (dict_get "tool_calls" m), (dict_get "tool_call_id" m),
    (dict_get "name" m).
Qed.

Lemma is_user_role (m : message) :
  is_user m = true <-> dict_get "role" m = Some (VStr "user").
Proof.
  unfold is_user. destruct (dict_get "role" m) as [v|];
    [|split; discriminate].
  destruct v as [| | |r| |]; simpl; try (split; discriminate).
  rewrite String.eqb_eq. split; [by intros -> | by intros [= ->]].
Qed.

Lemma slice_from_suffix {A} (start : Z) (l : list A) :
  slice_from start l `suffix_of` l.
Proof. unfold slice_from. apply suffix_drop. Qed.

(** What the loop leaves of [sliced]. *)
Definition aligned (sliced : list message) : list message :=
  default sliced (from_first_user sliced).

Lemma aligned_suffix (sliced : list message) :
  aligned sliced `suffix_of` sliced.
Proof.
  unfold aligned. destruct (from_first_user sliced) as [kept|] eqn:H; [|done].
  destruct (from_first_user_some _ _ H) as (dropped & _ & _ & -> & _).
  by exists dropped.
Qed.

(** The messages [get_history] projects, for an offset that can be sliced
    from. *)
Lemma get_history_unfold (s : Session) (max_messages : Z)
    (h : list message) :
  get_history s max_messages = Some h ->
  exists unconsolidated,
    slice_from_value (last_consolidated s) (messages s) =
      Some unconsolidated /\
    mapM history_entry
      (aligned (slice_from (- max_messages) unconsolidated)) = Some h.
Proof.
  unfold get_history.
  destruct (slice_from_value _ _) as [u|]; [|done]. simpl. eauto.
Qed.

(** X1: with a positive limit [get_history] returns at most [max_messages]
    entries, whatever the offset and the messages are. *)
Theorem get_history_within_limit (s : Session) (max_messages : Z)
    (h : list message) :
  (0 < max_messages)%Z ->
  get_history s max_messages = Some h ->
  (Z.of_nat (length h) <= max_messages)%Z.
Proof.
  intros Hmax H. apply get_history_unfold in H as (u & _ & H).
  apply length_mapM in H. rewrite <- H.
  rewrite (slice_from_neg max_messages) by done.
  pose proof (suffix_length _ _ (aligned_suffix
                (last_n (Z.to_nat max_messages) u))) as Hlen.
  rewrite length_last_n in Hlen. lia.
Qed.

(** X2: the history is aligned to a user turn whenever it holds one: if an
    entry with the role [user] is returned at all, the first entry has that
    role. *)
Theorem get_history_starts_with_user (s : Session) (max_messages : Z)
    (h : list message) (e : message) :
  get_history s max_messages = Some h ->
  e ∈ h ->
  dict_get "role" e = Some (VStr "user") ->
  exists first rest,
    h = first :: rest /\ dict_get "role" first = Some (VStr "user").
Proof.
  intros H He Hrole. apply get_history_unfold in H as (u & _ & H).
  set (sliced := slice_from (- max_messages) u) in *.
  apply mapM_Some in H.
  (* the message behind [e] is the user's *)
  apply list_elem_of_lookup in He as [i Hi].
  destruct (Forall2_lookup_r _ _ _ _ _ H Hi) as (m & Hm & Hme).
  assert (is_user m = true) as Huser.
  { apply is_user_role. by rewrite <- (history_entry_role _ _ Hme). }
  assert (m ∈ sliced) as Hin.
  { destruct (aligned_suffix sliced) as [dropped Hd]. rewrite Hd.
    apply elem_of_app. right. eapply list_elem_of_lookup_2, Hm. }
  (* so the loop reaches its break *)
  unfold aligned in H.
  destruct (from_first_user sliced) as [kept|] eqn:Hkept.
  - destruct (from_first_user_some _ _ Hkept)
      as (dropped & m0 & rest & _ & -> & Hm0 & _).
    simpl in H. apply Forall2_cons_inv_l in H as (e0 & h0 & He0 & _ & ->).
    exists e0, h0. split; [done|].
    rewrite (history_entry_role _ _ He0). by apply is_user_role.
  - apply from_first_user_none in Hkept.
    rewrite Forall_forall in Hkept. specialize (Hkept m Hin). congruence.
Qed.

(** X3: no consolidated message is returned: with an offset [n >= 0] the
    history is the projection of a suffix of [messages[n:]], in order, and
    so has at most [max(0, len(messages) - n)] entries: none when the
    offset is past the end. *)
Theorem get_history_skips_consolidated (s : Session) (n max_messages : Z)
    (h : list message) :
  last_consolidated s = VInt n -> (0 <= n)%Z ->
  get_history s max_messages = Some h ->
  exists kept,
    kept `suffix_of` drop (Z.to_nat n) (messages s) /\
    mapM history_entry kept = Some h /\
    (Z.of_nat (length h) <=
       Z.max 0 (Z.of_nat (length (messages s)) - n))%Z.
Proof.
  intros Hn H0 H. apply get_history_unfold in H as (u & Hu & H).
  rewrite Hn in Hu. cbn [slice_from_value] in Hu. injection Hu as <-.
  rewrite (slice_from_nonneg n) in H by done.
  set (tail := drop (Z.to_nat n) (messages s)) in *.
  assert (aligned (slice_from (- max_messages) tail) `suffix_of` tail)
    as Hsuffix.
  { etrans; [apply aligned_suffix | apply slice_from_suffix]. }
  eexists. split; [exact Hsuffix|]. split; [exact H|].
  apply length_mapM in H. rewrite <- H.
  apply suffix_length in Hsuffix. unfold tail in *.
  rewrite length_drop in Hsuffix. lia.
Qed.

Lemma last_n_snoc {A} (k : nat) (l : list A) (x : A) :
  0 < k -> last_n k (l ++ [x]) = last_n (k - 1) l ++ [x].
Proof.
  intros Hk. unfold last_n. rewrite length_app. simpl.
  rewrite drop_app_le by lia. do 2 f_equal. lia.
Qed.

(** What the loop leaves of a slice that ends with [x] still ends with
    [x]. *)
Lemma aligned_snoc (l : list message) (x : message) :
  exists kept, aligned (l ++ [x]) = kept ++ [x].
Proof.
  destruct (aligned_suffix (l ++ [x])) as [dropped Hd].
  assert (aligned (l ++ [x]) <> []) as Hne.
  { unfold aligned.
    destruct (from_first_user (l ++ [x])) as [kept|] eqn:H; simpl.
    - by destruct (from_first_user_some _ _ H) as (_ & ? & ? & _ & -> & _).
    - by destruct l. }
  destruct (exists_last Hne) as (kept & y & Hk).
  rewrite Hk, app_assoc in Hd. apply app_inj_tail in Hd as [_ ->].
  by exists kept.
Qed.

(** X5: a message appended by [add_message] is the last entry of the next
    history, with the role and the content given (the offset being in
    range and the limit positive). *)
Theorem add_message_reaches_history (s s' : Session) (role content : value)
    (kwargs : dict value) (now : datetime) (now_iso : string)
    (n max_messages : Z) (h : list message) :
  last_consolidated s = VInt n ->
  (0 <= n <= Z.of_nat (length (messages s)))%Z ->
  (0 < max_messages)%Z ->
  add_message s role content kwargs now now_iso = Some s' ->
  get_history s' max_messages = Some h ->
  exists earlier e,
    h = earlier ++ [e] /\
    dict_get "role" e = Some role /\
    dict_get "content" e = Some content.
Proof.
  intros Hn Hr Hmax Hadd H. unfold add_message in Hadd.
  destruct (dict_mem "role" kwargs) eqn:Hrole; [done|].
  destruct (dict_mem "content" kwargs) eqn:Hcontent; [done|].
  simpl in Hadd. injection Hadd as <-.
  set (msg := foldl (fun m kv => dict_set kv.1 kv.2 m)
                [("role", role); ("content", content);
                 ("timestamp", VStr now_iso)] kwargs) in *.
  assert (dict_get "role" msg = Some role) as Hmsg_role.
  { unfold msg. rewrite foldl_dict_set_other; [done|].
    apply dict_get_none_fst. unfold dict_mem in Hrole.
    by destruct (dict_get "role" kwargs). }
  assert (dict_get "content" msg = Some content) as Hmsg_content.
  { unfold msg. rewrite foldl_dict_set_other; [done|].
    apply dict_get_none_fst. unfold dict_mem in Hcontent.
    by destruct (dict_get "content" kwargs). }
  apply get_history_unfold in H as (u & Hu & H). simpl in Hu.
  rewrite Hn in Hu. cbn [slice_from_value] in Hu. injection Hu as <-.
  rewrite (slice_from_nonneg n) in H by lia.
  rewrite drop_app_le in H by lia.
  rewrite (slice_from_neg max_messages) in H by done.
  rewrite last_n_snoc in H by lia.
  destruct (aligned_snoc (last_n (Z.to_nat max_messages - 1)
                            (drop (Z.to_nat n) (messages s))) msg)
    as [kept Hkept].
  rewrite Hkept in H. apply mapM_Some in H.
  apply Forall2_app_inv_l in H as (earlier & last & _ & Hlast & ->).
  apply Forall2_cons_inv_l in Hlast as (e & nothing & He & Hnil & ->).
  apply Forall2_nil_inv_l in Hnil as ->.
  exists earlier, e. split; [done|].
  rewrite (history_entry_role _ _ He), (history_entry_content _ _ He).
  by rewrite Hmsg_role, Hmsg_content.
Qed.

(** X4: what reaches the model is the five keys of the chat format and
    nothing else: an entry of the history has no [timestamp] and none of
    the other keys [add_message] was given; [role] and [content] are always
    there. *)
Theorem get_history_entry_keys (s : Session) (max_messages : Z)
    (h : list message) (e : message) :
  get_history s max_messages = Some h ->
  e ∈ h ->
  dict_mem "role" e = true /\ dict_mem "content" e = true /\
  (forall k, dict_mem k e = true ->
     k ∈ ["role"; "content"; "tool_calls"; "tool_call_id"; "name"]).
Proof.
  intros H He. apply get_history_unfold in H as (u & _ & H).
  apply mapM_Some in H. apply list_elem_of_lookup in He as [i Hi].
  destruct (Forall2_lookup_r _ _ _ _ _ H Hi) as (m & _ & Hme).
  unfold dict_mem. split; [|split].
  - rewrite (history_entry_role _ _ Hme). unfold history_entry in Hme.
    by destruct (dict_get "role" m).
  - by rewrite (history_entry_content _ _ Hme).
  - intros k. rewrite (history_entry_keys _ _ k Hme).
    destruct (String.eqb_spec k "role") as [->|_]; [set_solver|].
    destruct (String.eqb_spec k "content") as [->|_]; [set_solver|].
    destruct (String.eqb_spec k "tool_calls") as [->|_]; [set_solver|].
    destruct (String.eqb_spec k "tool_call_id") as [->|_]; [set_solver|].
    destruct (String.eqb_spec k "name") as [->|_]; [set_solver|].
    done.
Qed.

(** *** A conversation of four turns, the first of them consolidated *)

Definition turn (role content : string) : message :=
  [("role", VStr role); ("content", VStr content);
   ("timestamp", VStr "2026-01-01T00:00:00")].

Definition said (role content : string) : message :=
  [("role", VStr role); ("content", VStr content)].

Definition talk : Session :=
  mkSession "cli:direct"
            [turn "user" "hi"; turn "assistant" "hello";
             turn "user" "more"; turn "assistant" "sure"]
            0%Z 4%Z (VDict []) (VInt 1).

Lemma get_history_within_limit_witness :
  get_history talk 2 = Some [said "user" "more"; said "assistant" "sure"] /\
  (Z.of_nat (length [said "user" "more"; said "assistant" "sure"]) <= 2)%Z.
Proof.
  assert (get_history talk 2 =
            Some [said "user" "more"; said "assistant" "sure"]) as H
    by reflexivity.
  split; [exact H|].
  apply (get_history_within_limit talk 2 _); [lia | exact H].
Defined.

Lemma get_history_starts_with_user_witness :
  get_history talk 3 = Some [said "user" "more"; said "assistant" "sure"] /\
  exists first rest,
    [said "user" "more"; said "assistant" "sure"] = first :: rest /\
    dict_get "role" first = Some (VStr "user").
Proof.
  assert (get_history talk 3 =
            Some [said "user" "more"; said "assistant" "sure"]) as H
    by reflexivity.
  split; [exact H|].
  apply (get_history_starts_with_user talk 3 _ (said "user" "more") H);
    [apply list_elem_of_here | reflexivity].
Defined.

Lemma get_history_skips_consolidated_witness :
  get_history talk 500 =
    Some [said "user" "more"; said "assistant" "sure"] /\
  exists kept,
    kept `suffix_of` drop 1 (messages talk) /\
    mapM history_entry kept =
      Some [said "user" "more"; said "assistant" "sure"] /\
    (Z.of_nat (length [said "user" "more"; said "assistant" "sure"]) <=
       Z.max 0 (Z.of_nat (length (messages talk)) - 1))%Z.
Proof.
  assert (get_history talk 500 =
            Some [said "user" "more"; said "assistant" "sure"]) as H
    by reflexivity.
  split; [exact H|].
  apply (get_history_skips_consolidated talk 1 500 _);
    [reflexivity | lia | exact H].
Defined.

Lemma get_history_entry_keys_witness :
  dict_mem "timestamp" (turn "user" "more") = true /\
  dict_mem "role" (said "user" "more") = true /\
  dict_mem "content" (said "user" "more") = true /\
  (forall k, dict_mem k (said "user" "more") = true ->
     k ∈ ["role"; "content"; "tool_calls"; "tool_call_id"; "name"]).
Proof.
  split; [reflexivity|].
  apply (get_history_entry_keys talk 500
           [said "user" "more"; said "assistant" "sure"]);
    [reflexivity | apply list_elem_of_here].
Defined.

Lemma add_message_reaches_history_witness :
  exists s' h earlier e,
    add_message talk (VStr "user") (VStr "thanks") [("channel", VStr "cli")]
      5%Z "2026-01-01T00:00:05" = Some s' /\
    get_history s' 500 = Some h /\
    h = earlier ++ [e] /\
    dict_get "role" e = Some (VStr "user") /\
    dict_get "content" e = Some (VStr "thanks").
Proof.
  eexists _, _.
  destruct (add_message_reaches_history talk _ (VStr "user") (VStr "thanks")
              [("channel", VStr "cli")] 5%Z "2026-01-01T00:00:05" 1 500 _
              eq_refl ltac:(simpl; lia) ltac:(lia) eq_refl eq_refl)
    as (earlier & e & Hh & Hrole & Hcontent).
  exists earlier, e. repeat split; [exact Hh | exact Hrole | exact Hcontent].
Defined.

End SessionFacts.

(** ** The session store on concrete sessions

    The parameters are instantiated: the JSON codec of [Json], a clock
    whose ISO text is the decimal numeral of the instant, a
    [safe_filename] that returns its argument, and a [shutil.move] that
    moves every file. *)

Module ManagerExamples.
Import Py SessionModel ManagerModel.

Definition isoformat (t : datetime) : string :=
  NilZero.string_of_int (Z.to_int t).

Definition fromisoformat (s : string) : option datetime :=
  Z.of_int <$> NilZero.int_of_string s.

Definition safe_filename (s : string) : string := s.

Definition shutil_move (src dst : path) : move_outcome := Moved.

Definition manager (capacity limit : Z) (cache : dict loc) : SessionManager :=
  mkManager "ws/sessions" "home/.sarathi/sessions" capacity limit cache.

Definition user_message (text : string) : message :=
  [("role", VStr "user"); ("content", VStr text);
   ("timestamp", VStr "2026-01-01T00:00:00")].

Definition reply_message (text : string) : message :=
  [("role", VStr "assistant"); ("content", VStr text);
   ("timestamp", VStr "2026-01-01T00:00:01")].

Ltac codec_ok_tac :=
  repeat first
    [ apply Forall_nil_2
    | apply Forall_cons_2
    | split; [vm_compute; reflexivity|];
      split; [vm_compute; discriminate | vm_compute; reflexivity] ].

(** *** Truncation with a limit of zero (C5) *)

Definition chat : Session :=
  mkSession "cli:direct" [user_message "hello"] 10%Z 11%Z
            (VDict [("lang", VStr "en")]) (VInt 0).

Definition world_limit_zero : World :=
  mkWorld (manager 50 0 []) {[ 0 := chat ]} ∅.

(** C5: [save] on a manager whose [max_session_messages] is 0, for a session
    with one message.  The session is over the limit, so the specification
    has the file keep the most recent 0 messages; the code keeps
    [messages[-0:]], the one message: the object still holds it and the
    file has a line for it after the metadata record. *)
Theorem save_limit_zero_keeps_every_message :
  let w' := save Json.dumps isoformat safe_filename world_limit_zero 0 in
  (Z.of_nat (length (messages chat)) >
     _max_session_messages (mgr world_limit_zero))%Z /\
  messages <$> objects w' !! 0 = Some [user_message "hello"] /\
  last_consolidated <$> objects w' !! 0 = Some (VInt 0) /\
  file_lines <$> files w' !! ("ws/sessions", "cli_direct.jsonl") =
    Some [Json.dumps (metadata_line isoformat chat);
          Json.dumps (VDict (user_message "hello")); ""].
Proof. repeat split; vm_compute; reflexivity. Qed.

(** *** Saving into a full cache (C10) *)

Definition world_full_cache : World :=
  mkWorld (manager 1 500 [("telegram:7", 0)])
          {[ 0 := new_session "telegram:7" 5%Z; 1 := chat ]} ∅.

Lemma save_caches_without_eviction_witness :
  objects world_full_cache !! 1 = Some chat /\
  _cache (mgr (save Json.dumps isoformat safe_filename world_full_cache 1)) =
    [("telegram:7", 0); ("cli:direct", 1)].
Proof.
  assert (objects world_full_cache !! 1 = Some chat) as H by reflexivity.
  split; [exact H|].
  destruct (save_caches_without_eviction Json.dumps isoformat safe_filename
              world_full_cache 1 chat H) as (_ & _ & _ & _ & _ & _ & Hnew).
  destruct (Hnew eq_refl) as [Hcache _]. exact Hcache.
Defined.

(** *** Reading a session back (C6) *)

Definition world_chat : World :=
  mkWorld (manager 50 500 []) {[ 0 := chat ]} ∅.

Lemma save_then_load_round_trip_witness :
  exists s',
    (_load Json.loads fromisoformat safe_filename shutil_move
       (mgr (save Json.dumps isoformat safe_filename world_chat 0))
       (files (save Json.dumps isoformat safe_filename world_chat 0))
       "cli:direct" 20%Z).1 = Some s' /\
    messages s' = [user_message "hello"] /\
    metadata s' = VDict [("lang", VStr "en")].
Proof.
  destruct (save_then_load_round_trip Json.dumps Json.loads isoformat
              fromisoformat safe_filename shutil_move world_chat 0 chat 20%Z)
    as (s' & Hload & _ & _ & Hmsg & Hmeta & _).
  - reflexivity.
  - vm_compute. discriminate.
  - repeat constructor.
  - codec_ok_tac.
  - reflexivity.
  - exists s'. split; [|split; [exact Hmsg | exact Hmeta]].
    change (key chat) with "cli:direct" in Hload. by rewrite Hload.
Defined.

(** A message that carries the tag of the metadata record. *)
Definition tagged_message : message :=
  [("role", VStr "user"); ("content", VStr "hello");
   ("timestamp", VStr "2026-01-01T00:00:00"); ("_type", VStr "metadata")].

Definition tagged_chat : Session :=
  mkSession "cli:direct" [tagged_message] 10%Z 11%Z
            (VDict [("lang", VStr "en")]) (VInt 0).

Definition world_tagged : World :=
  mkWorld (manager 50 500 []) {[ 0 := tagged_chat ]} ∅.

(** C6 as stated fails on a session with such a message: the codec reads
    every record back, the session is within the limit, and yet the session
    read from the file [save] wrote has no message and empty metadata:
    [_load] took the line of the message for a metadata record. *)
Lemma tagged_message_is_not_read_back :
  Forall (codec_ok Json.dumps Json.loads) (records_of isoformat tagged_chat) /\
  (Z.of_nat (length (messages tagged_chat)) <=
     _max_session_messages (mgr world_tagged))%Z /\
  exists s',
    (_load Json.loads fromisoformat safe_filename shutil_move
       (mgr (save Json.dumps isoformat safe_filename world_tagged 0))
       (files (save Json.dumps isoformat safe_filename world_tagged 0))
       "cli:direct" 20%Z).1 = Some s' /\
    messages tagged_chat = [tagged_message] /\
    messages s' = [] /\
    metadata tagged_chat = VDict [("lang", VStr "en")] /\
    metadata s' = VDict [].
Proof.
  split; [codec_ok_tac|]. split; [vm_compute; discriminate|].
  eexists. split; [vm_compute; reflexivity|]. repeat split.
Qed.

(** *** Eviction and reload (C7) *)

(** The text [save] writes for [chat]. *)
Definition chat_text : string := session_text Json.dumps isoformat chat.

Definition world_with_chat_file : World :=
  mkWorld (manager 2 500 []) ∅
          {[ ("ws/sessions", "cli_direct.jsonl") := chat_text ]}.

Definition chat_read_at (now : datetime) : Session :=
  mkSession "cli:direct" [user_message "hello"] 10%Z now
            (VDict [("lang", VStr "en")]) (VInt 0).

Definition ask (w : World) (k : string) (now : datetime) : loc * World :=
  get_or_create Json.loads fromisoformat safe_filename shutil_move w k now.

Lemma lru_eviction_then_reload_witness :
  parse_session Json.loads fromisoformat "cli:direct" chat_text 1%Z =
    Some (chat_read_at 1%Z) /\
  let w3 :=
    (ask (ask (ask world_with_chat_file "cli:direct" 1%Z).2
              "telegram:7" 2%Z).2
         "discord:9" 3%Z).2 in
  (_cache (mgr w3)).*1 = ["telegram:7"; "discord:9"] /\
  files w3 !! ("ws/sessions", "cli_direct.jsonl") = Some chat_text /\
  messages <$> objects (ask w3 "cli:direct" 4%Z).2
                 !! (ask w3 "cli:direct" 4%Z).1 =
    Some [user_message "hello"].
Proof.
  assert (parse_session Json.loads fromisoformat "cli:direct" chat_text 1%Z =
            Some (chat_read_at 1%Z)) as Hparse by (vm_compute; reflexivity).
  assert (files world_with_chat_file
            !! _get_session_path safe_filename (mgr world_with_chat_file)
                 "cli:direct" = Some chat_text) as Hfile
    by (vm_compute; reflexivity).
  split; [exact Hparse|].
  pose proof (lru_eviction_then_reload Json.loads fromisoformat safe_filename
                shutil_move world_with_chat_file
                "cli:direct" "telegram:7" "discord:9" chat_text
                1%Z 2%Z 3%Z 4%Z (chat_read_at 1%Z)
                eq_refl (NoDup_nil_2 (A:=string))
                (Nat.le_0_l 2)
                ltac:(discriminate) ltac:(discriminate) ltac:(discriminate)
                Hfile Hparse) as H.
  unfold ask.
  destruct (get_or_create _ _ _ _ world_with_chat_file _ _) as [lA w1].
  cbn [snd] in *.
  destruct (get_or_create _ _ _ _ w1 _ _) as [lB w2]. cbn [snd] in *.
  destruct (get_or_create _ _ _ _ w2 _ _) as [lC w3]. cbn [snd fst] in *.
  destruct (get_or_create _ _ _ _ w3 _ _) as [lA' w4]. cbn [snd fst] in *.
  destruct H as (Hc & _ & Hf & _ & _ & _ & s' & Ho & _ & _ & Hmsg & _).
  split; [by rewrite Hc|]. split; [exact Hf|].
  rewrite Ho. simpl. by rewrite Hmsg.
Defined.

(** *** The offset invariant (C4) *)

(** A session file whose metadata record gives an offset of 5 and which has
    no message line. *)
Definition stale_offset_text : string :=
  Json.dumps (VDict [("_type", VStr "metadata"); ("key", VStr "cli:direct");
                     ("metadata", VDict []); ("last_consolidated", VInt 5)])
  +:+ NL.

Definition world_stale_file : World :=
  mkWorld (manager 50 500 []) ∅
          {[ ("ws/sessions", "cli_direct.jsonl") := stale_offset_text ]}.

(** C4 as stated fails for a session that [_load] reads: the offset of the
    file is taken as it stands.  Here [get_or_create] misses, loads the
    file and hands out a session with no message and an offset of 5. *)
Lemma loaded_offset_is_not_checked :
  exists s,
    objects (get_or_create Json.loads fromisoformat safe_filename shutil_move
               world_stale_file "cli:direct" 1%Z).2
      !! (get_or_create Json.loads fromisoformat safe_filename shutil_move
            world_stale_file "cli:direct" 1%Z).1 = Some s /\
    (_load Json.loads fromisoformat safe_filename shutil_move
       (mgr world_stale_file) (files world_stale_file) "cli:direct" 1%Z).1
      = Some s /\
    messages s = [] /\
    last_consolidated s = VInt 5 /\
    ~ offset_in_range s.
Proof.
  eexists. split; [vm_compute; reflexivity|].
  split; [vm_compute; reflexivity|].
  split; [reflexivity|]. split; [reflexivity|].
  intros (n & Hn & Hr). simpl in Hn, Hr. injection Hn as <-. lia.
Qed.

(** A run from the empty world: a session is created, a message is
    appended, the session is saved. *)
Definition world_empty : World := mkWorld (manager 50 500 []) ∅ ∅.

Definition first_message : message :=
  [("role", VStr "user"); ("content", VStr "hello"); ("timestamp", VStr "2")].

Definition world_after_run : World :=
  save Json.dumps isoformat safe_filename
    (mkWorld (manager 50 500 [("cli:direct", 0)])
       {[ 0 := mkSession "cli:direct" [first_message] 1%Z 2%Z (VDict [])
                 (VInt 0) ]} ∅) 0.

Lemma sessions_stay_in_range_witness :
  offset_in_range
    (mkSession "cli:direct" [first_message] 1%Z 2%Z (VDict []) (VInt 0)).
Proof.
  apply (sessions_stay_in_range Json.dumps Json.loads isoformat fromisoformat
           safe_filename shutil_move world_empty world_after_run) with (l := 0).
  - split; intros *; simpl; rewrite lookup_empty; discriminate.
  - eapply rtc_l.
    { apply (step_get_or_create Json.dumps Json.loads isoformat fromisoformat
               safe_filename shutil_move world_empty "cli:direct" 1%Z). }
    eapply rtc_l.
    { eapply (step_add_message Json.dumps Json.loads isoformat fromisoformat
                safe_filename shutil_move _ 0 (new_session "cli:direct" 1%Z)
                _ (VStr "user") (VStr "hello") [] 2%Z "2");
        [vm_compute; reflexivity | reflexivity]. }
    eapply rtc_l; [|apply rtc_refl].
    eapply (step_save Json.dumps Json.loads isoformat fromisoformat
              safe_filename shutil_move _ 0).
    + vm_compute. reflexivity.
    + codec_ok_tac.
    + repeat constructor.
  - vm_compute. reflexivity.
Defined.

(** *** The cache on concrete worlds *)

Lemma get_or_create_keeps_capacity_witness :
  let w' := (ask world_full_cache "cli:direct" 6%Z).2 in
  NoDup (_cache (mgr w')).*1 /\
  (Z.of_nat (length (_cache (mgr w'))) <= _max_cache_size (mgr w'))%Z.
Proof.
  apply (get_or_create_keeps_capacity Json.loads fromisoformat safe_filename
           shutil_move world_full_cache "cli:direct" 6%Z).
  - apply NoDup_singleton.
  - simpl. lia.
Defined.

Lemma get_or_create_twice_witness :
  let first := ask world_with_chat_file "cli:direct" 1%Z in
  let second := ask first.2 "cli:direct" 2%Z in
  second.1 = first.1 /\
  objects second.2 = objects first.2 /\
  files second.2 = files first.2.
Proof.
  apply (get_or_create_twice Json.loads fromisoformat safe_filename
           shutil_move world_with_chat_file "cli:direct" 1%Z 2%Z).
  - apply NoDup_nil_2.
  - simpl. lia.
Defined.

Lemma get_or_create_evicts_oldest_witness :
  let l := (ask world_full_cache "cli:direct" 6%Z).1 in
  let w' := (ask world_full_cache "cli:direct" 6%Z).2 in
  _cache (mgr w') = [("cli:direct", l)] /\
  objects w' !! 0 = Some (new_session "telegram:7" 5%Z).
Proof.
  destruct (get_or_create_evicts_oldest Json.loads fromisoformat
              safe_filename shutil_move world_full_cache "cli:direct"
              "telegram:7" 0 [] 6%Z eq_refl eq_refl ltac:(simpl; lia))
    as [Hcache Hobjects].
  split; [exact Hcache|]. by apply Hobjects.
Defined.

(** *** A file in the legacy directory *)

Definition world_legacy_file : World :=
  mkWorld (manager 2 500 []) ∅
          {[ ("home/.sarathi/sessions", "cli_direct.jsonl") := chat_text ]}.

Lemma legacy_file_migrates_witness :
  let w' := (ask world_legacy_file "cli:direct" 1%Z).2 in
  files w' !! ("ws/sessions", "cli_direct.jsonl") = Some chat_text /\
  files w' !! ("home/.sarathi/sessions", "cli_direct.jsonl") = None /\
  objects w' !! (ask world_legacy_file "cli:direct" 1%Z).1 =
    Some (chat_read_at 1%Z).
Proof.
  destruct (legacy_file_migrates Json.loads fromisoformat safe_filename
              shutil_move world_legacy_file "cli:direct" chat_text 1%Z
              eq_refl eq_refl eq_refl) as (_ & _ & Hsession & Hmoved).
  destruct (Hmoved eq_refl) as [Hnew Hold].
  split; [exact Hnew|]. split; [exact Hold|].
  unfold ask. rewrite Hsession.
  change (_get_session_path safe_filename (mgr world_legacy_file)
            "cli:direct")
    with ("ws/sessions", "cli_direct.jsonl") in *.
  rewrite Hnew. vm_compute. reflexivity.
Defined.

(** *** A file with a line that is not JSON *)

Definition broken_text : string :=
  Json.dumps (VDict (user_message "hello")) +:+ NL +:+ "{oops" +:+ NL.

Definition world_broken_file : World :=
  mkWorld (manager 2 500 []) ∅
          {[ ("ws/sessions", "cli_direct.jsonl") := broken_text ]}.

Lemma bad_line_gives_empty_session_witness :
  let l := (ask world_broken_file "cli:direct" 1%Z).1 in
  let w' := (ask world_broken_file "cli:direct" 1%Z).2 in
  objects w' !! l = Some (new_session "cli:direct" 1%Z) /\
  files w' = files world_broken_file /\
  files (save Json.dumps isoformat safe_filename w' l)
    !! ("ws/sessions", "cli_direct.jsonl") =
    Some (write_lines Json.dumps
            [metadata_line isoformat (new_session "cli:direct" 1%Z)]).
Proof.
  apply (bad_line_gives_empty_session Json.dumps Json.loads isoformat
           fromisoformat safe_filename shutil_move world_broken_file
           "cli:direct" broken_text "{oops" 1%Z).
  - reflexivity.
  - reflexivity.
  - vm_compute. apply list_elem_of_further, list_elem_of_here.
  - vm_compute. discriminate.
  - vm_compute. reflexivity.
Defined.

(** *** Saving *)

Lemma save_twice_witness :
  save Json.dumps isoformat safe_filename
    (save Json.dumps isoformat safe_filename world_chat 0) 0 =
  save Json.dumps isoformat safe_filename world_chat 0.
Proof.
  apply (save_twice Json.dumps isoformat safe_filename world_chat 0 chat).
  - reflexivity.
  - simpl. lia.
Defined.

Definition long_chat : Session :=
  mkSession "cli:direct"
            [user_message "hello"; reply_message "hi"; user_message "bye"]
            10%Z 12%Z (VDict [("lang", VStr "en")]) (VInt 2).

Definition world_limit_two : World :=
  mkWorld (manager 50 2 []) {[ 0 := long_chat ]} ∅.

Lemma save_keeps_suffix_witness :
  exists s',
    objects (save Json.dumps isoformat safe_filename world_limit_two 0) !! 0 =
      Some s' /\
    messages s' `suffix_of` messages long_chat /\
    key s' = "cli:direct" /\
    (last_consolidated s' = VInt 2 \/ last_consolidated s' = VInt 0).
Proof.
  destruct (save_keeps_suffix Json.dumps isoformat safe_filename
              world_limit_two 0 long_chat eq_refl)
    as (s' & Hs' & Hsuffix & Hkey & _ & _ & _ & Hoffset).
  exists s'. repeat split; [exact Hs' | exact Hsuffix | exact Hkey |
                            exact Hoffset].
Defined.

Lemma save_then_load_truncated_witness :
  exists s',
    (_load Json.loads fromisoformat safe_filename shutil_move
       (mgr (save Json.dumps isoformat safe_filename world_limit_two 0))
       (files (save Json.dumps isoformat safe_filename world_limit_two 0))
       "cli:direct" 20%Z).1 = Some s' /\
    messages s' = [reply_message "hi"; user_message "bye"] /\
    last_consolidated s' = VInt 0.
Proof.
  destruct (save_then_load_truncated Json.dumps Json.loads isoformat
              fromisoformat safe_filename shutil_move world_limit_two 0
              long_chat 20%Z)
    as (s' & Hload & Hmsg & _ & Hoffset & _).
  - reflexivity.
  - simpl. lia.
  - simpl. lia.
  - repeat constructor.
  - codec_ok_tac.
  - reflexivity.
  - exists s'. split; [|split; [exact Hmsg | exact Hoffset]].
    change (key long_chat) with "cli:direct" in Hload. by rewrite Hload.
Defined.

Lemma save_then_get_or_create_witness :
  let w1 := save Json.dumps isoformat safe_filename world_chat 0 in
  (ask w1 "cli:direct" 20%Z).1 = 0 /\
  objects (ask w1 "cli:direct" 20%Z).2 = objects w1 /\
  files (ask w1 "cli:direct" 20%Z).2 = files w1.
Proof.
  destruct (save_then_get_or_create Json.dumps Json.loads isoformat
              fromisoformat safe_filename shutil_move world_chat 0 chat 20%Z
              eq_refl) as (_ & Hloc & Hobjects & Hfiles).
  split; [exact Hloc|]. split; [exact Hobjects | exact Hfiles].
Defined.

(** *** Dropping a session from the cache *)

Definition world_cached_chat : World :=
  mkWorld (manager 2 500 [("cli:direct", 0)]) {[ 0 := chat ]}
          {[ ("ws/sessions", "cli_direct.jsonl") := chat_text ]}.

Lemma invalidate_forces_reload_witness :
  let w1 := invalidate world_cached_chat "cli:direct" in
  let l := (ask w1 "cli:direct" 30%Z).1 in
  let w2 := (ask w1 "cli:direct" 30%Z).2 in
  l <> 0 /\
  objects w2 !! l =
    Some (default (new_session "cli:direct" 30%Z)
            (parse_session Json.loads fromisoformat "cli:direct" chat_text
               30%Z)) /\
  files w2 = files world_cached_chat.
Proof.
  destruct (invalidate_forces_reload Json.loads fromisoformat safe_filename
              shutil_move world_cached_chat "cli:direct" chat_text 30%Z)
    as (_ & _ & _ & Hnew & Hobject & Hfiles).
  - apply NoDup_singleton.
  - reflexivity.
  - split; [|split; [exact Hobject | exact Hfiles]].
    intros Heq. apply Hnew. unfold ask in Heq. rewrite Heq.
    apply elem_of_dom. by exists chat.
Defined.

End ManagerExamples.

(** ** Skills (sarathy/agent/skills.py)

    The skill directories are part of the file system.  A directory is given
    by what [iterdir] lists, in the order it lists it; for a subdirectory
    only its [SKILL.md] matters. *)

Module SkillsModel.
Import Py.

(** [SKILL.md] in a skill directory: absent, present and unreadable
    ([read_text] raises), or present with its text. *)
Inductive skill_md : Type :=
| NoFile
| Unreadable
| Content (text : string).

Inductive entry : Type :=
| File
| Dir (md : skill_md).

(** A skills directory: it does not exist, it exists and is no directory
    ([iterdir] raises), or it lists its entries by name. *)
Inductive directory : Type :=
| Missing
| NotDirectory
| Entries (l : list (string * entry)).

(** A place where skills are looked for: the path and what is there. *)
Record root : Type := mkRoot {
  root_path : string;
  root_dir : directory
}.

(** [root.exists()] *)
Definition exists_ (r : root) : bool :=
  match root_dir r with Missing => false | _ => true end.

(** [(dir / "SKILL.md").exists()] *)
Definition md_exists (md : skill_md) : bool :=
  match md with NoFile => false | _ => true end.

(** [str(root / name / "SKILL.md")] *)
Definition skill_file_path (r : root) (name : string) : string :=
  root_path r +:+ "/" +:+ name +:+ "/SKILL.md".

(** [root / name / "SKILL.md"], if it exists. *)
Definition find_skill_md (r : root) (name : string) : option skill_md :=
  match root_dir r with
  | Entries l =>
      match dict_get name l with
      | Some (Dir md) => if md_exists md then Some md else None
      | _ => None
      end
  | _ => None
  end.

(** What [iterdir] lists in [r]. *)
Definition entries_of (r : root) : list (string * entry) :=
  match root_dir r with Entries l => l | _ => [] end.

(** [r] has a subdirectory [n] with a [SKILL.md]. *)
Definition has_skill (r : root) (n : string) : Prop :=
  exists md, (n, Dir md) ∈ entries_of r /\ md_exists md = true.

(** [SkillCommand].  The three texts are whatever the YAML document holds. *)
Record SkillCommand : Type := mkCommand {
  cmd_name : value;
  cmd_description : value;
  cmd_help_text : value;
  cmd_skill_name : string
}.

(** [SkillInfo] *)
Record SkillInfo : Type := mkSkill {
  name : string;
  path : string;
  source : string;
  content : string;
  commands : list SkillCommand
}.

(** An entry of [SkillsLoader.list_skills]: a [dict] with the keys [name],
    [path] and [source]. *)
Record skill_ref : Type := mkRef {
  ref_name : string;
  ref_path : string;
  ref_source : string
}.

(** The fields of [SkillsLoader] that the methods below read. *)
Record SkillsLoader : Type := mkLoader {
  workspace_skills : root;
  builtin_skills : root
}.

Definition DQ : ascii := "034"%char.
Definition NL : string := String Str.LF "".

(** What iterating over [v] yields; [None] when [v] is not iterable. *)
Definition iterate (v : value) : option (list value) :=
  match v with
  | VList l => Some l
  | VStr s => Some (VStr <$> Str.chars s)
  | VDict d => Some (VStr <$> d.*1)
  | _ => None
  end.

(** [v.get(k, default)]; [None] when [v] has no [get] (it is no [dict]). *)
Definition get_or (v : value) (k : string) (dflt : value) : option value :=
  match v with
  | VDict d => Some (default dflt (dict_get k d))
  | _ => None
  end.

Section Skills.

(** [json.loads] *)
Variable loads : string -> option value.
(** [shutil.which(b)] finds [b] on the search path. *)
Variable which : string -> bool.
(** [os.environ] *)
Variable environ : string -> option string.
(** [yaml.safe_load]; [None] when it raises. *)
Variable yaml_safe_load : string -> option value.

(** *** [SkillsLoader] *)

(** A loop of [list_skills] over the entries of a directory: a
    subdirectory with a [SKILL.md] is appended to [skills], unless [skip]
    says otherwise. *)
Definition list_loop (r : root) (src : string)
    (skip : list skill_ref -> string -> bool) (skills : list skill_ref)
  : option (list skill_ref) :=
  match root_dir r with
  | Missing => Some skills
  | NotDirectory => None
  | Entries l =>
      Some (foldl
              (fun skills e =>
                 match e with
                 | (n, Dir md) =>
                     if md_exists md && negb (skip skills n)
                     then skills ++ [mkRef n (skill_file_path r n) src]
                     else skills
                 | (_, File) => skills
                 end)
              skills l)
  end.

(** [any(s["name"] == n for s in skills)] *)
Definition listed (skills : list skill_ref) (n : string) : bool :=
  existsb (fun s => String.eqb (ref_name s) n) skills.

(** [SkillsLoader.load_skill]: the outer [None] is an exception of
    [read_text], the inner one the result [None]. *)
Definition load_skill (self : SkillsLoader) (n : string)
  : option (option string) :=
  match find_skill_md (workspace_skills self) n with
  | Some (Content text) => Some (Some text)
  | Some _ => None
  | None =>
      match find_skill_md (builtin_skills self) n with
      | Some (Content text) => Some (Some text)
      | Some _ => None
      | None => Some None
      end
  end.

(** The group of [re.match(r"^---\n(.*?)\n---", content, re.DOTALL)]: the
    text between the opening line and the first line that starts with three
    dashes. *)
Definition frontmatter_block (text : string) : option string :=
  if Str.startswith ("---" +:+ NL) text
  then Str.before_first (NL +:+ "---")
         (String.substring 4 (String.length text - 4) text)
  else None.

Definition is_quote (c : ascii) : bool :=
  Ascii.eqb c DQ || Ascii.eqb c "'".

(** The loop of [get_skill_metadata] over the lines of the block. *)
Definition parse_frontmatter (block : string) : dict string :=
  foldl (fun metadata line =>
           match Str.split_once ":" line with
           | Some (k, v) =>
               dict_set (Str.strip k)
                        (Str.strip_by is_quote (Str.strip v)) metadata
           | None => metadata
           end)
        [] (Str.split_by (Str.is_char Str.LF) block).

(** [SkillsLoader.get_skill_metadata] *)
Definition get_skill_metadata (self : SkillsLoader) (n : string)
  : option (option (dict string)) :=
  text ← load_skill self n;
  match text with
  | None => Some None
  | Some text =>
      if String.eqb text "" then Some None
      else if Str.startswith "---" text
      then Some (parse_frontmatter <$> frontmatter_block text)
      else Some None
  end.

(** [SkillsLoader._parse_sarathy_metadata] *)
Definition _parse_sarathy_metadata (raw : string) : value :=
  match loads raw with
  | Some (VDict d) =>
      default (default (VDict []) (dict_get "openclaw" d))
              (dict_get "sarathy" d)
  | _ => VDict []
  end.

(** [SkillsLoader._get_skill_meta] *)
Definition _get_skill_meta (self : SkillsLoader) (n : string)
  : option value :=
  meta ← get_skill_metadata self n;
  Some (_parse_sarathy_metadata
          (default "" (dict_get "metadata" (default [] meta)))).

(** [os.environ.get(e)] is set and not empty. *)
Definition env_set (e : string) : bool :=
  match environ e with
  | Some v => negb (String.eqb v "")
  | None => false
  end.

(** The names a loop over [requires.get(k, [])] visits; a name that is no
    string makes [shutil.which] and [os.environ.get] raise. *)
Definition as_name (v : value) : option string :=
  match v with VStr s => Some s | _ => None end.

(** A loop [for x in names: if not found(x): return False]: [Some true]
    when it runs to its end, [Some false] at the first name not found,
    [None] when a name met before that is no string. *)
Fixpoint all_found (found : string -> bool) (names : list value)
  : option bool :=
  match names with
  | [] => Some true
  | v :: rest =>
      n ← as_name v;
      if found n then all_found found rest else Some false
  end.

(** What [for x in requires.get(k, [])] visits. *)
Definition names_at (requires : value) (k : string) : option (list value) :=
  get_or requires k (VList []) ≫= iterate.

(** [SkillsLoader._check_requirements] *)
Definition _check_requirements (skill_meta : value) : option bool :=
  requires ← get_or skill_meta "requires" (VDict []);
  bins ← names_at requires "bins";
  ok ← all_found which bins;
  match ok with
  | true => envs ← names_at requires "env"; all_found env_set envs
  | false => Some false
  end.

(** The names of [names] that are not found, each after [label]. *)
Fixpoint missing_of (found : string -> bool) (label : string)
    (names : list value) : option (list string) :=
  match names return option (list string) with
  | [] => Some []
  | v :: rest =>
      n ← as_name v;
      others ← missing_of found label rest;
      Some (if found n then others else (label +:+ n) :: others)
  end.

(** [SkillsLoader._get_missing_requirements] *)
Definition _get_missing_requirements (skill_meta : value) : option string :=
  requires ← get_or skill_meta "requires" (VDict []);
  bins ← names_at requires "bins";
  missing_bins ← missing_of which "CLI: " bins;
  envs ← names_at requires "env";
  missing_envs ← missing_of env_set "ENV: " envs;
  Some (Str.join ", " (missing_bins ++ missing_envs)).

(** The comprehension at the end of [list_skills]:
    [[s for s in skills if self._check_requirements(...)]]. *)
Fixpoint keep_available (self : SkillsLoader) (skills : list skill_ref)
  : option (list skill_ref) :=
  match skills return option (list skill_ref) with
  | [] => Some []
  | s :: rest =>
      meta ← _get_skill_meta self (ref_name s);
      ok ← _check_requirements meta;
      kept ← keep_available self rest;
      Some (if (ok : bool) then s :: kept else kept)
  end.

(** [SkillsLoader.list_skills] *)
Definition list_skills (self : SkillsLoader) (filter_unavailable : bool)
  : option (list skill_ref) :=
  skills ← list_loop (workspace_skills self) "workspace"
             (fun _ _ => false) [];
  skills ← list_loop (builtin_skills self) "builtin" listed skills;
  if filter_unavailable then keep_available self skills else Some skills.

(** [SkillsLoader._get_skill_description] *)
Definition _get_skill_description (self : SkillsLoader) (n : string)
  : option string :=
  meta ← get_skill_metadata self n;
  Some (match meta with
        | Some ((_ :: _) as m) =>
            match dict_get "description" m with
            | Some d => if String.eqb d "" then n else d
            | None => n
            end
        | _ => n
        end).

(** [escape_xml] of [build_skills_summary] *)
Definition escape_xml (s : string) : string :=
  Str.replace_char ">" "&gt;"
    (Str.replace_char "<" "&lt;" (Str.replace_char "&" "&amp;" s)).

Definition py_bool_lower (b : bool) : string :=
  if b then "true" else "false".

(** The lines [build_skills_summary] appends for one skill. *)
Definition skill_lines (self : SkillsLoader) (s : skill_ref)
  : option (list string) :=
  let n := escape_xml (ref_name s) in
  let p := ref_path s in
  desc ← _get_skill_description self (ref_name s);
  let desc := escape_xml desc in
  skill_meta ← _get_skill_meta self (ref_name s);
  available ← _check_requirements skill_meta;
  requires ←
    (if (available : bool) then Some []
     else
       missing ← _get_missing_requirements skill_meta;
       Some (if String.eqb missing "" then []
             else ["    <requires>" +:+ escape_xml missing
                   +:+ "</requires>"]));
  Some (["  <skill available=" +:+ String DQ (py_bool_lower available)
           +:+ String DQ ">";
         "    <name>" +:+ n +:+ "</name>";
         "    <description>" +:+ desc +:+ "</description>";
         "    <location>" +:+ p +:+ "</location>"]
        ++ requires ++ ["  </skill>"]).

(** [SkillsLoader.build_skills_summary] *)
Definition build_skills_summary (self : SkillsLoader) : option string :=
  all_skills ← list_skills self false;
  match all_skills with
  | [] => Some ""
  | _ =>
      blocks ← mapM (skill_lines self) all_skills;
      Some (Str.join NL (["<skills>"] ++ concat blocks ++ ["</skills>"]))
  end.

(** *** [SkillManager] *)

(** The frontmatter [_parse_commands] hands to the YAML parser: the lines
    after the first, up to the first later line that is three dashes. *)
Fixpoint until_closing (lines : list string) : list string :=
  match lines with
  | [] => []
  | line :: rest =>
      if String.eqb (Str.strip line) "---" then []
      else line :: until_closing rest
  end.

Definition frontmatter_of (text : string) : string :=
  Str.join NL (until_closing
                 (tail (Str.split_by (Str.is_char Str.LF) text))).

(** The body of the last loop of [_parse_commands]. *)
Definition command_of (skill_name : string) (cmd : value)
  : option SkillCommand :=
  match cmd with
  | VDict d =>
      Some (mkCommand (default (VStr "") (dict_get "name" d))
                      (default (VStr "") (dict_get "description" d))
                      (default (VStr "") (dict_get "help" d))
                      skill_name)
  | _ => None
  end.

(** [SkillManager._parse_commands]; [None] when it raises. *)
Definition _parse_commands (text : string) (skill_name : string)
  : option (list SkillCommand) :=
  if negb (Str.startswith "---" text) then Some []
  else
    let data :=
      match yaml_safe_load (frontmatter_of text) with
      | Some v => if truthy v then v else VDict []
      | None => VDict []
      end in
    commands_data ← get_or data "commands" (VList []);
    if negb (truthy commands_data) then Some []
    else
      match iterate commands_data with
      | Some cmds => Some (omap (command_of skill_name) cmds)
      | None => None
      end.

(** The body of the loop of [_load_skills_from_dir]: the [SkillInfo] it
    stores for an entry, if it stores one. *)
Definition scan_entry (r : root) (src : string) (e : string * entry)
  : option SkillInfo :=
  match e with
  | (n, Dir (Content text)) =>
      cmds ← _parse_commands text n;
      Some (mkSkill n (skill_file_path r n) src text cmds)
  | _ => None
  end.

(** The loop of [_load_skills_from_dir] over the entries of a directory. *)
Definition scan_entries (r : root) (src : string)
    (entries : list (string * entry)) (skills : gmap string SkillInfo)
  : gmap string SkillInfo :=
  foldl (fun skills e =>
           match scan_entry r src e with
           | Some info => <[e.1 := info]> skills
           | None => skills
           end)
        skills entries.

(** [if d.exists(): self._load_skills_from_dir(d, source)] *)
Definition _load_skills_from_dir (r : root) (src : string)
    (skills : gmap string SkillInfo) : option (gmap string SkillInfo) :=
  match root_dir r with
  | Missing => Some skills
  | NotDirectory => None
  | Entries l => Some (scan_entries r src l skills)
  end.

(** The directories of a [SkillManager]. *)
Record SkillManager : Type := mkSkillManager {
  sm_global_skills : root;
  sm_workspace_skills : root;
  sm_builtin_skills : root
}.

(** [SkillManager._load_all_skills], from the empty [_skills] of
    [__init__]. *)
Definition _load_all_skills (self : SkillManager)
  : option (gmap string SkillInfo) :=
  skills ← _load_skills_from_dir (sm_global_skills self) "global" ∅;
  skills ← _load_skills_from_dir (sm_workspace_skills self) "workspace"
             skills;
  _load_skills_from_dir (sm_builtin_skills self) "builtin" skills.

(** *** The initial load of [SkillManager] *)

(** What a scan of [r] alone puts into an empty map. *)
Definition scanned (r : root) (src : string) : gmap string SkillInfo :=
  default ∅ (_load_skills_from_dir r src ∅).

(** A scan writes over what the map holds: its own entries come first. *)
Lemma scan_entries_union (r : root) (src : string)
    (entries : list (string * entry)) (skills : gmap string SkillInfo) :
  scan_entries r src entries skills = scan_entries r src entries ∅ ∪ skills.
Proof.
  revert skills. induction entries as [|e entries IH]; intros skills.
  - simpl. by rewrite (left_id_L ∅ (∪)).
  - unfold scan_entries in *. cbn [foldl].
    destruct (scan_entry r src e) as [info|].
    + rewrite (IH (<[e.1 := info]> skills)), (IH (<[e.1 := info]> ∅)).
      rewrite insert_empty, <- (assoc_L (∪)).
      by rewrite <- insert_union_singleton_l.
    + done.
Qed.

Lemma _load_skills_from_dir_union (r : root) (src : string)
    (skills : gmap string SkillInfo) :
  root_dir r <> NotDirectory ->
  _load_skills_from_dir r src skills = Some (scanned r src ∪ skills).
Proof.
  intros Hdir. unfold scanned, _load_skills_from_dir.
  destruct (root_dir r) as [| |entries]; simpl.
  - by rewrite (left_id_L ∅ (∪)).
  - done.
  - by rewrite scan_entries_union.
Qed.

(** The entry a scan stores for a name comes from a subdirectory of that
    name whose [SKILL.md] was read and parsed, and carries the source of
    the scan. *)
Lemma scan_entries_lookup (r : root) (src : string)
    (entries : list (string * entry)) (n : string) (info : SkillInfo) :
  scan_entries r src entries ∅ !! n = Some info ->
  exists text cmds,
    (n, Dir (Content text)) ∈ entries /\
    _parse_commands text n = Some cmds /\
    info = mkSkill n (skill_file_path r n) src text cmds.
Proof.
  induction entries as [|e entries IH].
  - simpl. by rewrite lookup_empty.
  - unfold scan_entries in *. cbn [foldl].
    destruct (scan_entry r src e) as [info'|] eqn:He.
    + fold (scan_entries r src entries (<[e.1 := info']> ∅)).
      rewrite scan_entries_union. intros H.
      apply lookup_union_Some_raw in H as [H|[_ H]].
      * destruct (IH H) as (text & cmds & Hin & Hp & Hi).
        exists text, cmds. split; [by apply list_elem_of_further | done].
      * apply lookup_insert_Some in H as [[<- <-]|[_ H]];
          [|by rewrite lookup_empty in H].
        destruct e as [n' [|[| |text]]]; simpl in He; try done.
        destruct (_parse_commands text n') as [cmds|] eqn:Hp; [|done].
        simpl in He. injection He as <-.
        exists text, cmds. split; [apply list_elem_of_here | done].
    + intros H. destruct (IH H) as (text & cmds & Hin & Hp & Hi).
      exists text, cmds. split; [by apply list_elem_of_further | done].
Qed.

Lemma scanned_lookup (r : root) (src : string) (n : string)
    (info : SkillInfo) :
  scanned r src !! n = Some info ->
  source info = src /\ name info = n /\
  path info = skill_file_path r n /\
  exists entries,
    root_dir r = Entries entries /\
    (n, Dir (Content (content info))) ∈ entries /\
    _parse_commands (content info) n = Some (commands info).
Proof.
  unfold scanned, _load_skills_from_dir.
  destruct (root_dir r) as [| |entries]; simpl;
    [by rewrite lookup_empty.. |].
  intros H. destruct (scan_entries_lookup _ _ _ _ _ H)
    as (text & cmds & Hin & Hp & ->).
  simpl. repeat split. by exists entries.
Qed.

(** A name that a directory lists once, with a [SKILL.md] that is read and
    parsed, is in the scan of that directory. *)
Lemma scanned_present (r : root) (src : string)
    (entries : list (string * entry)) (n text : string)
    (cmds : list SkillCommand) :
  root_dir r = Entries entries ->
  NoDup entries.*1 ->
  (n, Dir (Content text)) ∈ entries ->
  _parse_commands text n = Some cmds ->
  scanned r src !! n = Some (mkSkill n (skill_file_path r n) src text cmds).
Proof.
  intros Hr Hnd Hin Hp. unfold scanned, _load_skills_from_dir.
  rewrite Hr. simpl. clear Hr.
  induction entries as [|e entries IH]; [by apply elem_of_nil in Hin|].
  rewrite fmap_cons in Hnd. apply NoDup_cons in Hnd as [Hfresh Hnd].
  unfold scan_entries in *. cbn [foldl].
  apply elem_of_cons in Hin as [<-|Hin].
  - simpl. rewrite Hp. simpl.
    fold (scan_entries r src entries
            (<[n := mkSkill n (skill_file_path r n) src text cmds]> ∅)).
    rewrite scan_entries_union. rewrite lookup_union_r.
    + apply lookup_insert_eq.
    + destruct (scan_entries r src entries ∅ !! n) as [info|] eqn:H; [|done].
      destruct (scan_entries_lookup _ _ _ _ _ H) as (t & c & Hin & _).
      exfalso. apply Hfresh. simpl.
      apply list_elem_of_fmap. by exists (n, Dir (Content t)).
  - destruct (scan_entry r src e) as [info'|].
    + fold (scan_entries r src entries (<[e.1 := info']> ∅)).
      rewrite scan_entries_union. apply lookup_union_Some_l. by apply IH.
    + by apply IH.
Qed.

(** A subdirectory [n] of [r] can be loaded: its [SKILL.md] is read, with
    the text [text], and [_parse_commands] returns [cmds] for it. *)
Definition loadable (r : root) (n text : string) (cmds : list SkillCommand)
  : Prop :=
  (n, Dir (Content text)) ∈ entries_of r /\
  _parse_commands text n = Some cmds.

(** [r] has nothing to load under the name [n]: no subdirectory of that
    name with a [SKILL.md] that can be read, or [_parse_commands] raises on
    what is read. *)
Definition unloadable (r : root) (n : string) : Prop :=
  forall text,
    (n, Dir (Content text)) ∈ entries_of r -> _parse_commands text n = None.

Lemma scanned_loadable (r : root) (src : string) (n text : string)
    (cmds : list SkillCommand) :
  NoDup (entries_of r).*1 ->
  loadable r n text cmds ->
  scanned r src !! n = Some (mkSkill n (skill_file_path r n) src text cmds).
Proof.
  intros Hnd [Hin Hp]. unfold entries_of in *.
  destruct (root_dir r) as [| |entries] eqn:Hr;
    [by apply elem_of_nil in Hin.. |].
  by eapply scanned_present.
Qed.

Lemma scanned_unloadable (r : root) (src : string) (n : string) :
  unloadable r n -> scanned r src !! n = None.
Proof.
  intros Hun. destruct (scanned r src !! n) as [info|] eqn:H; [|done].
  destruct (scanned_lookup _ _ _ _ H) as (_ & _ & _ & entries & Hr & Hin & Hp).
  unfold unloadable, entries_of in Hun. rewrite Hr in Hun.
  by rewrite (Hun _ Hin) in Hp.
Qed.

(** C2, as amended: the initial load scans the global, the workspace and
    the builtin directory in this order, and a scan writes over the entry
    of a name when it loads the skill of that name, not otherwise: a
    [SKILL.md] that cannot be read, or on which [_parse_commands] raises,
    leaves the entry of an earlier scan.  So the map holds, for every name,
    the skill of the builtin directory when that can be loaded, else the
    skill of the workspace when that can be loaded, else the skill of the
    global directory when that can be loaded, else nothing; and an entry
    carries the source, the path and the text of its directory. *)
Theorem initial_load_last_scan_wins (self : SkillManager) (n : string) :
  root_dir (sm_global_skills self) <> NotDirectory ->
  root_dir (sm_workspace_skills self) <> NotDirectory ->
  root_dir (sm_builtin_skills self) <> NotDirectory ->
  NoDup (entries_of (sm_global_skills self)).*1 ->
  NoDup (entries_of (sm_workspace_skills self)).*1 ->
  NoDup (entries_of (sm_builtin_skills self)).*1 ->
  exists skills,
    _load_all_skills self = Some skills /\
    (forall text cmds,
       loadable (sm_builtin_skills self) n text cmds ->
       skills !! n =
         Some (mkSkill n (skill_file_path (sm_builtin_skills self) n)
                 "builtin" text cmds)) /\
    (unloadable (sm_builtin_skills self) n ->
     forall text cmds,
       loadable (sm_workspace_skills self) n text cmds ->
       skills !! n =
         Some (mkSkill n (skill_file_path (sm_workspace_skills self) n)
                 "workspace" text cmds)) /\
    (unloadable (sm_builtin_skills self) n ->
     unloadable (sm_workspace_skills self) n ->
     forall text cmds,
       loadable (sm_global_skills self) n text cmds ->
       skills !! n =
         Some (mkSkill n (skill_file_path (sm_global_skills self) n)
                 "global" text cmds)) /\
    (unloadable (sm_builtin_skills self) n ->
     unloadable (sm_workspace_skills self) n ->
     unloadable (sm_global_skills self) n ->
     skills !! n = None).
Proof.
  intros Hg Hw Hb Hndg Hndw Hndb.
  exists (scanned (sm_builtin_skills self) "builtin" ∪
          (scanned (sm_workspace_skills self) "workspace" ∪
           scanned (sm_global_skills self) "global")).
  split.
  - unfold _load_all_skills.
    rewrite (_load_skills_from_dir_union _ _ _ Hg). cbn [mbind option_bind].
    rewrite (_load_skills_from_dir_union _ _ _ Hw). cbn [mbind option_bind].
    rewrite (_load_skills_from_dir_union _ _ _ Hb).
    by rewrite (right_id_L ∅ (∪)).
  - split; [|split; [|split]].
    + intros text cmds H. apply lookup_union_Some_l.
      by apply scanned_loadable.
    + intros Hub text cmds H.
      rewrite lookup_union_r by (by apply scanned_unloadable).
      apply lookup_union_Some_l. by apply scanned_loadable.
    + intros Hub Huw text cmds H.
      rewrite !lookup_union_r by (by apply scanned_unloadable).
      by apply scanned_loadable.
    + intros Hub Huw Hug.
      rewrite !lookup_union_r by (by apply scanned_unloadable).
      by apply scanned_unloadable.
Qed.


(** *** [_parse_commands] *)

(** The cases in which [_parse_commands] gives up quietly: no frontmatter,
    a YAML parser that raises, an empty document, a mapping without
    [commands]. *)
Lemma parse_commands_degrades (text n : string) :
  Str.startswith "---" text = false \/
  yaml_safe_load (frontmatter_of text) = None \/
  (exists v, yaml_safe_load (frontmatter_of text) = Some v /\
             truthy v = false) \/
  (exists d, yaml_safe_load (frontmatter_of text) = Some (VDict d) /\
             dict_get "commands" d = None) ->
  _parse_commands text n = Some [].
Proof.
  unfold _parse_commands.
  intros [H|[H|[(v & H & Hv)|(d & H & Hd)]]].
  - by rewrite H.
  - rewrite H. by destruct (Str.startswith "---" text).
  - rewrite H, Hv. by destruct (Str.startswith "---" text).
  - rewrite H. destruct (Str.startswith "---" text); [|done]. simpl.
    destruct d as [|kv d]; simpl; [done|]. simpl in Hd. by rewrite Hd.
Qed.

(** C9: a frontmatter that YAML reads as a plain scalar.  The document is
    a string, [data.get] does not exist, and the [AttributeError] leaves
    [_parse_commands], whose [try] covers the parse alone.  The loop of
    [_load_skills_from_dir] catches it and stores no entry for the skill:
    the specification has an empty command list and a loaded skill. *)
Theorem parse_commands_raises_on_scalar (text n s : string) (r : root)
    (src : string) (skills : gmap string SkillInfo) :
  Str.startswith "---" text = true ->
  yaml_safe_load (frontmatter_of text) = Some (VStr s) ->
  s <> "" ->
  _parse_commands text n = None /\
  scan_entry r src (n, Dir (Content text)) = None /\
  scan_entries r src [(n, Dir (Content text))] skills = skills.
Proof.
  intros Hstart Hyaml Hs.
  assert (_parse_commands text n = None) as Hp.
  { unfold _parse_commands. rewrite Hstart, Hyaml. simpl.
    apply String.eqb_neq in Hs. by rewrite Hs. }
  assert (scan_entry r src (n, Dir (Content text)) = None) as He.
  { simpl. by rewrite Hp. }
  split; [done|]. split; [done|].
  unfold scan_entries. cbn [foldl]. by rewrite He.
Qed.

(** A [commands] entry that is a number other than 0 cannot be iterated:
    the [for] loop raises. *)
Lemma parse_commands_raises_on_number (text n : string)
    (d : dict value) (z : Z) :
  Str.startswith "---" text = true ->
  yaml_safe_load (frontmatter_of text) = Some (VDict d) ->
  dict_get "commands" d = Some (VInt z) -> z <> 0%Z ->
  _parse_commands text n = None.
Proof.
  intros Hstart Hyaml Hd Hz. unfold _parse_commands.
  rewrite Hstart, Hyaml. simpl.
  destruct d as [|kv d]; [done|]. simpl in *. rewrite Hd. simpl.
  apply Z.eqb_neq in Hz. by rewrite Hz.
Qed.

(** *** Requirements and the manifest *)

(** The skill metadata declares the executables [bins] and the variables
    [envs]: [requires] is a mapping (or absent), and [bins] and [env] are
    lists of names (or absent). *)
Definition declares (skill_meta : value) (bins envs : list string) : Prop :=
  exists d r,
    skill_meta = VDict d /\
    default (VDict []) (dict_get "requires" d) = VDict r /\
    default (VList []) (dict_get "bins" r) = VList (VStr <$> bins) /\
    default (VList []) (dict_get "env" r) = VList (VStr <$> envs).

Lemma all_found_names (found : string -> bool) (names : list string) :
  all_found found (VStr <$> names) = Some (forallb found names).
Proof.
  induction names as [|n names IH]; [done|].
  rewrite fmap_cons. cbn [all_found as_name mbind option_bind forallb].
  destruct (found n); [exact IH | done].
Qed.

Lemma missing_of_names (found : string -> bool) (label : string)
    (names : list string) :
  missing_of found label (VStr <$> names) =
    Some (String.append label <$> List.filter (fun n => negb (found n)) names).
Proof.
  induction names as [|n names IH]; [done|].
  rewrite fmap_cons. cbn [missing_of as_name mbind option_bind List.filter].
  rewrite IH. cbn [mbind option_bind]. by destruct (found n).
Qed.

Lemma check_requirements_declared (skill_meta : value)
    (bins envs : list string) :
  declares skill_meta bins envs ->
  _check_requirements skill_meta =
    Some (forallb which bins && forallb env_set envs).
Proof.
  intros (d & r & -> & Hr & Hb & He).
  unfold _check_requirements, names_at, get_or.
  cbn [mbind option_bind]. rewrite Hr. cbn [mbind option_bind].
  rewrite Hb. cbn [iterate mbind option_bind].
  rewrite all_found_names. cbn [mbind option_bind].
  destruct (forallb which bins); [|done].
  rewrite He. cbn [iterate mbind option_bind]. apply all_found_names.
Qed.

(** The text of [_get_missing_requirements]. *)
Definition missing_text (bins envs : list string) : string :=
  Str.join ", "
    ((String.append "CLI: " <$> List.filter (fun b => negb (which b)) bins) ++
     (String.append "ENV: " <$>
        List.filter (fun e => negb (env_set e)) envs)).

Lemma missing_requirements_declared (skill_meta : value)
    (bins envs : list string) :
  declares skill_meta bins envs ->
  _get_missing_requirements skill_meta = Some (missing_text bins envs).
Proof.
  intros (d & r & -> & Hr & Hb & He).
  unfold _get_missing_requirements, names_at, get_or.
  cbn [mbind option_bind]. rewrite Hr. cbn [mbind option_bind].
  rewrite Hb. cbn [iterate mbind option_bind].
  rewrite missing_of_names. cbn [mbind option_bind].
  rewrite He. cbn [iterate mbind option_bind].
  by rewrite missing_of_names.
Qed.

Lemma join_starts_nonempty (sep : string) (c : ascii) (x : string)
    (l : list string) :
  Str.join sep (String c x :: l) <> "".
Proof.
  destruct l as [|y l]; [done|].
  cbn [Str.join]. by rewrite Str.append_cons.
Qed.

(** A skill that is not available has something missing, and the text
    says so. *)
Lemma missing_text_nonempty (bins envs : list string) :
  forallb which bins && forallb env_set envs = false ->
  missing_text bins envs <> "".
Proof.
  intros H. unfold missing_text.
  assert (exists c x l,
            (String.append "CLI: " <$>
               List.filter (fun b => negb (which b)) bins) ++
            (String.append "ENV: " <$>
               List.filter (fun e => negb (env_set e)) envs)
            = String c x :: l) as (c & x & l & ->);
    [|apply join_starts_nonempty].
  apply andb_false_iff in H as [H|H].
  - induction bins as [|b bins IH]; [done|].
    simpl in H. cbn [List.filter].
    destruct (which b); simpl.
    + by apply IH.
    + by eexists _, _, _.
  - destruct (String.append "CLI: " <$>
                List.filter (fun b => negb (which b)) bins) as [|m ms] eqn:Hm.
    + simpl. induction envs as [|e envs IH]; [done|].
      simpl in H. cbn [List.filter].
      destruct (env_set e); simpl.
      * by apply IH.
      * by eexists _, _, _.
    + destruct (List.filter (fun b => negb (which b)) bins) as [|b bs];
        [done|].
      rewrite fmap_cons in Hm. injection Hm as <- <-.
      by eexists _, _, _.
Qed.

(** [_check_requirements] holds of the skill. *)
Definition available (self : SkillsLoader) (s : skill_ref) : bool :=
  match _get_skill_meta self (ref_name s) ≫= _check_requirements with
  | Some true => true
  | _ => false
  end.








(** The description is read whenever the metadata is. *)
Lemma description_total (self : SkillsLoader) (n : string)
    (skill_meta : value) :
  _get_skill_meta self n = Some skill_meta ->
  is_Some (_get_skill_description self n).
Proof.
  unfold _get_skill_meta, _get_skill_description.
  by destruct (get_skill_metadata self n).
Qed.

(** The lines of a skill that is not available. *)
Definition unavailable_lines (s : skill_ref) (desc missing : string)
  : list string :=
  ["  <skill available=" +:+ String DQ "false" +:+ String DQ ">";
   "    <name>" +:+ escape_xml (ref_name s) +:+ "</name>";
   "    <description>" +:+ escape_xml desc +:+ "</description>";
   "    <location>" +:+ ref_path s +:+ "</location>";
   "    <requires>" +:+ escape_xml missing +:+ "</requires>";
   "  </skill>"].

Lemma escape_xml_nonempty (s : string) : s <> "" -> escape_xml s <> "".
Proof.
  destruct s as [|c s]; [done|]. intros _. unfold escape_xml.
  cbn [Str.replace_char].
  destruct (Ascii.eqb c "&"); cbn [Str.replace_char String.append];
    [rewrite !Str.append_cons; cbn [Str.replace_char]; simpl; done|].
  destruct (Ascii.eqb c "<"); cbn [Str.replace_char String.append];
    [rewrite !Str.append_cons; cbn [Str.replace_char]; simpl; done|].
  destruct (Ascii.eqb c ">"); [by rewrite Str.append_cons | done].
Qed.

Lemma skill_lines_unavailable (self : SkillsLoader) (s : skill_ref)
    (skill_meta : value) (bins envs : list string) :
  _get_skill_meta self (ref_name s) = Some skill_meta ->
  declares skill_meta bins envs ->
  _check_requirements skill_meta = Some false ->
  exists desc,
    _get_skill_description self (ref_name s) = Some desc /\
    skill_lines self s =
      Some (unavailable_lines s desc (missing_text bins envs)) /\
    escape_xml (missing_text bins envs) <> "".
Proof.
  intros Hmeta Hdecl Hcheck.
  destruct (description_total _ _ _ Hmeta) as [desc Hdesc].
  assert (missing_text bins envs <> "") as Hmissing.
  { apply missing_text_nonempty.
    rewrite (check_requirements_declared _ _ _ Hdecl) in Hcheck.
    by injection Hcheck. }
  exists desc. split; [done|]. split; [|by apply escape_xml_nonempty].
  unfold skill_lines. rewrite Hdesc, Hmeta. cbn [mbind option_bind].
  rewrite Hcheck. cbn [mbind option_bind].
  rewrite (missing_requirements_declared _ _ _ Hdecl).
  cbn [mbind option_bind].
  apply String.eqb_neq in Hmissing. by rewrite Hmissing.
Qed.



(** *** [escape_xml] *)

(** What [escape_xml] writes for one character. *)
Definition escape_char (c : ascii) : string :=
  if Ascii.eqb c "&" then "&amp;"
  else if Ascii.eqb c "<" then "&lt;"
  else if Ascii.eqb c ">" then "&gt;"
  else String c "".

(** The three replacements in a row escape each character on its own: the
    ampersand goes first, so the entities of the other two stay. *)
Lemma escape_xml_cons (c : ascii) (s : string) :
  escape_xml (String c s) = escape_char c +:+ escape_xml s.
Proof.
  unfold escape_xml, escape_char.
  destruct (Ascii.eqb_spec c "&") as [->|Hamp]; [reflexivity|].
  destruct (Ascii.eqb_spec c "<") as [->|Hlt]; [reflexivity|].
  destruct (Ascii.eqb_spec c ">") as [->|Hgt]; [reflexivity|].
  apply Ascii.eqb_neq in Hamp, Hlt, Hgt.
  cbn [Str.replace_char]. rewrite Hamp.
  cbn [Str.replace_char]. rewrite Hlt.
  cbn [Str.replace_char]. by rewrite Hgt.
Qed.

Definition is_markup (c : ascii) : bool :=
  Ascii.eqb c "<" || Ascii.eqb c ">".

Lemma forall_chars_app (p : ascii -> bool) (s t : string) :
  Str.forall_chars p (s +:+ t) = Str.forall_chars p s && Str.forall_chars p t.
Proof.
  induction s as [|c s IH]; [done|].
  rewrite Str.append_cons. simpl. by rewrite IH, andb_assoc.
Qed.

(** X19: escaped text holds neither [<] nor [>], whatever the text was: a
    name or a description cannot open or close a tag of the manifest. *)
Lemma escape_xml_no_markup (s : string) :
  Str.forall_chars (fun c => negb (is_markup c)) (escape_xml s) = true.
Proof.
  induction s as [|c s IH]; [done|].
  rewrite escape_xml_cons, forall_chars_app, IH, andb_true_r.
  unfold escape_char, is_markup.
  destruct (Ascii.eqb_spec c "&") as [->|_]; [reflexivity|].
  destruct (Ascii.eqb_spec c "<") as [->|Hlt]; [reflexivity|].
  destruct (Ascii.eqb_spec c ">") as [->|Hgt]; [reflexivity|].
  apply Ascii.eqb_neq in Hlt, Hgt. simpl. by rewrite Hlt, Hgt.
Qed.

(** *** More on [escape_xml] *)

Lemma escape_char_cases (c : ascii) :
  (c = "&"%char /\ escape_char c = "&amp;") \/
  (c = "<"%char /\ escape_char c = "&lt;") \/
  (c = ">"%char /\ escape_char c = "&gt;") \/
  (c <> "&"%char /\ c <> "<"%char /\ c <> ">"%char /\
   escape_char c = String c "").
Proof.
  unfold escape_char.
  destruct (Ascii.eqb_spec c "&") as [->|?]; [by left|].
  destruct (Ascii.eqb_spec c "<") as [->|?]; [by right; left|].
  destruct (Ascii.eqb_spec c ">") as [->|?]; [by right; right; left|].
  by right; right; right.
Qed.

(** X16: escaping loses nothing: two texts with the same escaped form are
    the same text. *)
Theorem escape_xml_injective (s t : string) :
  escape_xml s = escape_xml t -> s = t.
Proof.
  revert t. induction s as [|c s IH]; intros [|d t].
  - done.
  - rewrite escape_xml_cons.
    destruct (escape_char_cases d) as [[_ ->]|[[_ ->]|[[_ ->]|(_&_&_& ->)]]];
      discriminate.
  - rewrite escape_xml_cons.
    destruct (escape_char_cases c) as [[_ ->]|[[_ ->]|[[_ ->]|(_&_&_& ->)]]];
      discriminate.
  - rewrite !escape_xml_cons.
    destruct (escape_char_cases c)
      as [[-> ->]|[[-> ->]|[[-> ->]|(Hc1 & Hc2 & Hc3 & ->)]]];
      destruct (escape_char_cases d)
        as [[-> ->]|[[-> ->]|[[-> ->]|(Hd1 & Hd2 & Hd3 & ->)]]];
      rewrite ?Str.append_cons, ?Str.append_nil_l;
      intros H; try discriminate; try congruence;
      injection H; intros; subst; try congruence;
      f_equal; by apply IH.
Qed.

(** Text without the three characters is left as it is. *)
Lemma escape_xml_plain (s : string) :
  Str.forall_chars
    (fun c => negb (Ascii.eqb c "&" || Ascii.eqb c "<" || Ascii.eqb c ">"))
    s = true ->
  escape_xml s = s.
Proof.
  induction s as [|c s IH]; [done|]. simpl.
  intros [Hc Hs]%andb_true_iff. rewrite escape_xml_cons, (IH Hs).
  unfold escape_char.
  destruct (Ascii.eqb c "&"), (Ascii.eqb c "<"), (Ascii.eqb c ">");
    try discriminate.
  reflexivity.
Qed.

(** *** More on [list_skills] *)

(** The body of the loops of [list_skills]. *)
Definition list_step (r : root) (src : string)
    (skip : list skill_ref -> string -> bool)
    (skills : list skill_ref) (e : string * entry) : list skill_ref :=
  match e with
  | (n, Dir md) =>
      if md_exists md && negb (skip skills n)
      then skills ++ [mkRef n (skill_file_path r n) src]
      else skills
  | (_, File) => skills
  end.

Lemma list_loop_entries (r : root) (src : string)
    (skip : list skill_ref -> string -> bool) (skills : list skill_ref) :
  root_dir r <> NotDirectory ->
  list_loop r src skip skills =
    Some (foldl (list_step r src skip) skills (entries_of r)).
Proof.
  unfold list_loop, entries_of. by destruct (root_dir r).
Qed.

Lemma listed_app (a b : list skill_ref) (n : string) :
  listed (a ++ b) n = listed a n || listed b n.
Proof. unfold listed. apply existsb_app. Qed.

Lemma listed_true (skills : list skill_ref) (n : string) :
  listed skills n = true <-> n ∈ ref_name <$> skills.
Proof.
  unfold listed. rewrite existsb_exists, list_elem_of_fmap. split.
  - intros (s & Hin & Heq). apply String.eqb_eq in Heq.
    exists s. split; [done | by apply list_elem_of_In].
  - intros (s & -> & Hin). exists s.
    split; [by apply list_elem_of_In | apply String.eqb_refl].
Qed.

(** A loop over entries with distinct names: what it appends to
    [skills]. *)
Lemma list_loop_spec (r : root) (src : string) (dedupe : bool)
    (l : list (string * entry)) (skills : list skill_ref) :
  NoDup l.*1 ->
  let skip := if dedupe then listed else fun _ _ => false in
  exists added,
    foldl (list_step r src skip) skills l = skills ++ added /\
    NoDup (ref_name <$> added) /\
    (forall s, s ∈ added <->
       exists n md,
         (n, Dir md) ∈ l /\ md_exists md = true /\
         (dedupe = true -> listed skills n = false) /\
         s = mkRef n (skill_file_path r n) src).
Proof.
  intros Hnd skip. revert skills.
  induction l as [|[n e] l IH]; intros skills.
  - exists []. split; [by rewrite app_nil_r|]. split; [apply NoDup_nil_2|].
    intros s. split; [by intros ?%elem_of_nil|].
    by intros (? & ? & ?%elem_of_nil & _).
  - rewrite fmap_cons in Hnd. apply NoDup_cons in Hnd as [Hfresh Hnd].
    simpl in Hfresh. cbn [foldl].
    assert (forall n' md', (n', Dir md') ∈ l -> n' <> n) as Hother.
    { intros n' md' Hin ->. apply Hfresh.
      apply list_elem_of_fmap. by exists (n, Dir md'). }
    destruct e as [|md].
    + (* a plain file *)
      change (list_step r src skip skills (n, File)) with skills.
      destruct (IH Hnd skills) as (added & Hfold & Hnd' & Hadded).
      exists added. split; [done|]. split; [done|].
      intros s. rewrite Hadded. split.
      * intros (n' & md' & Hin & ?). exists n', md'.
        split; [by apply list_elem_of_further | done].
      * intros (n' & md' & Hin & ?). exists n', md'.
        apply elem_of_cons in Hin as [[=]|Hin]. done.
    + destruct (md_exists md && negb (skip skills n)) eqn:Htake.
      * (* the entry is appended *)
        replace (list_step r src skip skills (n, Dir md))
          with (skills ++ [mkRef n (skill_file_path r n) src])
          by (unfold list_step; by rewrite Htake).
        destruct (IH Hnd (skills ++ [mkRef n (skill_file_path r n) src]))
          as (added & Hfold & Hnd' & Hadded).
        apply andb_true_iff in Htake as [Hmd Hskip].
        apply negb_true_iff in Hskip.
        exists (mkRef n (skill_file_path r n) src :: added).
        split; [by rewrite Hfold, <- app_assoc|]. split.
        { rewrite fmap_cons. apply NoDup_cons. split; [|done].
          simpl. intros Hin. apply list_elem_of_fmap in Hin as (s & Hs & Hin).
          apply Hadded in Hin as (n' & md' & Hin & _ & _ & ->).
          simpl in Hs. subst. by eapply Hother. }
        intros s. rewrite elem_of_cons, Hadded. split.
        { intros [->|(n' & md' & Hin & Hmd' & Hl & ->)].
          - exists n, md. split; [apply list_elem_of_here|].
            split; [done|]. split; [|done].
            intros ->. exact Hskip.
          - exists n', md'. split; [by apply list_elem_of_further|].
            split; [done|]. split; [|done].
            intros Hd. specialize (Hl Hd). rewrite listed_app in Hl.
            by apply orb_false_iff in Hl as [? _]. }
        { intros (n' & md' & Hin & Hmd' & Hl & ->).
          apply elem_of_cons in Hin as [[= -> ->]|Hin]; [by left|].
          right. exists n', md'. split; [done|]. split; [done|].
          split; [|done]. intros Hd. rewrite listed_app, (Hl Hd). simpl.
          unfold listed. simpl. rewrite orb_false_r.
          apply String.eqb_neq. intros ->. by eapply Hother. }
      * (* the entry is passed over *)
        replace (list_step r src skip skills (n, Dir md)) with skills
          by (unfold list_step; by rewrite Htake).
        destruct (IH Hnd skills) as (added & Hfold & Hnd' & Hadded).
        exists added. split; [done|]. split; [done|].
        intros s. rewrite Hadded. split.
        { intros (n' & md' & Hin & ?). exists n', md'.
          split; [by apply list_elem_of_further | done]. }
        { intros (n' & md' & Hin & Hmd' & Hl & ->). exists n', md'.
          apply elem_of_cons in Hin as [[= -> ->]|Hin]; [|done].
          exfalso. rewrite Hmd' in Htake. simpl in Htake.
          apply negb_false_iff in Htake. unfold skip in Htake.
          destruct dedupe; [|done]. by rewrite Hl in Htake. }
Qed.

(** X17: the priority of the static loader.  With directories that list
    each name once, [list_skills(filter_unavailable=False)] returns every
    workspace skill, and a builtin skill exactly when the workspace has no
    skill of that name; no name is listed twice. *)
Theorem list_skills_workspace_first (self : SkillsLoader) :
  root_dir (workspace_skills self) <> NotDirectory ->
  root_dir (builtin_skills self) <> NotDirectory ->
  NoDup (entries_of (workspace_skills self)).*1 ->
  NoDup (entries_of (builtin_skills self)).*1 ->
  exists skills,
    list_skills self false = Some skills /\
    NoDup (ref_name <$> skills) /\
    (forall s, s ∈ skills <->
       (exists n,
          has_skill (workspace_skills self) n /\
          s = mkRef n (skill_file_path (workspace_skills self) n)
                "workspace") \/
       (exists n,
          has_skill (builtin_skills self) n /\
          ~ has_skill (workspace_skills self) n /\
          s = mkRef n (skill_file_path (builtin_skills self) n) "builtin")).
Proof.
  intros Hw Hb Hndw Hndb. unfold list_skills.
  rewrite (list_loop_entries _ _ _ _ Hw). cbn [mbind option_bind].
  rewrite (list_loop_entries _ _ _ _ Hb). cbn [mbind option_bind].
  destruct (list_loop_spec (workspace_skills self) "workspace" false
              _ [] Hndw) as (ws & -> & Hnd1 & Hws).
  simpl app.
  destruct (list_loop_spec (builtin_skills self) "builtin" true
              _ ws Hndb) as (bs & -> & Hnd2 & Hbs).
  assert (forall n, listed ws n = false <->
                    ~ has_skill (workspace_skills self) n) as Hlisted.
  { intros n. rewrite <- not_true_iff_false, listed_true. apply not_iff_compat.
    rewrite list_elem_of_fmap. split.
    - intros (s & -> & Hin).
      apply Hws in Hin as (n & md & Hin & Hmd & _ & ->). by exists md.
    - intros (md & Hin & Hmd).
      exists (mkRef n (skill_file_path (workspace_skills self) n) "workspace").
      split; [done|]. apply Hws. by exists n, md. }
  eexists. split; [done|]. split.
  - rewrite fmap_app. apply NoDup_app. split; [done|]. split; [|done].
    intros n Hn1 Hn2. apply list_elem_of_fmap in Hn2 as (s & -> & Hin).
    apply Hbs in Hin as (n & md & _ & _ & Hl & ->). simpl in Hn1.
    apply listed_true in Hn1. by rewrite (Hl eq_refl) in Hn1.
  - intros s. rewrite elem_of_app, Hws, Hbs. split.
    + intros [(n & md & Hin & Hmd & _ & ->)|(n & md & Hin & Hmd & Hl & ->)].
      * left. exists n. split; [by exists md | done].
      * right. exists n. split; [by exists md|].
        split; [by apply Hlisted, Hl | done].
    + intros [(n & (md & Hin & Hmd) & ->)|(n & (md & Hin & Hmd) & Hno & ->)].
      * left. by exists n, md.
      * right. exists n, md. repeat split; try done.
        intros _. by apply Hlisted.
Qed.

(** *** [_check_requirements] and [_get_missing_requirements] together *)

Lemma all_found_missing (found : string -> bool) (label : string)
    (names : list value) (ok : bool) (missing : list string) :
  all_found found names = Some ok ->
  missing_of found label names = Some missing ->
  (ok = true <-> missing = []).
Proof.
  revert ok missing. induction names as [|v names IH]; intros ok missing.
  - simpl. by intros [= <-] [= <-].
  - cbn [all_found missing_of]. destruct (as_name v) as [n|]; [|done].
    cbn [mbind option_bind].
    destruct (missing_of found label names) as [others|]; [|done].
    cbn [mbind option_bind]. destruct (found n).
    + intros Hok [= <-]. by apply IH.
    + intros [= <-] [= <-]. split; discriminate.
Qed.

Lemma join_nil_iff (sep : string) (l : list string) :
  Forall (fun s => s <> "") l -> (Str.join sep l = "" <-> l = []).
Proof.
  intros Hl. split; [|by intros ->].
  destruct l as [|s l]; [done|]. intros H. exfalso.
  apply Forall_cons in Hl as [Hs _]. destruct s as [|c s]; [done|].
  by apply (join_starts_nonempty sep c s l).
Qed.

Lemma missing_of_nonempty (found : string -> bool) (c : ascii)
    (label : string) (names : list value) (missing : list string) :
  missing_of found (String c label) names = Some missing ->
  Forall (fun s => s <> "") missing.
Proof.
  revert missing. induction names as [|v names IH]; intros missing.
  - simpl. intros [= <-]. constructor.
  - cbn [missing_of]. destruct (as_name v) as [n|]; [|done].
    cbn [mbind option_bind].
    destruct (missing_of found (String c label) names) as [others|];
      [|done].
    cbn [mbind option_bind]. intros [= <-].
    destruct (found n); [by apply IH|].
    constructor; [by rewrite Str.append_cons | by apply IH].
Qed.

(** X18: the two readings of the requirements agree, whatever the metadata
    holds: when both return, [_check_requirements] is [True] exactly when
    the text of [_get_missing_requirements] is empty. *)
Theorem check_and_missing_agree (skill_meta : value) (ok : bool)
    (missing : string) :
  _check_requirements skill_meta = Some ok ->
  _get_missing_requirements skill_meta = Some missing ->
  (ok = true <-> missing = "").
Proof.
  unfold _check_requirements, _get_missing_requirements.
  destruct (get_or skill_meta "requires" (VDict [])) as [requires|]; [|done].
  cbn [mbind option_bind].
  destruct (names_at requires "bins") as [bins|]; [|done].
  cbn [mbind option_bind].
  destruct (all_found which bins) as [ok_bins|] eqn:Hbins; [|done].
  destruct (missing_of which "CLI: " bins) as [mb|] eqn:Hmb; [|done].
  cbn [mbind option_bind].
  destruct (names_at requires "env") as [envs|]; [|done].
  cbn [mbind option_bind].
  destruct (missing_of env_set "ENV: " envs) as [me|] eqn:Hme; [|done].
  cbn [mbind option_bind].
  pose proof (all_found_missing _ _ _ _ _ Hbins Hmb) as Hb.
  assert (Forall (fun s => s <> "") (mb ++ me)) as Hne.
  { apply Forall_app. split; eapply missing_of_nonempty; eassumption. }
  destruct ok_bins.
  - intros Hok [= <-]. rewrite (join_nil_iff _ _ Hne).
    destruct Hb as [Hb _]. rewrite (Hb eq_refl). simpl.
    by eapply all_found_missing.
  - intros [= <-] [= <-]. rewrite (join_nil_iff _ _ Hne).
    split; [discriminate|]. intros [Hmb' _]%app_eq_nil.
    by apply Hb.
Qed.

(** *** [get_always_skills] *)

(** [bool(meta.get("always"))] for the frontmatter [meta]. *)
Definition frontmatter_always (meta : dict string) : bool :=
  match dict_get "always" meta with
  | Some v => negb (String.eqb v "")
  | None => false
  end.

(** The test in the loop of [get_always_skills]; [None] when reading the
    skill raises or [skill_meta] has no [get]. *)
Definition marked_always (self : SkillsLoader) (n : string) : option bool :=
  meta ← get_skill_metadata self n;
  let meta := default [] meta in
  let skill_meta :=
    _parse_sarathy_metadata (default "" (dict_get "metadata" meta)) in
  flag ← get_or skill_meta "always" VNone;
  Some (truthy flag || frontmatter_always meta).

Fixpoint always_loop (self : SkillsLoader) (skills : list skill_ref)
  : option (list string) :=
  match skills return option (list string) with
  | [] => Some []
  | s :: rest =>
      marked ← marked_always self (ref_name s);
      names ← always_loop self rest;
      Some (if (marked : bool) then ref_name s :: names else names)
  end.

(** [SkillsLoader.get_always_skills] *)
Definition get_always_skills (self : SkillsLoader) : option (list string) :=
  skills ← list_skills self true;
  always_loop self skills.

(** A skill that passed the filter of [list_skills] has metadata that can
    be asked for [always]. *)
Lemma keep_available_inv (self : SkillsLoader) (all kept : list skill_ref) :
  keep_available self all = Some kept ->
  Forall (fun s => exists d, _get_skill_meta self (ref_name s) = Some (VDict d))
         kept.
Proof.
  revert kept. induction all as [|s all IH]; intros kept.
  - simpl. intros [= <-]. constructor.
  - cbn [keep_available].
    destruct (_get_skill_meta self (ref_name s)) as [m|] eqn:Hm; [|done].
    cbn [mbind option_bind].
    destruct (_check_requirements m) as [ok|] eqn:Hok; [|done].
    cbn [mbind option_bind].
    destruct (keep_available self all) as [kept'|]; [|done].
    cbn [mbind option_bind]. intros [= <-].
    destruct ok; [|by apply IH].
    constructor; [|by apply IH].
    unfold _check_requirements, get_or in Hok.
    destruct m; try done. eauto.
Qed.

Lemma marked_always_dict (self : SkillsLoader) (n : string)
    (d : dict value) :
  _get_skill_meta self n = Some (VDict d) ->
  exists meta,
    get_skill_metadata self n = Some meta /\
    marked_always self n =
      Some (truthy (default VNone (dict_get "always" d))
            || frontmatter_always (default [] meta)).
Proof.
  unfold _get_skill_meta, marked_always.
  destruct (get_skill_metadata self n) as [meta|]; [|done].
  cbn [mbind option_bind]. intros [= ->]. by exists meta.
Qed.

(** X22: [get_always_skills] returns whenever [list_skills] does, and it
    names the listed skills that carry the mark, no others: the mark is a
    true value under [always] in the metadata JSON, or any text that is not
    empty after [always:] in the frontmatter. *)
Theorem always_skills_are_listed (self : SkillsLoader)
    (skills : list skill_ref) :
  list_skills self true = Some skills ->
  exists names,
    get_always_skills self = Some names /\
    forall n, n ∈ names <->
      exists s meta d,
        s ∈ skills /\ ref_name s = n /\
        get_skill_metadata self n = Some meta /\
        _get_skill_meta self n = Some (VDict d) /\
        (truthy (default VNone (dict_get "always" d)) = true \/
         exists v, dict_get "always" (default [] meta) = Some v /\ v <> "").
Proof.
  intros Hlist. unfold get_always_skills. rewrite Hlist.
  cbn [mbind option_bind].
  assert (Forall (fun s => exists d,
                    _get_skill_meta self (ref_name s) = Some (VDict d))
                 skills) as Hmeta.
  { unfold list_skills in Hlist.
    destruct (list_loop (workspace_skills self) _ _ _) as [ws|]; [|done].
    cbn [mbind option_bind] in Hlist.
    destruct (list_loop (builtin_skills self) _ _ _) as [all|]; [|done].
    cbn [mbind option_bind] in Hlist. by eapply keep_available_inv. }
  clear Hlist. induction Hmeta as [|s skills [d Hd] _ (names & Hnames & IH)].
  - exists []. split; [done|]. intros n. split; [by intros ?%elem_of_nil|].
    by intros (s & _ & _ & ?%elem_of_nil & _).
  - destruct (marked_always_dict _ _ _ Hd) as (meta & Hfm & Hmarked).
    cbn [always_loop]. rewrite Hmarked, Hnames. cbn [mbind option_bind].
    eexists. split; [done|]. intros n.
    assert (truthy (default VNone (dict_get "always" d))
            || frontmatter_always (default [] meta) = true <->
            (truthy (default VNone (dict_get "always" d)) = true \/
             exists v, dict_get "always" (default [] meta) = Some v /\
                       v <> "")) as Hmark.
    { rewrite orb_true_iff. apply or_iff_compat_l.
      unfold frontmatter_always.
      destruct (dict_get "always" (default [] meta)) as [v|].
      - rewrite negb_true_iff, String.eqb_neq. split.
        + intros Hv. by exists v.
        + by intros (v' & [= <-] & Hv).
      - split; [done | by intros (v & ? & _)]. }
    assert (n ∈ names \/
            (n = ref_name s /\
             truthy (default VNone (dict_get "always" d))
             || frontmatter_always (default [] meta) = true) <->
            exists s' meta' d',
              s' ∈ s :: skills /\ ref_name s' = n /\
              get_skill_metadata self n = Some meta' /\
              _get_skill_meta self n = Some (VDict d') /\
              (truthy (default VNone (dict_get "always" d')) = true \/
               exists v, dict_get "always" (default [] meta') = Some v /\
                         v <> "")) as Hiff.
    { rewrite IH. split.
      - intros [(s' & meta' & d' & Hin & Hrest)|[-> Hm]].
        + exists s', meta', d'. split; [by apply list_elem_of_further | done].
        + exists s, meta, d.
          split; [apply list_elem_of_here|]. by rewrite <- Hmark.
      - intros (s' & meta' & d' & Hin & Hn & Hfm' & Hd' & Hm).
        apply elem_of_cons in Hin as [->|Hin].
        + right. split; [done|]. subst n.
          rewrite Hfm in Hfm'. rewrite Hd in Hd'.
          injection Hfm' as <-. injection Hd' as <-. by apply Hmark.
        + left. by exists s', meta', d'. }
    rewrite <- Hiff.
    destruct (truthy _ || frontmatter_always _).
    + rewrite elem_of_cons. split.
      * intros [->|Hin]; [by right | by left].
      * intros [Hin|[-> _]]; [by right | by left].
    + split; [by left | by intros [?|[_ ?]]].
Qed.

(** *** The file watcher *)

(** A change the watcher reports for a [SKILL.md]: the kind of change, the
    path, the name of the directory that holds the file
    ([Path(path).parent.name]), whether the workspace skills directory is
    among the parents of the path, and what is at the path when the change
    is handled. *)
Record change : Type := mkChange {
  change_type : string;
  change_path : string;
  change_skill_name : string;
  change_in_workspace : bool;
  change_md : skill_md
}.

(** [SkillManager._handle_file_change], on [_skills]. *)
Definition _handle_file_change (skills : gmap string SkillInfo) (c : change)
  : gmap string SkillInfo :=
  let n := change_skill_name c in
  if String.eqb (change_type c) "deleted" then delete n skills
  else
    match change_md c with
    | Content text =>
        match _parse_commands text n with
        | Some cmds =>
            <[n := mkSkill n (change_path c)
                     (if change_in_workspace c then "workspace"
                      else "global")
                     text cmds]> skills
        | None => skills
        end
    | _ => skills
    end.

(** [SkillManager.get_skill] *)
Definition get_skill (skills : gmap string SkillInfo) (n : string)
  : option SkillInfo :=
  skills !! n.

(** An entry of [_skills] that is in order: it is filed under its own
    name, its commands are those its content declares, each of them names
    the skill, and the source is one of the three. *)
Definition skill_ok (n : string) (info : SkillInfo) : Prop :=
  name info = n /\
  _parse_commands (content info) n = Some (commands info) /\
  Forall (fun c => cmd_skill_name c = n) (commands info) /\
  source info ∈ ["global"; "workspace"; "builtin"].

Lemma parse_commands_skill_name (text n : string)
    (cmds : list SkillCommand) :
  _parse_commands text n = Some cmds ->
  Forall (fun c => cmd_skill_name c = n) cmds.
Proof.
  unfold _parse_commands.
  destruct (negb (Str.startswith "---" text)); [by intros [= <-]|].
  cbv zeta. destruct (get_or _ "commands" _) as [data|]; [|done].
  cbn [mbind option_bind].
  destruct (negb (truthy data)); [by intros [= <-]|].
  destruct (iterate data) as [l|]; [|done]. intros [= <-].
  induction l as [|v l IH]; [constructor|].
  cbn [omap list_omap]. destruct (command_of n v) as [c|] eqn:Hc; [|done].
  constructor; [|done].
  destruct v; try done. simpl in Hc. by injection Hc as <-.
Qed.

Lemma scan_entries_ok (r : root) (src : string)
    (entries : list (string * entry)) (skills : gmap string SkillInfo) :
  src ∈ ["global"; "workspace"; "builtin"] ->
  map_Forall skill_ok skills ->
  map_Forall skill_ok (scan_entries r src entries skills).
Proof.
  intros Hsrc. revert skills.
  induction entries as [|e entries IH]; intros skills Hok; [done|].
  unfold scan_entries in *. cbn [foldl].
  destruct (scan_entry r src e) as [info|] eqn:He; [|by apply IH].
  apply IH. apply map_Forall_insert_2; [|done].
  destruct e as [n [|[| |text]]]; simpl in He; try done.
  destruct (_parse_commands text n) as [cmds|] eqn:Hp; [|done].
  simpl in He. injection He as <-. simpl.
  repeat split; [done | by eapply parse_commands_skill_name | done].
Qed.

Lemma _load_skills_from_dir_ok (r : root) (src : string)
    (skills skills' : gmap string SkillInfo) :
  src ∈ ["global"; "workspace"; "builtin"] ->
  map_Forall skill_ok skills ->
  _load_skills_from_dir r src skills = Some skills' ->
  map_Forall skill_ok skills'.
Proof.
  intros Hsrc Hok. unfold _load_skills_from_dir.
  destruct (root_dir r); [by intros [= <-] | done |].
  intros [= <-]. by apply scan_entries_ok.
Qed.

Lemma _handle_file_change_ok (skills : gmap string SkillInfo) (c : change) :
  map_Forall skill_ok skills ->
  map_Forall skill_ok (_handle_file_change skills c).
Proof.
  intros Hok. unfold _handle_file_change. cbv zeta.
  destruct (String.eqb (change_type c) "deleted");
    [by apply map_Forall_delete|].
  destruct (change_md c) as [| |text]; [done..|].
  destruct (_parse_commands text (change_skill_name c)) as [cmds|] eqn:Hp;
    [|done].
  apply map_Forall_insert_2; [|done].
  repeat split; simpl; [done | by eapply parse_commands_skill_name |].
  destruct (change_in_workspace c);
    [apply list_elem_of_further|]; apply list_elem_of_here.
Qed.

(** X20: the registry stays in order.  After the initial load and any
    number of changes handled by the watcher, whatever [get_skill] returns
    for a name carries that name, the commands that its content declares,
    each attributed to the skill, and one of the three sources. *)
Theorem registry_stays_consistent (self : SkillManager)
    (skills : gmap string SkillInfo) (changes : list change) (n : string)
    (info : SkillInfo) :
  _load_all_skills self = Some skills ->
  get_skill (foldl _handle_file_change skills changes) n = Some info ->
  name info = n /\
  _parse_commands (content info) n = Some (commands info) /\
  Forall (fun c => cmd_skill_name c = n) (commands info) /\
  source info ∈ ["global"; "workspace"; "builtin"].
Proof.
  intros Hload Hget.
  assert (map_Forall skill_ok skills) as Hok.
  { unfold _load_all_skills in Hload.
    destruct (_load_skills_from_dir (sm_global_skills self) _ ∅)
      as [s1|] eqn:H1; [|done].
    cbn [mbind option_bind] in Hload.
    destruct (_load_skills_from_dir (sm_workspace_skills self) _ s1)
      as [s2|] eqn:H2; [|done].
    cbn [mbind option_bind] in Hload.
    eapply _load_skills_from_dir_ok; [| |exact Hload];
      [do 2 apply list_elem_of_further; apply list_elem_of_here|].
    eapply _load_skills_from_dir_ok; [| |exact H2];
      [apply list_elem_of_further, list_elem_of_here|].
    eapply _load_skills_from_dir_ok; [| |exact H1];
      [apply list_elem_of_here|].
    apply map_Forall_empty. }
  assert (map_Forall skill_ok (foldl _handle_file_change skills changes))
    as Hall.
  { clear Hget Hload. revert skills Hok.
    induction changes as [|c changes IH]; intros skills Hok; [done|].
    cbn [foldl]. by apply IH, _handle_file_change_ok. }
  exact (Hall n info Hget).
Qed.

(** X21: a reload and a restart disagree on a skill that the builtin
    directory has too.  The watcher files the changed skill under
    [workspace] or [global], with the text it read; a [SkillManager]
    started afterwards on the same directories has the builtin skill under
    that name, as the builtin scan comes last. *)
Theorem reload_differs_from_restart (self : SkillManager)
    (skills : gmap string SkillInfo) (c : change)
    (entries : list (string * entry)) (text builtin_text : string)
    (cmds builtin_cmds : list SkillCommand) :
  let n := change_skill_name c in
  root_dir (sm_global_skills self) <> NotDirectory ->
  root_dir (sm_workspace_skills self) <> NotDirectory ->
  root_dir (sm_builtin_skills self) = Entries entries ->
  NoDup entries.*1 ->
  (n, Dir (Content builtin_text)) ∈ entries ->
  _parse_commands builtin_text n = Some builtin_cmds ->
  change_type c <> "deleted" ->
  change_md c = Content text ->
  _parse_commands text n = Some cmds ->
  get_skill (_handle_file_change skills c) n =
    Some (mkSkill n (change_path c)
            (if change_in_workspace c then "workspace" else "global")
            text cmds) /\
  exists restarted,
    _load_all_skills self = Some restarted /\
    get_skill restarted n =
      Some (mkSkill n (skill_file_path (sm_builtin_skills self) n)
              "builtin" builtin_text builtin_cmds).
Proof.
  intros n Hg Hw Hb Hnd Hin Hpb Htype Hmd Hp. split.
  - unfold get_skill, _handle_file_change. cbv zeta. fold n.
    apply String.eqb_neq in Htype. rewrite Htype, Hmd, Hp.
    apply lookup_insert_eq.
  - assert (root_dir (sm_builtin_skills self) <> NotDirectory) as Hb'
      by (by rewrite Hb).
    eexists. split.
    + unfold _load_all_skills.
      rewrite (_load_skills_from_dir_union _ _ _ Hg).
      cbn [mbind option_bind].
      rewrite (_load_skills_from_dir_union _ _ _ Hw).
      cbn [mbind option_bind].
      by rewrite (_load_skills_from_dir_union _ _ _ Hb').
    + unfold get_skill. apply lookup_union_Some_l.
      by eapply scanned_present.
Qed.

(** *** Requirement gating *)







End Skills.
End SkillsModel.

(** ** Slash commands (sarathy/core/commands.py)

    [CommandManager] keeps the commands of the skills in a [dict] by name
    and is filled from [SkillManager.get_commands].  A command name is
    whatever the YAML frontmatter holds, so the keys of the [dict] are
    values. *)

Module CommandsModel.
Import Py SkillsModel.

(** *** The queries of [SkillManager] on its commands

    [values] is [self._skills.values()], in the order of the [dict]. *)

(** [SkillManager.get_commands] *)
Definition get_commands (values : list SkillInfo) : list SkillCommand :=
  foldl (fun cmds skill => cmds ++ commands skill) [] values.

(** The inner loop of [SkillManager.get_command]. *)
Fixpoint find_command (cmds : list SkillCommand) (n : string)
  : option SkillCommand :=
  match cmds with
  | [] => None
  | cmd :: rest =>
      if eq_str (cmd_name cmd) n then Some cmd else find_command rest n
  end.

(** [SkillManager.get_command] *)
Fixpoint skill_manager_get_command (values : list SkillInfo) (n : string)
  : option SkillCommand :=
  match values with
  | [] => None
  | skill :: rest =>
      match find_command (commands skill) n with
      | Some cmd => Some cmd
      | None => skill_manager_get_command rest n
      end
  end.

(** *** A [dict] with values as keys *)

(** [hash(v)] raises for a list and for a dict. *)
Definition hashable (v : value) : bool :=
  match v with
  | VList _ | VDict _ => false
  | _ => true
  end.

Definition as_int (v : value) : option Z :=
  match v with
  | VBool b => Some (Z.b2z b)
  | VInt z => Some z
  | _ => None
  end.

(** [a == b] for two keys: a [bool] is the [int] 0 or 1. *)
Definition key_eqb (a b : value) : bool :=
  match a, b with
  | VNone, VNone => true
  | VStr s, VStr t => String.eqb s t
  | _, _ =>
      match as_int a, as_int b with
      | Some x, Some y => Z.eqb x y
      | _, _ => false
      end
  end.

(** [d.get(k)] for a key that can be hashed. *)
Fixpoint vdict_get {A} (k : value) (d : list (value * A)) : option A :=
  match d with
  | [] => None
  | (k', v) :: d' => if key_eqb k k' then Some v else vdict_get k d'
  end.

(** [d[k] = v]: an equal key keeps its place and stays the key. *)
Fixpoint vdict_set {A} (k : value) (v : A) (d : list (value * A))
  : list (value * A) :=
  match d with
  | [] => [(k, v)]
  | (k', v') :: d' =>
      if key_eqb k k' then (k', v) :: d' else (k', v') :: vdict_set k v d'
  end.

(** [del d[k]] *)
Fixpoint vdict_del {A} (k : value) (d : list (value * A))
  : list (value * A) :=
  match d with
  | [] => []
  | (k', v') :: d' =>
      if key_eqb k k' then d' else (k', v') :: vdict_del k d'
  end.

(** *** [CommandManager] *)

Section Commands.

(** The type of the handlers. *)
Variable handler : Type.

(** [CommandInfo] *)
Record CommandInfo : Type := mkInfo {
  info_name : value;
  info_description : value;
  info_skill_name : string;
  info_help_text : value;
  info_handler : option handler
}.

(** [self._commands] *)
Definition registry : Type := list (value * CommandInfo).

(** [CommandManager.register_command]; [None] when the name cannot be
    hashed. *)
Definition register_command (self : registry) (n description : value)
    (skill_name : string) (help_text : value) (h : option handler)
  : option registry :=
  if hashable n
  then Some (vdict_set n (mkInfo n description skill_name help_text h) self)
  else None.

(** [CommandManager.unregister_command] *)
Definition unregister_command (self : registry) (n : string) : registry :=
  match vdict_get (VStr n) self with
  | Some _ => vdict_del (VStr n) self
  | None => self
  end.

(** [CommandManager.get_command] *)
Definition get_command (self : registry) (n : string) : option CommandInfo :=
  vdict_get (VStr n) self.

(** [CommandManager.has_command] *)
Definition has_command (self : registry) (n : string) : bool :=
  match vdict_get (VStr n) self with Some _ => true | None => false end.

(** [CommandManager.get_command_help] *)
Definition get_command_help (self : registry) (n : string) : option value :=
  info_help_text <$> vdict_get (VStr n) self.

(** The loop of [sync_from_skill_manager]. *)
Fixpoint register_all (cmds : list SkillCommand) (self : registry)
  : option registry :=
  match cmds with
  | [] => Some self
  | cmd :: rest =>
      self ← register_command self (cmd_name cmd) (cmd_description cmd)
                (cmd_skill_name cmd) (cmd_help_text cmd) None;
      register_all rest self
  end.

(** [CommandManager.sync_from_skill_manager]: the registry is cleared and
    filled again; [None] when a [register_command] raises. *)
Definition sync_from_skill_manager (self : registry)
    (values : list SkillInfo) : option registry :=
  register_all (get_commands values) [].

(** The [CommandInfo] the sync makes of a command. *)
Definition info_of (cmd : SkillCommand) : CommandInfo :=
  mkInfo (cmd_name cmd) (cmd_description cmd) (cmd_skill_name cmd)
         (cmd_help_text cmd) None.

Lemma key_eqb_str (n : string) (k : value) :
  key_eqb (VStr n) k = eq_str k n.
Proof.
  destruct k as [| | |s| |]; try done. simpl. apply String.eqb_sym.
Qed.

Lemma key_eqb_str_r (n : string) (k k' : value) :
  key_eqb k k' = true -> eq_str k n = eq_str k' n.
Proof.
  destruct k as [| | |s| |], k' as [| | |s'| |]; try done.
  simpl. by intros ->%String.eqb_eq.
Qed.

Lemma vdict_get_set {A} (n : string) (k : value) (v : A)
    (d : list (value * A)) :
  vdict_get (VStr n) (vdict_set k v d) =
    if eq_str k n then Some v else vdict_get (VStr n) d.
Proof.
  induction d as [|[k' v'] d IH].
  - cbn [vdict_set vdict_get]. by rewrite key_eqb_str.
  - cbn [vdict_set vdict_get].
    destruct (key_eqb k k') eqn:Hk; cbn [vdict_get].
    + rewrite key_eqb_str, <- (key_eqb_str_r n _ _ Hk).
      by destruct (eq_str k n).
    + rewrite IH, key_eqb_str.
      destruct (eq_str k' n) eqn:Hk'; [|done].
      destruct (eq_str k n) eqn:Hkn; [|done].
      destruct k as [| | |s| |], k' as [| | |s'| |]; try done.
      simpl in *. apply String.eqb_eq in Hk', Hkn. subst.
      by rewrite String.eqb_refl in Hk.
Qed.

Lemma find_command_head (cmds : list SkillCommand) (n : string) :
  find_command cmds n =
    head (List.filter (fun c => eq_str (cmd_name c) n) cmds).
Proof.
  induction cmds as [|c cmds IH]; [done|].
  cbn [find_command List.filter]. by destruct (eq_str (cmd_name c) n).
Qed.

Lemma get_commands_foldl (acc : list SkillCommand)
    (values : list SkillInfo) :
  foldl (fun cmds skill => cmds ++ commands skill) acc values =
    acc ++ get_commands values.
Proof.
  unfold get_commands. revert acc.
  induction values as [|s values IH]; intros acc.
  - simpl. by rewrite app_nil_r.
  - cbn [foldl]. rewrite (IH (acc ++ commands s)), (IH ([] ++ commands s)).
    by rewrite app_nil_l, app_assoc.
Qed.

Lemma get_commands_cons (skill : SkillInfo) (values : list SkillInfo) :
  get_commands (skill :: values) = commands skill ++ get_commands values.
Proof.
  unfold get_commands at 1. cbn [foldl]. by rewrite get_commands_foldl.
Qed.

Lemma filter_head_app {A} (p : A -> bool) (l1 l2 : list A) :
  head (List.filter p (l1 ++ l2)) =
    match head (List.filter p l1) with
    | Some x => Some x
    | None => head (List.filter p l2)
    end.
Proof.
  induction l1 as [|x l1 IH]; [done|].
  cbn [app List.filter]. by destruct (p x).
Qed.

Lemma skill_manager_get_command_head (values : list SkillInfo)
    (n : string) :
  skill_manager_get_command values n =
    head (List.filter (fun c => eq_str (cmd_name c) n)
            (get_commands values)).
Proof.
  induction values as [|s values IH]; [done|].
  cbn [skill_manager_get_command].
  rewrite get_commands_cons, filter_head_app, <- find_command_head, IH.
  done.
Qed.

Lemma register_all_get (cmds : list SkillCommand) (self : registry)
    (n : string) :
  Forall (fun c => hashable (cmd_name c) = true) cmds ->
  exists self',
    register_all cmds self = Some self' /\
    get_command self' n =
      match last (List.filter (fun c => eq_str (cmd_name c) n) cmds) with
      | Some c => Some (info_of c)
      | None => get_command self n
      end.
Proof.
  intros Hall. revert self.
  induction Hall as [|c cmds Hc _ IH]; intros self.
  - exists self. by split.
  - cbn [register_all]. unfold register_command. rewrite Hc.
    cbn [mbind option_bind].
    destruct (IH (vdict_set (cmd_name c) (info_of c) self))
      as (self' & Hreg & Hget).
    exists self'. split; [exact Hreg|]. rewrite Hget.
    cbn [List.filter]. unfold get_command at 1. rewrite vdict_get_set.
    destruct (eq_str (cmd_name c) n); [|done].
    rewrite last_cons. by destruct (last _).
Qed.

Lemma register_all_unique (cmds : list SkillCommand) (self : registry) :
  Forall (fun c => hashable (cmd_name c) = true) cmds ->
  is_Some (register_all cmds self).
Proof.
  intros Hall. destruct (register_all_get cmds self "" Hall) as (r & -> & _).
  done.
Qed.

(** X23: the two registries disagree on a command name that two skills
    define.  When every command name can be hashed,
    [sync_from_skill_manager] returns, forgets what was registered before,
    and knows the same names as the [SkillManager]; but for a name it
    hands out the last command that [get_commands] lists under it, and
    [SkillManager.get_command] the first. *)
Theorem sync_keeps_last_definition (old : registry)
    (values : list SkillInfo) :
  Forall (fun c => hashable (cmd_name c) = true) (get_commands values) ->
  exists self,
    sync_from_skill_manager old values = Some self /\
    forall n,
      let defined :=
        List.filter (fun c => eq_str (cmd_name c) n) (get_commands values) in
      skill_manager_get_command values n = head defined /\
      get_command self n = info_of <$> last defined /\
      (has_command self n = true <->
       is_Some (skill_manager_get_command values n)).
Proof.
  intros Hall. unfold sync_from_skill_manager.
  destruct (register_all_unique _ [] Hall) as [self Hself].
  exists self. split; [exact Hself|]. intros n.
  set (defined := List.filter _ _).
  destruct (register_all_get _ [] n Hall) as (self' & Hreg & Hget).
  rewrite Hself in Hreg. injection Hreg as <-.
  assert (get_command self n = info_of <$> last defined) as Hlast.
  { rewrite Hget. fold defined. by destruct (last defined). }
  split; [apply skill_manager_get_command_head|]. split; [exact Hlast|].
  rewrite skill_manager_get_command_head. fold defined.
  unfold has_command. fold (get_command self n). rewrite Hlast.
  destruct defined as [|c l]; [by split; [|intros [? ?]]|].
  rewrite last_cons. simpl. destruct (last l); by split.
Qed.

End Commands.

End CommandsModel.

(** ** A reader for flat YAML documents

    [yaml.safe_load] is a parameter of the model.  The examples instantiate
    it with this reader, which knows the documents they use: the empty
    document, a mapping with one plain scalar for each key, and a single
    plain scalar. *)

Module Yaml.
Import Py.

Definition scalar (s : string) : value :=
  if String.eqb s "" || String.eqb s "null" || String.eqb s "~" then VNone
  else if String.eqb s "true" then VBool true
  else if String.eqb s "false" then VBool false
  else match NilZero.int_of_string s with
       | Some z => VInt (Z.of_int z)
       | None => VStr s
       end.

(** A line [key: value] or [key:]. *)
Definition key_value (line : string) : option (string * value) :=
  match Str.split_once ":" line with
  | Some (k, v) =>
      if negb (String.eqb (Str.strip k) "") &&
         (String.eqb v "" || Str.startswith " " v)
      then Some (Str.strip k, scalar (Str.strip v))
      else None
  | None => None
  end.

Definition safe_load (doc : string) : option value :=
  let lines :=
    List.filter (fun l => negb (String.eqb (Str.strip l) ""))
                (Str.split_by (Str.is_char Str.LF) doc) in
  match lines with
  | [] => Some VNone
  | _ =>
      match mapM key_value lines with
      | Some kvs =>
          Some (VDict (foldl (fun d kv => dict_set kv.1 kv.2 d) [] kvs))
      | None => Some (VStr (Str.strip doc))
      end
  end.

End Yaml.

(** ** The skills on concrete directories *)

Module SkillsExamples.
Import Py SkillsModel.

(** The search path holds [git] and [sh]; [HOME] is the one variable set. *)
Definition which (b : string) : bool :=
  String.eqb b "git" || String.eqb b "sh".

Definition environ (e : string) : option string :=
  if String.eqb e "HOME" then Some "/root" else None.

(** *** The location in the manifest (C3) *)

Definition loader_ampersand : SkillsLoader :=
  mkLoader (mkRoot "ws/skills" (Entries [("a&b", Dir (Content "# notes"))]))
           (mkRoot "pkg/skills" Missing).

(** C3: the manifest of a workspace with one skill, in the directory
    [a&b].  The name and the description are escaped; the location, which
    holds the same name, is written as it is, with its ampersand: the
    specification has it escaped as well. *)
Theorem manifest_location_is_not_escaped :
  build_skills_summary Json.loads which environ loader_ampersand =
    Some (Str.join NL
            ["<skills>";
             "  <skill available=" +:+ String DQ "true" +:+ String DQ ">";
             "    <name>a&amp;b</name>";
             "    <description>a&amp;b</description>";
             "    <location>ws/skills/a&b/SKILL.md</location>";
             "  </skill>";
             "</skills>"]).
Proof. vm_compute. reflexivity. Qed.

(** *** A frontmatter that is a plain scalar (C9) *)

Definition note_skill : string :=
  Str.join NL ["---"; "just a note"; "---"; "# Notes"].

Lemma parse_commands_raises_on_scalar_witness :
  Str.startswith "---" note_skill = true /\
  Yaml.safe_load (frontmatter_of note_skill) = Some (VStr "just a note") /\
  _parse_commands Yaml.safe_load note_skill "notes" = None /\
  _load_skills_from_dir Yaml.safe_load
    (mkRoot "ws/skills" (Entries [("notes", Dir (Content note_skill))]))
    "workspace" ∅ = Some ∅.
Proof.
  assert (Str.startswith "---" note_skill = true) as H1 by reflexivity.
  assert (Yaml.safe_load (frontmatter_of note_skill) =
            Some (VStr "just a note")) as H2 by (vm_compute; reflexivity).
  destruct (parse_commands_raises_on_scalar Yaml.safe_load note_skill "notes"
              "just a note"
              (mkRoot "ws/skills"
                 (Entries [("notes", Dir (Content note_skill))]))
              "workspace" ∅ H1 H2 ltac:(discriminate)) as (Hp & _ & Hs).
  split; [exact H1|]. split; [exact H2|]. split; [exact Hp|].
  unfold _load_skills_from_dir. cbn [root_dir]. by rewrite Hs.
Defined.

(** *** Three directories with the same names (C2) *)

Definition manager_three : SkillManager :=
  mkSkillManager
    (mkRoot "home/.sarathy/skills"
       (Entries [("git", Dir (Content "global git"));
                 ("notes", Dir (Content "global notes"))]))
    (mkRoot "ws/skills"
       (Entries [("git", Dir (Content "workspace git"));
                 ("notes", Dir (Content "workspace notes"))]))
    (mkRoot "pkg/skills"
       (Entries [("git", Dir (Content "builtin git"))])).

(** The names of a listing are distinct. *)
Ltac names_differ := apply (bool_decide_unpack _); vm_compute; exact I.

Lemma initial_load_last_scan_wins_witness :
  exists skills,
    _load_all_skills Yaml.safe_load manager_three = Some skills /\
    skills !! "git" =
      Some (mkSkill "git" "pkg/skills/git/SKILL.md" "builtin" "builtin git"
              []) /\
    skills !! "notes" =
      Some (mkSkill "notes" "ws/skills/notes/SKILL.md" "workspace"
              "workspace notes" []).
Proof.
  destruct (initial_load_last_scan_wins Yaml.safe_load manager_three "git")
    as (skills & Hload & Hgit & _);
    [discriminate.. | names_differ | names_differ | names_differ |].
  destruct (initial_load_last_scan_wins Yaml.safe_load manager_three "notes")
    as (skills' & Hload' & _ & Hnotes & _);
    [discriminate.. | names_differ | names_differ | names_differ |].
  rewrite Hload in Hload'. injection Hload' as <-.
  exists skills. split; [exact Hload|]. split.
  - apply Hgit. split; [apply list_elem_of_here | vm_compute; reflexivity].
  - apply Hnotes.
    + intros text [=]%list_elem_of_singleton.
    + split; [apply list_elem_of_further, list_elem_of_here|].
      vm_compute. reflexivity.
Defined.

(** A builtin directory with two skills that cannot be loaded: the
    frontmatter of [notes] is a plain scalar, on which [_parse_commands]
    raises, and the [SKILL.md] of [git] cannot be read. *)
Definition manager_unloadable : SkillManager :=
  mkSkillManager
    (mkRoot "home/.sarathy/skills" Missing)
    (mkRoot "ws/skills"
       (Entries [("git", Dir (Content "workspace git"));
                 ("notes", Dir (Content "workspace notes"))]))
    (mkRoot "pkg/skills"
       (Entries [("git", Dir Unreadable);
                 ("notes", Dir (Content note_skill))])).

(** C2 as stated fails on these directories: [git] and [notes] have a
    [SKILL.md] in the workspace and in the builtin directory, which is
    scanned last, and yet the map holds the workspace skill for both: the
    builtin scan wrote over neither entry. *)
Lemma later_scan_keeps_earlier_entry :
  has_skill (sm_workspace_skills manager_unloadable) "git" /\
  has_skill (sm_builtin_skills manager_unloadable) "git" /\
  has_skill (sm_workspace_skills manager_unloadable) "notes" /\
  has_skill (sm_builtin_skills manager_unloadable) "notes" /\
  exists skills,
    _load_all_skills Yaml.safe_load manager_unloadable = Some skills /\
    skills !! "git" =
      Some (mkSkill "git" "ws/skills/git/SKILL.md" "workspace"
              "workspace git" []) /\
    skills !! "notes" =
      Some (mkSkill "notes" "ws/skills/notes/SKILL.md" "workspace"
              "workspace notes" []).
Proof.
  split; [eexists; split; [apply list_elem_of_here | done]|].
  split; [eexists; split; [apply list_elem_of_here | done]|].
  split; [eexists; split;
          [apply list_elem_of_further, list_elem_of_here | done]|].
  split; [eexists; split;
          [apply list_elem_of_further, list_elem_of_here | done]|].
  eexists. split; [vm_compute; reflexivity|].
  split; vm_compute; reflexivity.
Qed.

(** *** A skill with a missing executable (C8) *)

Definition deploy_skill : string :=
  Str.join NL
    ["---";
     "description: Deploy <fast> & safe";
     "metadata: " +:+
       Json.dumps
         (VDict [("sarathy",
                  VDict [("requires",
                          VDict [("bins", VList [VStr "git";
                                                 VStr "nosuchbin"]);
                                 ("env", VList [VStr "HOME";
                                                VStr "DEPLOY_TOKEN"])])])]);
     "---";
     "# Deploy"].

Definition loader_gated : SkillsLoader :=
  mkLoader
    (mkRoot "ws/skills" (Entries [("deploy", Dir (Content deploy_skill))]))
    (mkRoot "pkg/skills"
       (Entries [("git", Dir (Content "# Git"));
                 ("deploy", Dir (Content "# shadowed"))])).

Definition deploy_ref : skill_ref :=
  mkRef "deploy" "ws/skills/deploy/SKILL.md" "workspace".

Definition git_ref : skill_ref :=
  mkRef "git" "pkg/skills/git/SKILL.md" "builtin".

(** What the frontmatter of [deploy_skill] holds under [sarathy]. *)
Definition deploy_meta : value :=
  VDict [("requires",
          VDict [("bins", VList [VStr "git"; VStr "nosuchbin"]);
                 ("env", VList [VStr "HOME"; VStr "DEPLOY_TOKEN"])])].


(** *** A sibling whose requirements cannot be checked (C8) *)




(** *** Escaping *)

Lemma escape_xml_injective_witness :
  escape_xml "a<b" = "a&lt;b" /\ "a<b" = "a<b".
Proof.
  split; [reflexivity|].
  apply (escape_xml_injective "a<b" "a<b"). reflexivity.
Defined.

(** *** A workspace skill that shadows a builtin one *)

Lemma list_skills_workspace_first_witness :
  exists skills,
    list_skills Json.loads which environ loader_gated false = Some skills /\
    NoDup (ref_name <$> skills) /\
    deploy_ref ∈ skills /\ git_ref ∈ skills /\
    mkRef "deploy" "pkg/skills/deploy/SKILL.md" "builtin" ∉ skills.
Proof.
  destruct (list_skills_workspace_first Json.loads which environ
              loader_gated) as (skills & Hlist & Hnd & Hin).
  - discriminate.
  - discriminate.
  - apply NoDup_singleton.
  - simpl. apply NoDup_cons. split; [|apply NoDup_singleton].
    intros [=]%list_elem_of_singleton.
  - assert (has_skill (workspace_skills loader_gated) "deploy") as Hdeploy.
    { exists (Content deploy_skill). split; [apply list_elem_of_here | done]. }
    exists skills. split; [exact Hlist|]. split; [exact Hnd|].
    split; [|split].
    + apply Hin. left. by exists "deploy".
    + apply Hin. right. exists "git". split; [|split; [|done]].
      * exists (Content "# Git"). split; [apply list_elem_of_here | done].
      * intros (md & Hmd & _). simpl in Hmd.
        by apply list_elem_of_singleton in Hmd.
    + intros [(n & _ & Hn)|(n & _ & Hno & Hn)]%Hin; [done|].
      injection Hn as <-. by apply Hno.
Defined.

Lemma check_and_missing_agree_witness :
  _check_requirements which environ deploy_meta = Some false /\
  _get_missing_requirements which environ deploy_meta =
    Some "CLI: nosuchbin, ENV: DEPLOY_TOKEN" /\
  (false = true <-> "CLI: nosuchbin, ENV: DEPLOY_TOKEN" = "").
Proof.
  assert (_check_requirements which environ deploy_meta = Some false) as H1
    by reflexivity.
  assert (_get_missing_requirements which environ deploy_meta =
            Some "CLI: nosuchbin, ENV: DEPLOY_TOKEN") as H2 by reflexivity.
  split; [exact H1|]. split; [exact H2|].
  exact (check_and_missing_agree which environ deploy_meta _ _ H1 H2).
Defined.

(** *** A skill whose frontmatter says [always: false] *)

Definition memo_skill : string :=
  Str.join NL ["---"; "description: Notes to keep"; "always: false"; "---";
               "# Memo"].

Definition loader_memo : SkillsLoader :=
  mkLoader
    (mkRoot "ws/skills"
       (Entries [("memo", Dir (Content memo_skill));
                 ("plain", Dir (Content "# Plain"))]))
    (mkRoot "pkg/skills" Missing).

Definition memo_ref : skill_ref :=
  mkRef "memo" "ws/skills/memo/SKILL.md" "workspace".

Lemma always_skills_are_listed_witness :
  exists names,
    get_always_skills Json.loads which environ loader_memo = Some names /\
    "memo" ∈ names /\ "plain" ∉ names.
Proof.
  destruct (always_skills_are_listed Json.loads which environ loader_memo
              [memo_ref; mkRef "plain" "ws/skills/plain/SKILL.md" "workspace"])
    as (names & Hnames & Hin).
  - vm_compute. reflexivity.
  - exists names. split; [exact Hnames|]. split.
    + apply Hin.
      exists memo_ref,
        (Some [("description", "Notes to keep"); ("always", "false")]), [].
      split; [apply list_elem_of_here|]. split; [reflexivity|].
      split; [vm_compute; reflexivity|].
      split; [vm_compute; reflexivity|].
      right. exists "false". split; [reflexivity | discriminate].
    + intros (s & meta & d & _ & _ & Hmeta & Hd & Hmark)%Hin.
      vm_compute in Hmeta. injection Hmeta as <-.
      vm_compute in Hd. injection Hd as <-.
      destruct Hmark as [Hmark|(v & Hv & _)]; discriminate.
Defined.

(** *** The watcher on the three directories *)

Definition git_changed : change :=
  mkChange "modified" "ws/skills/git/SKILL.md" "git" true
           (Content "workspace git, second edition").

Definition notes_deleted : change :=
  mkChange "deleted" "ws/skills/notes/SKILL.md" "notes" true NoFile.

Definition registry_three : gmap string SkillInfo :=
  default ∅ (_load_all_skills Yaml.safe_load manager_three).

Lemma registry_stays_consistent_witness :
  exists info,
    get_skill
      (foldl (_handle_file_change Yaml.safe_load) registry_three
         [git_changed; notes_deleted]) "git" = Some info /\
    content info = "workspace git, second edition" /\
    name info = "git" /\
    _parse_commands Yaml.safe_load (content info) "git" =
      Some (commands info) /\
    source info ∈ ["global"; "workspace"; "builtin"].
Proof.
  assert (get_skill
            (foldl (_handle_file_change Yaml.safe_load) registry_three
               [git_changed; notes_deleted]) "git" =
            Some (mkSkill "git" "ws/skills/git/SKILL.md" "workspace"
                    "workspace git, second edition" [])) as Hget
    by (vm_compute; reflexivity).
  eexists. split; [exact Hget|]. split; [reflexivity|].
  destruct (registry_stays_consistent Yaml.safe_load manager_three
              registry_three [git_changed; notes_deleted] "git" _
              ltac:(vm_compute; reflexivity) Hget)
    as (Hname & Hcmds & _ & Hsource).
  split; [exact Hname|]. split; [exact Hcmds | exact Hsource].
Defined.

Lemma reload_differs_from_restart_witness :
  get_skill (_handle_file_change Yaml.safe_load registry_three git_changed)
    "git" =
    Some (mkSkill "git" "ws/skills/git/SKILL.md" "workspace"
            "workspace git, second edition" []) /\
  exists restarted,
    _load_all_skills Yaml.safe_load manager_three = Some restarted /\
    get_skill restarted "git" =
      Some (mkSkill "git" "pkg/skills/git/SKILL.md" "builtin" "builtin git"
              []).
Proof.
  apply (reload_differs_from_restart Yaml.safe_load manager_three
           registry_three git_changed
           [("git", Dir (Content "builtin git"))]
           "workspace git, second edition" "builtin git" [] []).
  - discriminate.
  - discriminate.
  - reflexivity.
  - apply NoDup_singleton.
  - apply list_elem_of_here.
  - vm_compute. reflexivity.
  - discriminate.
  - reflexivity.
  - vm_compute. reflexivity.
Defined.

(** *** Two skills that define the command [deploy] *)

Definition deploy_fast : SkillCommand :=
  mkCommand (VStr "deploy") (VStr "Deploy at once") (VStr "") "fast".

Definition deploy_safe : SkillCommand :=
  mkCommand (VStr "deploy") (VStr "Deploy after the tests") (VStr "") "safe".

Definition two_skills : list SkillInfo :=
  [mkSkill "fast" "ws/skills/fast/SKILL.md" "workspace" "# Fast"
           [deploy_fast];
   mkSkill "safe" "ws/skills/safe/SKILL.md" "workspace" "# Safe"
           [deploy_safe;
            mkCommand (VStr "check") (VStr "Run the tests") (VStr "") "safe"]].

Lemma sync_keeps_last_definition_witness :
  exists self,
    CommandsModel.sync_from_skill_manager unit [] two_skills = Some self /\
    CommandsModel.skill_manager_get_command two_skills "deploy" =
      Some deploy_fast /\
    CommandsModel.get_command unit self "deploy" =
      Some (CommandsModel.info_of unit deploy_safe) /\
    CommandsModel.has_command unit self "deploy" = true.
Proof.
  destruct (CommandsModel.sync_keeps_last_definition unit [] two_skills)
    as (self & Hsync & Hnames).
  - repeat constructor.
  - exists self. split; [exact Hsync|].
    destruct (Hnames "deploy") as (Hfirst & Hlast & Hhas).
    split; [exact Hfirst|]. split; [exact Hlast|].
    apply Hhas. rewrite Hfirst. by eexists.
Defined.

End SkillsExamples.
